(** * ETL de ventas: limpieza, clasificación y resumen mensual

    Shallow embedding of [src/main.py]:
    - [limpiar_ventas_validas]          (lines 53-100)
    - [limpiar_ventas_invalidas]        (lines 106-151)
    - [generar_ventas_resumen_mensual]  (lines 156-179)

    A pandas [DataFrame] is a list of rows labelled by their index; a column
    assignment [df[c] = f(df[c])] is a map over the rows, a boolean-mask
    selection [df[mask]] is a filter.  The text columns read by
    [pd.read_csv] ([Sale_ID], [Product], [Amount], [Date]) hold a string or
    NaN ([option string], strings being ASCII text); [Audit_Date] is stamped
    by [cargar_ficheros_en_dataframe] as a [Timestamp] or NaT.  Amounts are
    binary64 floats ([PrimFloat.float]). *)

From Stdlib Require Import ZArith List String Ascii Bool Lia.
From Stdlib Require Import Sorted Permutation DecimalString.
From Stdlib Require Import PrimFloat SpecFloat FloatOps FloatAxioms.
Import ListNotations.

Local Open Scope string_scope.
Local Open Scope list_scope.

Set Implicit Arguments.
Set Warnings "-inexact-float".

(* ================================================================== *)
(** ** Python [str] methods used by the script *)
(* ================================================================== *)

Module Py.

(** [str.upper], on ASCII letters. *)
Definition upper_ascii (c : ascii) : ascii :=
  let n := nat_of_ascii c in
  if (97 <=? n)%nat && (n <=? 122)%nat then ascii_of_nat (n - 32) else c.

Fixpoint upper (s : string) : string :=
  match s with
  | EmptyString => EmptyString
  | String c r => String (upper_ascii c) (upper r)
  end.

(** [str.isspace] on one ASCII character: TAB, LF, VT, FF, CR, the
    separators FS, GS, RS, US and the blank. *)
Definition is_space (c : ascii) : bool :=
  let n := nat_of_ascii c in
  ((9 <=? n)%nat && (n <=? 13)%nat) || ((28 <=? n)%nat && (n <=? 32)%nat).

Fixpoint all_space (s : string) : bool :=
  match s with
  | EmptyString => true
  | String c r => is_space c && all_space r
  end.

Fixpoint lstrip (s : string) : string :=
  match s with
  | EmptyString => EmptyString
  | String c r => if is_space c then lstrip r else s
  end.

Fixpoint rstrip (s : string) : string :=
  match s with
  | EmptyString => EmptyString
  | String c r => if all_space s then EmptyString else String c (rstrip r)
  end.

(** [str.strip()] *)
Definition strip (s : string) : string := rstrip (lstrip s).

(** [s.split(sep)] for a one-character separator: never empty. *)
Fixpoint split (sep : ascii) (s : string) : list string :=
  match s with
  | EmptyString => [EmptyString]
  | String c r =>
      if Ascii.eqb c sep then EmptyString :: split sep r
      else match split sep r with
           | w :: ws => String c w :: ws
           | [] => [String c EmptyString]
           end
  end.

(** [l[-1]] on the result of a split. *)
Definition last_item (l : list string) : string := last l EmptyString.

(** [s.replace(old, "")] for a non-empty literal [old]: occurrences are
    removed left to right, without overlap.  [skip] counts the characters
    of a match still to be dropped. *)
Fixpoint remove_from (old : string) (skip : nat) (s : string) : string :=
  match s with
  | EmptyString => EmptyString
  | String c r =>
      match skip with
      | S k => remove_from old k r
      | O => if prefix old s then remove_from old (String.length old - 1) r
             else String c (remove_from old 0 r)
      end
  end.

Definition remove (old s : string) : string := remove_from old 0 s.

(** [s.endswith(suffix)] *)
Definition endswith (s suffix : string) : bool :=
  (String.length suffix <=? String.length s)%nat
  && String.eqb (substring (String.length s - String.length suffix)
                           (String.length suffix) s) suffix.

(** [sub in s] *)
Fixpoint contains (s sub : string) : bool :=
  prefix sub s
  || match s with
     | EmptyString => false
     | String _ r => contains r sub
     end.

End Py.

(* ================================================================== *)
(** ** binary64 amounts: [float(str)], [numpy.round], group reductions *)
(* ================================================================== *)

Module F64.

Local Open Scope Z_scope.

Definition is_digit (c : ascii) : bool :=
  let n := nat_of_ascii c in ((48 <=? n)%nat && (n <=? 57)%nat)%bool.

Definition digit_val (c : ascii) : Z := Z.of_nat (nat_of_ascii c - 48).

Definition is_underscore (c : ascii) : bool := Ascii.eqb c "_".

(** Python allows one underscore between two digits, nowhere else. *)
Fixpoint underscores_ok (prev : option ascii) (s : list ascii) : bool :=
  match s with
  | [] => match prev with
          | Some p => negb (is_underscore p)
          | None => true
          end
  | c :: r =>
      (if is_underscore c
       then match prev with Some p => is_digit p | None => false end
       else match prev with
            | Some p => if is_underscore p then is_digit c else true
            | None => true
            end)
      && underscores_ok (Some c) r
  end.

Definition drop_underscores (s : list ascii) : list ascii :=
  filter (fun c => negb (is_underscore c)) s.

Fixpoint read_digits (s : list ascii) : list ascii * list ascii :=
  match s with
  | c :: r => if is_digit c
              then let (ds, rest) := read_digits r in (c :: ds, rest)
              else ([], s)
  | [] => ([], [])
  end.

Definition Z_of_digits (ds : list ascii) : Z :=
  fold_left (fun acc c => 10 * acc + digit_val c) ds 0.

Definition read_sign (s : list ascii) : bool * list ascii :=
  match s with
  | c :: r => if Ascii.eqb c "-" then (true, r)
              else if Ascii.eqb c "+" then (false, r)
              else (false, s)
  | [] => (false, [])
  end.

(** The exponent part: nothing, or [e]/[E], a sign and at least one
    digit, up to the end of the text. *)
Definition read_exponent (s : list ascii) : option Z :=
  match s with
  | [] => Some 0
  | c :: r =>
      if Ascii.eqb c "e" || Ascii.eqb c "E" then
        let (neg, r') := read_sign r in
        let (ds, rest) := read_digits r' in
        match ds, rest with
        | _ :: _, [] => Some (if neg then - Z_of_digits ds else Z_of_digits ds)
        | _, _ => None
        end
      else None
  end.

Inductive literal : Type :=
| LitInf
| LitNaN
| LitDec (mantissa : Z) (exp10 : Z).

Definition lower_ascii (c : ascii) : ascii :=
  let n := nat_of_ascii c in
  if ((65 <=? n)%nat && (n <=? 90)%nat)%bool then ascii_of_nat (n + 32) else c.

Definition read_unsigned (s : list ascii) : option literal :=
  let low := string_of_list_ascii (map lower_ascii s) in
  if String.eqb low "inf" || String.eqb low "infinity" then Some LitInf
  else if String.eqb low "nan" then Some LitNaN
  else
    let (ip, r1) := read_digits s in
    let (fp, r2) := match r1 with
                    | c :: r => if Ascii.eqb c "." then read_digits r else ([], r1)
                    | [] => ([], [])
                    end in
    match ip ++ fp with
    | [] => None
    | ds => match read_exponent r2 with
            | Some e => Some (LitDec (Z_of_digits ds) (e - Z.of_nat (List.length fp)))
            | None => None
            end
    end.

(** The binary64 nearest (ties to even) to [m * 10^e], [m > 0].  The two
    first tests only spare the computation of an astronomic power of ten:
    there the value is above the largest finite float, or below half the
    smallest one. *)
Definition round_decimal (neg : bool) (m e : Z) : spec_float :=
  if m <=? 0 then S754_zero neg
  else if (0 <=? e) && (1024 <=? Z.log2 m + 3 * e) then S754_infinity neg
  else if (e <? 0) && (Z.log2 m + 1 + 3 * e <=? -1075) then S754_zero neg
  else if 0 <=? e then binary_round prec emax neg (Z.to_pos (m * 10 ^ e)) 0
  else let '(q, e', loc) := SFdiv_core_binary prec emax m 0 (10 ^ (- e)) 0 in
       binary_round_aux prec emax neg q e' loc.

(** The characters [float] skips at both ends of a text (C's [isspace]):
    TAB, LF, VT, FF, CR and the blank.  The separators FS, GS, RS and US,
    which [str.strip] removes, are not among them. *)
Definition is_blank (c : ascii) : bool :=
  let n := nat_of_ascii c in
  (((9 <=? n)%nat && (n <=? 13)%nat) || (n =? 32)%nat)%bool.

Fixpoint all_blank (s : string) : bool :=
  match s with
  | EmptyString => true
  | String c r => (is_blank c && all_blank r)%bool
  end.

Fixpoint lstrip_blank (s : string) : string :=
  match s with
  | EmptyString => EmptyString
  | String c r => if is_blank c then lstrip_blank r else s
  end.

Fixpoint rstrip_blank (s : string) : string :=
  match s with
  | EmptyString => EmptyString
  | String c r => if all_blank s then EmptyString else String c (rstrip_blank r)
  end.

Definition strip_blank (s : string) : string := rstrip_blank (lstrip_blank s).

(** Python's [float(s)] on a string; [None] is the [ValueError]
    "could not convert string to float". *)
Definition float_of_string (s : string) : option float :=
  let cs := list_ascii_of_string (strip_blank s) in
  if underscores_ok None cs then
    let (neg, body) := read_sign (drop_underscores cs) in
    match read_unsigned body with
    | Some LitInf => Some (if neg then neg_infinity else infinity)
    | Some LitNaN => Some nan
    | Some (LitDec m e) => Some (SF2Prim (round_decimal neg m e))
    | None => None
    end
  else None.

(** The integer nearest to [m / d] for [d > 0], the even one of the two
    when [m / d] lies half-way. *)
Definition nearest_even (m d : Z) : Z :=
  let q := m / d in
  let r := m mod d in
  if 2 * r <? d then q
  else if d <? 2 * r then q + 1
  else if Z.even q then q else q + 1.

(** The float of the integer [n >= 0] with the sign [neg] (kept on zero);
    exact below [2^53]. *)
Definition of_integer (neg : bool) (n : Z) : float :=
  let x := of_uint63 (Uint63Axioms.of_Z n) in
  if neg then (- x)%float else x.

(** [numpy.rint] (C's [rint] under the default rounding): the nearest
    integer, ties to even, the sign kept.  A float [m * 2^e] with [e >= 0]
    is an integer already; zeros, infinities and NaN are returned as they
    are. *)
Definition rint (x : float) : float :=
  match Prim2SF x with
  | S754_finite s m e =>
      if 0 <=? e then x else of_integer s (nearest_even (Zpos m) (2 ^ (- e)))
  | _ => x
  end.

(** [numpy.round(x, 2)]: scale by [10^2], [rint], scale back. *)
Definition round2 (x : float) : float := (rint (x * 100) / 100)%float.

(** [pandas.notna] on a float cell. *)
Definition notna (x : float) : bool := negb (is_nan x).

(** The [sum] reduction of a group ([group_sum] of pandas' groupby
    kernels): NaN cells are skipped and the running sum carries a Kahan
    compensation term, reset when it is not a number. *)
Definition kahan_step (st : float * float) (val : float) : float * float :=
  let '(sumx, comp) := st in
  if is_nan val then st
  else
    let y := (val - comp)%float in
    let t := (sumx + y)%float in
    let c := (t - sumx - y)%float in
    (t, if is_nan c then zero else c).

Definition group_sum (vals : list float) : float :=
  fst (fold_left kahan_step vals (zero, zero)).

(** The [count] reduction: number of non-NaN cells. *)
Definition group_count (vals : list float) : Z :=
  Z.of_nat (List.length (filter notna vals)).

(** The [min] reduction: NaN cells skipped, a strictly smaller cell
    replaces the running minimum, NaN for a group without values. *)
Definition group_min (vals : list float) : float :=
  match filter notna vals with
  | [] => nan
  | obs => fold_left (fun m v => if (v <? m)%float then v else m) obs infinity
  end.

End F64.

(* ================================================================== *)
(** ** Calendar dates *)
(* ================================================================== *)

(** A [pandas.Timestamp] at day resolution. *)
Record Timestamp : Type := mkTimestamp { year : nat; month : nat; day : nat }.

Module Dates.

Definition string_of_nat (n : nat) : string :=
  match n with
  | O => "0"
  | _ => NilEmpty.string_of_uint (Nat.to_uint n)
  end.

(** Left padding with zeros up to [width] characters. *)
Fixpoint zeros (k : nat) : string :=
  match k with
  | O => EmptyString
  | S k' => String "0" (zeros k')
  end.

Definition zfill (width : nat) (s : string) : string :=
  zeros (width - String.length s) ++ s.

(** [t.strftime('%m/%Y')] *)
Definition strftime_m_Y (t : Timestamp) : string :=
  zfill 2 (string_of_nat (month t)) ++ "/" ++ zfill 4 (string_of_nat (year t)).

Definition is_leap (y : nat) : bool :=
  ((y mod 4 =? 0) && negb (y mod 100 =? 0) || (y mod 400 =? 0))%nat.

Definition days_in_month (y m : nat) : nat :=
  match m with
  | 2 => if is_leap y then 29 else 28
  | 4 | 6 | 9 | 11 => 30
  | _ => 31
  end.

(** Days representable by a nanosecond [Timestamp]:
    1677-09-22 .. 2262-04-11. *)
Definition in_bounds (y m d : nat) : bool :=
  let key := (Z.of_nat y * 10000 + Z.of_nat m * 100 + Z.of_nat d)%Z in
  ((16770922 <=? key) && (key <=? 22620411))%Z.

Definition nat_of_digits (ds : list ascii) : option nat :=
  if forallb F64.is_digit ds
  then Some (fold_left (fun acc c => 10 * acc + (nat_of_ascii c - 48))%nat ds 0%nat)
  else None.

(** Strict ["%Y-%m-%d"] parsing: four digits, dash, two digits, dash, two
    digits, naming a day of the calendar. *)
Definition parse_iso (s : string) : option Timestamp :=
  match list_ascii_of_string s with
  | [y1; y2; y3; y4; s1; m1; m2; s2; d1; d2] =>
      if Ascii.eqb s1 "-" && Ascii.eqb s2 "-" then
        match nat_of_digits [y1; y2; y3; y4], nat_of_digits [m1; m2],
              nat_of_digits [d1; d2] with
        | Some y, Some m, Some d =>
            if ((1 <=? m) && (m <=? 12) && (1 <=? d)
                && (d <=? days_in_month y m))%nat && in_bounds y m d
            then Some (mkTimestamp y m d)
            else None
        | _, _, _ => None
        end
      else None
  | _ => None
  end.

End Dates.

(* ================================================================== *)
(** ** Data frames *)
(* ================================================================== *)

(** One row of the sales frame.  [TA] is the cell type of [Amount] (text as
    read, then [float]), [TD] the cell type of [Date] (text as read, then
    [Timestamp]); [None] is NaN/NaT. *)
Record Row (TA TD : Type) : Type := mkRow {
  Sale_ID    : option string;
  Product    : option string;
  Amount     : TA;
  Date       : TD;
  Audit_Date : option Timestamp
}.

(** A frame: rows in order, each with its index label. *)
Definition DataFrame (TA TD : Type) : Type := list (nat * Row TA TD).

(** The frame as [cargar_ficheros_en_dataframe] builds it: text columns and
    the index [0 .. n-1] of [pd.concat(..., ignore_index=True)]. *)
Definition RawRecord : Type := Row (option string) (option string).
Definition RawFrame : Type := DataFrame (option string) (option string).

Definition frame_of (batch : list RawRecord) : RawFrame :=
  combine (seq 0 (List.length batch)) batch.

(** The frame [limpiar_ventas_validas] returns. *)
Definition ValidSale : Type := Row float (option Timestamp).
Definition ValidFrame : Type := DataFrame float (option Timestamp).

(** A row of [Ventas_Invalidas_M]: the prepared row and its [Reason]. *)
Record InvalidSale : Type := mkInvalid {
  inv_row : RawRecord;
  Reason  : string
}.

(** A row of [Ventas_Resumen_Mensual]. *)
Record MonthlySummaryRow : Type := mkSummary {
  Mes                  : string;
  Producto             : string;
  Ventas_Totales       : float;
  Numero_Transacciones : Z;
  Venta_Minima         : float
}.

(** Exceptions and results of a call that may raise. *)
Inductive exn : Type :=
| ValueError (text : string).

Inductive result (T : Type) : Type :=
| Ok (v : T)
| Raise (e : exn).

Arguments Ok {T} v.
Arguments Raise {T} e.

Definition bind {T U : Type} (m : result T) (k : T -> result U) : result U :=
  match m with
  | Ok v => k v
  | Raise e => Raise e
  end.

Notation "x <- m ;; k" := (bind m (fun x => k))
  (at level 61, m at next level, right associativity).

(** A whole-column operation that raises at the first failing cell. *)
Fixpoint traverse {T U : Type} (f : T -> result U) (l : list T) : result (list U) :=
  match l with
  | [] => Ok []
  | x :: r => y <- f x ;; ys <- traverse f r ;; Ok (y :: ys)
  end.

(** [try: body / except Exception: return fallback] *)
Definition try_except {T : Type} (body : result T) (fallback : T) : T :=
  match body with
  | Ok v => v
  | Raise _ => fallback
  end.

Section Frames.

Context {TA TD : Type}.

Definition set_Sale_ID (f : option string -> option string) (r : Row TA TD) : Row TA TD :=
  mkRow (f (Sale_ID r)) (Product r) (Amount r) (Date r) (Audit_Date r).

Definition set_Product (f : option string -> option string) (r : Row TA TD) : Row TA TD :=
  mkRow (Sale_ID r) (f (Product r)) (Amount r) (Date r) (Audit_Date r).

Definition set_Amount {TA' : Type} (a : TA') (r : Row TA TD) : Row TA' TD :=
  mkRow (Sale_ID r) (Product r) a (Date r) (Audit_Date r).

Definition set_Date {TD' : Type} (d : TD') (r : Row TA TD) : Row TA TD' :=
  mkRow (Sale_ID r) (Product r) (Amount r) d (Audit_Date r).

(** [df[c] = f(df[c])]: the rows keep their labels. *)
Definition assign {R R' : Type} (f : R -> R') (df : list (nat * R)) : list (nat * R') :=
  map (fun ir => (fst ir, f (snd ir))) df.

(** [df[mask]] *)
Definition select {R : Type} (mask : R -> bool) (df : list (nat * R)) : list (nat * R) :=
  filter (fun ir => mask (snd ir)) df.

(** [df[c]]: the cells of a column, in row order. *)
Definition column {R C : Type} (c : R -> C) (df : list (nat * R)) : list C :=
  map (fun ir => c (snd ir)) df.

(** The index labels of a frame. *)
Definition index {R : Type} (df : list (nat * R)) : list nat := map fst df.

End Frames.

(** [Series.notna] on a text or date cell. *)
Definition notna {T : Type} (c : option T) : bool :=
  match c with
  | Some _ => true
  | None => false
  end.

(** A [.str] method: NaN stays NaN. *)
Definition str_method (f : string -> string) (c : option string) : option string :=
  option_map f c.

(** Equality of two [Sale_ID] cells as the duplicate detection sees it (NaN
    matches NaN). *)
Definition key_eqb (a b : option string) : bool :=
  match a, b with
  | Some x, Some y => String.eqb x y
  | None, None => true
  | _, _ => false
  end.

Definition key_mem (k : option string) (l : list (option string)) : bool :=
  existsb (key_eqb k) l.

(** [df.drop_duplicates(subset=['Sale_ID'], keep='first')]: a row is kept
    when no row above it carries its key.  [seen] holds the keys met. *)
Fixpoint drop_duplicates_from {TA TD : Type} (seen : list (option string))
    (df : DataFrame TA TD) : DataFrame TA TD :=
  match df with
  | [] => []
  | ir :: rest =>
      if key_mem (Sale_ID (snd ir)) seen
      then drop_duplicates_from seen rest
      else ir :: drop_duplicates_from (Sale_ID (snd ir) :: seen) rest
  end.

Definition drop_duplicates {TA TD : Type} (df : DataFrame TA TD) : DataFrame TA TD :=
  drop_duplicates_from [] df.

(** [df.duplicated(subset='Sale_ID', keep=False)] as a mask on the rows of
    [df]: the key occurs on more than one row. *)
Definition count_key {TA TD : Type} (k : option string) (df : DataFrame TA TD) : nat :=
  List.length (filter (fun ir => key_eqb k (Sale_ID (snd ir))) df).

Definition duplicated {TA TD : Type} (df : DataFrame TA TD) (r : Row TA TD) : bool :=
  (1 <? count_key (Sale_ID r) df)%nat.

(* ================================================================== *)
(** ** The pandas behaviours the script leaves to the library *)
(* ================================================================== *)

(** Two behaviours of pandas are not fixed by the script:
    - [Series.astype(str)] writes the text ["nan"] for a NaN cell up to
      pandas 2 and keeps the cell missing from pandas 3 on
      ([nan_as_text]);
    - [pd.to_datetime(column, errors='coerce')] is called without a format:
      the rule applied to a cell is chosen by pandas from the column
      ([strptime column text], [None] being NaT). *)
Record Pandas : Type := mkPandas {
  nan_as_text : bool;
  strptime    : list (option string) -> string -> option Timestamp
}.

(** pandas 2 and pandas 3 on columns of ["%Y-%m-%d"] dates. *)
Definition pandas2 : Pandas := mkPandas true (fun _ s => Dates.parse_iso s).
Definition pandas3 : Pandas := mkPandas false (fun _ s => Dates.parse_iso s).

(* ================================================================== *)
(** ** The three transformations of [main.py] *)
(* ================================================================== *)

(** Line 67: [.str.upper().str.strip().str.split('-').str[-1]] *)
Definition arreglar_product (s : string) : string :=
  Py.last_item (Py.split "-" (Py.strip (Py.upper s))).

(** Line 77: [.str.replace('USD', '').str.replace('EUR', '')] *)
Definition quitar_divisa (s : string) : string :=
  Py.remove "EUR" (Py.remove "USD" s).

(** Line 79: [.astype(float)] on a text cell: NaN stays NaN, a text that
    [float] refuses raises [ValueError]. *)
Definition astype_float (c : option string) : result float :=
  match c with
  | None => Ok nan
  | Some s => match F64.float_of_string s with
              | Some x => Ok x
              | None => Raise (ValueError s)
              end
  end.

(** Line 81: [.str.endswith('EUR', na=False)] *)
Definition endswith_EUR (c : option string) : bool :=
  match c with
  | Some s => Py.endswith s "EUR"
  | None => false
  end.

(** Lines 75-83 on one cell of [Amount]. *)
Definition arreglar_amount (amount_original : option string) : result float :=
  x <- astype_float (str_method quitar_divisa amount_original) ;;
  Ok (F64.round2 (if endswith_EUR amount_original then (x * 0.85)%float else x)).

(** Line 113: [.str.split('-').str[-1].str.upper()] *)
Definition producto_invalidas (s : string) : string :=
  Py.upper (Py.last_item (Py.split "-" s)).

(** Line 129: [.str.contains('USD|EUR', na=False)] *)
Definition contains_divisa (c : option string) : bool :=
  match c with
  | Some s => Py.contains s "USD" || Py.contains s "EUR"
  | None => false
  end.

(** [pd.concat(frames, ignore_index=True)] *)
Definition concat_ignore_index {R : Type} (frames : list (list (nat * R))) : list (nat * R) :=
  let rows := map snd (List.concat frames) in
  combine (seq 0 (List.length rows)) rows.

(** Lexicographic order on the group keys [(Mes, Product)], strings being
    compared character by character. *)
Definition group_key : Type := (string * string)%type.

Definition group_key_ltb (a b : group_key) : bool :=
  match String.compare (fst a) (fst b) with
  | Lt => true
  | Eq => String.ltb (snd a) (snd b)
  | Gt => false
  end.

Definition group_key_eqb (a b : group_key) : bool :=
  String.eqb (fst a) (fst b) && String.eqb (snd a) (snd b).

(** The sorted distinct keys of a [groupby] (default [sort=True]). *)
Fixpoint insert_key (k : group_key) (l : list group_key) : list group_key :=
  match l with
  | [] => [k]
  | h :: t => if group_key_ltb k h then k :: l
              else if group_key_eqb k h then l
              else h :: insert_key k t
  end.

Definition sorted_keys (ks : list group_key) : list group_key :=
  fold_right insert_key [] ks.

Section Pipeline.

Variable pd : Pandas.

(** [Series.astype(str)] on a text cell. *)
Definition astype_str (c : option string) : option string :=
  match c with
  | Some s => Some s
  | None => if nan_as_text pd then Some "nan" else None
  end.

(** [pd.to_datetime(column, errors='coerce')] on one cell of [column]. *)
Definition to_datetime (column : list (option string)) (c : option string)
  : option Timestamp :=
  match c with
  | Some s => strptime pd column s
  | None => None
  end.

(** *** [limpiar_ventas_validas], lines 53-100

    The function is written in four blocks, one per column.  The frame is
    one of text columns, on which the [.str] accessor of lines 59, 67 and
    77 is defined: a column that [pd.read_csv] types as numbers, on which
    the accessor raises [AttributeError], is not described. *)

(** ARREGLOS SALE_ID, lines 59-63. *)
Definition arreglos_sale_id (df : RawFrame) : RawFrame :=
  (* 59 *) let df := assign (set_Sale_ID (str_method Py.upper)) df in
  (* 61 *) let df := select (fun r => notna (Sale_ID r)) df in
  (* 63 *) drop_duplicates df.

(** ARREGLOS PRODUCT, lines 67-69. *)
Definition arreglos_product (df : RawFrame) : RawFrame :=
  (* 67 *) let df := assign (set_Product (str_method arreglar_product)) df in
  (* 69 *) select (fun r => notna (Product r)) df.

(** ARREGLOS AMOUNT, lines 75-87: the conversion of the column raises at
    the first text [float] refuses. *)
Definition arreglos_amount (df : RawFrame) : result (DataFrame float (option string)) :=
  (* 75-83 *)
  df <- traverse (fun ir => x <- arreglar_amount (Amount (snd ir)) ;;
                            Ok (fst ir, set_Amount x (snd ir))) df ;;
  (* 85 *) Ok (select (fun r => F64.notna (Amount r)) df).

(** ARREGLOS DATE, lines 92-97.  [Audit_Date] is a datetime column already:
    line 93 leaves it as it is. *)
Definition arreglos_date (df : DataFrame float (option string)) : ValidFrame :=
  (* 92 *) let fechas := column (fun r => Date r) df in
           let df := assign (fun r => set_Date (to_datetime fechas (Date r)) r) df in
  (* 96 *) let df := select (fun r => notna (Date r)) df in
  (* 97 *) select (fun r => notna (Audit_Date r)) df.

Definition limpiar_ventas_validas (df_principal : RawFrame) : result ValidFrame :=
  let df := df_principal in
  let df := arreglos_sale_id df in
  let df := arreglos_product df in
  df <- arreglos_amount df ;;
  Ok (arreglos_date df).

(** *** [limpiar_ventas_invalidas], lines 106-151 *)

(** Lines 112-113. *)
Definition preparar_invalidas (df_principal : RawFrame) : RawFrame :=
  let df := df_principal in
  let df := assign (set_Sale_ID (fun c => str_method Py.upper (astype_str c))) df in
  let df := assign (set_Product (fun c => str_method producto_invalidas (astype_str c))) df in
  df.

(** Line 119: [df.isnull().any(axis=1)] *)
Definition mask_nulos (r : RawRecord) : bool :=
  negb (notna (Sale_ID r)) || negb (notna (Product r)) || negb (notna (Amount r))
  || negb (notna (Date r)) || negb (notna (Audit_Date r)).

(** Lines 127-129. *)
Definition mask_monto_invalido (r : RawRecord) : bool :=
  let Amount_str := str_method Py.upper (astype_str (Amount r)) in
  negb (contains_divisa Amount_str).

(** Line 120. *)
Definition df_nulos (df_principal : RawFrame) : RawFrame :=
  select mask_nulos (preparar_invalidas df_principal).

(** Line 125. *)
Definition df_no_nulos (df_principal : RawFrame) : RawFrame :=
  select (fun r => negb (mask_nulos r)) (preparar_invalidas df_principal).

(** Line 130. *)
Definition df_monto_invalido (df_principal : RawFrame) : RawFrame :=
  select mask_monto_invalido (df_no_nulos df_principal).

(** Line 134. *)
Definition df_restantes (df_principal : RawFrame) : RawFrame :=
  select (fun r => negb (mask_monto_invalido r)) (df_no_nulos df_principal).

(** Lines 136-137. *)
Definition df_duplicados (df_principal : RawFrame) : RawFrame :=
  select (duplicated (df_restantes df_principal)) (df_restantes df_principal).

(** [bucket['Reason'] = reason] *)
Definition with_reason (reason : string) (bucket : RawFrame) : list (nat * InvalidSale) :=
  assign (fun r => mkInvalid r reason) bucket.

Definition limpiar_ventas_invalidas (df_principal : RawFrame) : list (nat * InvalidSale) :=
  try_except
    (Ok (concat_ignore_index
           [ with_reason "N" (df_nulos df_principal);
             with_reason "A" (df_monto_invalido df_principal);
             with_reason "D" (df_duplicados df_principal) ]))
    [].

(** *** [generar_ventas_resumen_mensual], lines 156-179 *)

(** Line 164: [df['Date'].dt.strftime('%m/%Y')], NaT giving NaN. *)
Definition Mes_of (r : ValidSale) : option string :=
  option_map Dates.strftime_m_Y (Date r).

(** The key of a row in [groupby(['Mes', 'Product'])]; rows with a missing
    key cell belong to no group. *)
Definition key_of (r : ValidSale) : option group_key :=
  match Mes_of r, Product r with
  | Some m, Some p => Some (m, p)
  | _, _ => None
  end.

Definition has_key (k : group_key) (r : ValidSale) : bool :=
  match key_of r with
  | Some k' => group_key_eqb k k'
  | None => false
  end.

(** The [Amount] cells of the group of [k], in row order. *)
Definition group_amounts (df : ValidFrame) (k : group_key) : list float :=
  column (fun r => Amount r) (select (has_key k) df).

Fixpoint observed_keys (df : ValidFrame) : list group_key :=
  match df with
  | [] => []
  | ir :: rest => match key_of (snd ir) with
                  | Some k => k :: observed_keys rest
                  | None => observed_keys rest
                  end
  end.

(** Lines 167-172. *)
Definition resumen_row (df : ValidFrame) (k : group_key) : MonthlySummaryRow :=
  let amounts := group_amounts df k in
  mkSummary (fst k) (snd k) (F64.group_sum amounts) (F64.group_count amounts)
            (F64.group_min amounts).

Definition generar_ventas_resumen_mensual (df : ValidFrame) : list MonthlySummaryRow :=
  try_except
    (Ok (map (resumen_row df) (sorted_keys (observed_keys df))))
    [].

End Pipeline.

(* ================================================================== *)
(** ** Notions used in the statements *)
(* ================================================================== *)

(** The normalization of one record, column by column as the validity
    classifier does it, a cell that cannot be converted being absent (NaN
    for an amount).  [fechas] is the column the dates are parsed in. *)
Definition normalizar (pd : Pandas) (fechas : list (option string)) (r : RawRecord)
  : ValidSale :=
  mkRow (str_method Py.upper (Sale_ID r))
        (str_method arreglar_product (Product r))
        (match arreglar_amount (Amount r) with
         | Ok x => x
         | Raise _ => nan
         end)
        (to_datetime pd fechas (Date r))
        (Audit_Date r).

(** No absent field among the five. *)
Definition completo (v : ValidSale) : bool :=
  notna (Sale_ID v) && notna (Product v) && F64.notna (Amount v)
  && notna (Date v) && notna (Audit_Date v).

(** The algorithm of the specification for the validity classifier: drop
    every normalized record with an absent field, then deduplicate the
    remainder by [Sale_ID], first occurrence kept. *)
Definition spec_validity_classifier (pd : Pandas) (df : RawFrame) : ValidFrame :=
  drop_duplicates (select completo (assign (normalizar pd (column (fun r => Date r) df)) df)).

(** The row of the invalidity classifier for a record (lines 112-113). *)
Definition preparado (pd : Pandas) (r : RawRecord) : RawRecord :=
  set_Product (fun c => str_method producto_invalidas (astype_str pd c))
    (set_Sale_ID (fun c => str_method Py.upper (astype_str pd c)) r).

(** The [Sale_ID] two records are compared by: the upper-cased text. *)
Definition clave (r : RawRecord) : option string := str_method Py.upper (Sale_ID r).

(** A currency tag is valid when the upper-cased amount text holds USD or
    EUR. *)
Definition divisa_valida (r : RawRecord) : bool :=
  contains_divisa (str_method Py.upper (Amount r)).

(** The frame the dates are parsed in (line 92) when the amount block
    returns, the empty frame when it raises. *)
Definition antes_de_fechas (df : RawFrame) : DataFrame float (option string) :=
  match arreglos_amount (arreglos_product (arreglos_sale_id df)) with
  | Ok df1 => df1
  | Raise _ => []
  end.

Definition fechas_validas (df : RawFrame) : list (option string) :=
  column (fun r => Date r) (antes_de_fechas df).

(** [n] is the integer nearest to [m * 2^e], the even one when two
    integers are equally near. *)
Definition entero_mas_cercano (m : positive) (e : Z) (n : Z) : Prop :=
  if (0 <=? e)%Z then n = (Zpos m * 2 ^ e)%Z
  else
    let d := (2 ^ (- e))%Z in
    (Z.abs (2 * (n * d - Zpos m)) <= d)%Z
    /\ (Z.abs (2 * (n * d - Zpos m)) = d -> Z.even n = true).

(** Membership of the record labelled [i] in a frame. *)
Definition en {R : Type} (i : nat) (df : list (nat * R)) : Prop := In i (index df).

(** The record labelled [i] lies in exactly one of three frames. *)
Definition en_exactamente_uno {R : Type} (i : nat) (n a d : list (nat * R)) : Prop :=
  (en i n /\ ~ en i a /\ ~ en i d)
  \/ (~ en i n /\ en i a /\ ~ en i d)
  \/ (~ en i n /\ ~ en i a /\ en i d).

(** The record labelled [i] is the first of the frame to carry its
    [Sale_ID]. *)
Definition primera_aparicion (df : RawFrame) (i : nat) (r : RawRecord) : Prop :=
  forall j q, In (j, q) df -> j < i -> key_eqb (clave r) (clave q) = false.

(** Index labels in strictly increasing order, as in a frame read by
    [cargar_ficheros_en_dataframe] and in any selection of its rows. *)
Definition ordenado {R : Type} (df : list (nat * R)) : Prop :=
  StronglySorted lt (index df).

(* ================================================================== *)
(** ** Sample batches *)
(* ================================================================== *)

Definition audit_abril : option Timestamp := Some (mkTimestamp 2024 4 1).

Definition venta (sale_id product amount date : string) : RawRecord :=
  mkRow (Some sale_id) (Some product) (Some amount) (Some date) audit_abril.

(** A sale without [Date] and without currency tag. *)
Definition venta_sin_fecha : RawRecord :=
  mkRow (Some "S1") (Some "P-A") (Some "100") None audit_abril.

(** An amount and a date that are present but cannot be converted. *)
Definition lote_no_convertible : list RawRecord :=
  [ venta "S1" "P-A" "abcUSD" "2024-03-05";
    venta "S2" "P-A" "10USD" "05/03/2024" ].

(** A complete sale whose [Sale_ID] was first carried by a sale without
    [Date]. *)
Definition lote_repetida_tras_incompleta : list RawRecord :=
  [ mkRow (Some "S1") (Some "P-A") (Some "10USD") None audit_abril;
    venta "s1" "P-A" "10USD" "2024-03-05" ].

(** Two complete sales sharing ["X1"], then a third sale. *)
Definition lote_duplicadas : list RawRecord :=
  [ venta "X1" "P-A" "10USD" "2024-03-05";
    venta "x1" "P-B" "20EUR" "2024-03-06";
    venta "X2" "P-A" "5USD" "2024-03-07" ].

(** One sale per way of writing the amount. *)
Definition lote_importes : list RawRecord :=
  [ venta "S1" "P-A" "100EUR" "2024-03-05";
    venta "S2" "P-A" "100USD" "2024-03-05";
    venta "S3" "P-A" "100" "2024-03-05" ].

(** Two valid sales of product A in March 2024. *)
Definition ventas_marzo : ValidFrame :=
  [ (0, mkRow (Some "S1") (Some "A") 10%float (Some (mkTimestamp 2024 3 5)) audit_abril);
    (1, mkRow (Some "S2") (Some "A") 25.5%float (Some (mkTimestamp 2024 3 9)) audit_abril) ].

(** A sale without [Date], then two complete sales, all three sharing
    ["X1"]. *)
Definition lote_duplicadas_tras_incompleta : list RawRecord :=
  [ mkRow (Some "X1") (Some "P-A") (Some "10USD") None audit_abril;
    venta "X1" "P-A" "10USD" "2024-03-05";
    venta "x1" "P-B" "20EUR" "2024-03-06" ].

(** A sale without [Sale_ID] and without currency tag. *)
Definition venta_sin_clave : RawRecord :=
  mkRow None (Some "P-A") (Some "100") (Some "2024-03-05") audit_abril.

Definition lote_sin_clave : list RawRecord :=
  [ venta_sin_clave; venta "S2" "P-A" "10USD" "2024-03-06" ].

(** The key of a summary row, and the strict order the rows come in. *)
Definition summary_key (row : MonthlySummaryRow) : group_key :=
  (Mes row, Producto row).

Definition group_key_lt (a b : group_key) : Prop := group_key_ltb a b = true.

(** The rows of the group of [k]. *)
Definition group_rows (df : ValidFrame) (k : group_key) : ValidFrame :=
  select (has_key k) df.

(** A date text that does not parse, an amount text that converts to NaN,
    a sale without currency tag, and a later sale with its [Sale_ID]. *)
Definition lote_sin_destino : list RawRecord :=
  [ venta "S1" "P-A" "10USD" "bad";
    venta "S2" "P-A" "nanUSD" "2024-03-05";
    venta "S3" "P-A" "100" "2024-03-05";
    venta "s3" "P-A" "7EUR" "2024-03-05" ].

(* ================================================================== *)
(** ** [formatear_fechas], lines 201-210 of [main.py] *)
(* ================================================================== *)

(** [t.strftime('%Y-%m-%d')] *)
Definition strftime_Y_m_d (t : Timestamp) : string :=
  Dates.zfill 4 (Dates.string_of_nat (year t)) ++ "-"
  ++ Dates.zfill 2 (Dates.string_of_nat (month t)) ++ "-"
  ++ Dates.zfill 2 (Dates.string_of_nat (day t)).

(** [column.dt.strftime('%Y-%m-%d')] on one cell: NaT gives NaN. *)
Definition dt_strftime (c : option Timestamp) : option string :=
  option_map strftime_Y_m_d c.

(** A cell [pd.to_datetime(column, errors='coerce')] is applied to: a text
    is parsed in its column, a timestamp is kept. *)
Class DateCell (T : Type) : Type :=
  a_datetime : Pandas -> list T -> T -> option Timestamp.

#[export] Instance DateCell_texto : DateCell (option string) :=
  fun pd columna c => to_datetime pd columna c.

#[export] Instance DateCell_timestamp : DateCell (option Timestamp) :=
  fun _ _ c => c.

(** A sale once its two dates are texts. *)
Record FilaFormateada (TA : Type) : Type := mkFormateada {
  f_Sale_ID    : option string;
  f_Product    : option string;
  f_Amount     : TA;
  f_Date       : option string;
  f_Audit_Date : option string
}.

(** A row of [Ventas_Invalidas_M] once formatted. *)
Record InvalidaFormateada : Type := mkInvalidaFormateada {
  fi_fila   : FilaFormateada (option string);
  fi_Reason : string
}.

(** Lines 204-209 on one row; [fechas] and [auditorias] are the two date
    columns of the frame. *)
Definition formatear_fila {TA TD : Type} `{DateCell TD} (pd : Pandas)
    (fechas : list TD) (auditorias : list (option Timestamp)) (r : Row TA TD)
  : FilaFormateada TA :=
  mkFormateada (Sale_ID r) (Product r) (Amount r)
               (dt_strftime (a_datetime pd fechas (Date r)))
               (dt_strftime (a_datetime pd auditorias (Audit_Date r))).

(** [formatear_fechas] on a frame of sales: both columns are there. *)
Definition formatear_fechas {TA TD : Type} `{DateCell TD} (pd : Pandas)
    (df : DataFrame TA TD) : list (nat * FilaFormateada TA) :=
  assign (formatear_fila pd (column (fun r => Date r) df)
                         (column (fun r => Audit_Date r) df)) df.

(** [formatear_fechas] on the frame of the invalid sales: the sale columns
    are formatted, [Reason] is kept. *)
Definition formatear_fechas_invalidas (pd : Pandas) (df : list (nat * InvalidSale))
  : list (nat * InvalidaFormateada) :=
  let ventas := assign inv_row df in
  assign (fun s => mkInvalidaFormateada
                     (formatear_fila pd (column (fun r => Date r) ventas)
                                     (column (fun r => Audit_Date r) ventas)
                                     (inv_row s))
                     (Reason s)) df.

(** [formatear_fechas] on the monthly summary: it has neither [Date] nor
    [Audit_Date], nothing is done. *)
Definition formatear_fechas_resumen (df : list MonthlySummaryRow)
  : list MonthlySummaryRow := df.

(* ================================================================== *)
(** ** [cargar_ficheros_en_dataframe], lines 166-206 of [etl_utils.py] *)
(* ================================================================== *)

(** A row of a file of sales as [pd.read_csv] returns it: the header is
    [Sale_ID,Product,Amount,Date] and each of the four columns is read as
    text, a cell being a string or NaN.  Files with another header, and
    columns that [pd.read_csv] types as numbers, are not described. *)
Record FilaCsv : Type := mkCsv {
  csv_Sale_ID : option string;
  csv_Product : option string;
  csv_Amount  : option string;
  csv_Date    : option string
}.

(** The folder as the function sees it: what [os.listdir] returns and
    what [pd.read_csv] returns for a file name, [None] standing for a
    raised exception. *)
Record Directorio : Type := mkDirectorio {
  listdir  : option (list string);
  read_csv : string -> option (list FilaCsv)
}.

(** The position of the last ["."] of a name, if any. *)
Fixpoint rfind_dot (s : string) : option nat :=
  match s with
  | EmptyString => None
  | String c r =>
      match rfind_dot r with
      | Some k => Some (S k)
      | None => if Ascii.eqb c "." then Some 0 else None
      end
  end.

Fixpoint solo_puntos (s : string) : bool :=
  match s with
  | EmptyString => true
  | String c r => Ascii.eqb c "." && solo_puntos r
  end.

(** [os.path.splitext(name)[0]] for a name without path separator, as
    [os.listdir] gives them: the name up to its last dot, unless only dots
    come before it. *)
Definition splitext_root (name : string) : string :=
  match rfind_dot name with
  | Some k => if solo_puntos (substring 0 k name) then name
              else substring 0 k name
  | None => name
  end.

(** Line 190: [pd.to_datetime(nombre_archivo, errors='coerce')], the
    conversion of a one-cell column. *)
Definition audit_date_of (pd : Pandas) (archivo : string) : option Timestamp :=
  let nombre_archivo := splitext_root archivo in
  to_datetime pd [Some nombre_archivo] (Some nombre_archivo).

(** Line 190: [df['Audit_Date'] = ...] on one row. *)
Definition sellar (audit : option Timestamp) (f : FilaCsv) : RawRecord :=
  mkRow (csv_Sale_ID f) (csv_Product f) (csv_Amount f) (csv_Date f) audit.

(** Lines 184-194 for one name of the listing: the frame appended to
    [dataframes], if any. *)
Definition leer_archivo (pd : Pandas) (d : Directorio) (archivo : string)
  : option (list RawRecord) :=
  if Py.endswith archivo ".csv" then
    match read_csv d archivo with
    | Some filas => Some (map (sellar (audit_date_of pd archivo)) filas)
    | None => None
    end
  else None.

(** Lines 183-194: the list [dataframes] after the loop. *)
Fixpoint dataframes (pd : Pandas) (d : Directorio) (archivos : list string)
  : list (list RawRecord) :=
  match archivos with
  | [] => []
  | archivo :: rest =>
      match leer_archivo pd d archivo with
      | Some df => df :: dataframes pd d rest
      | None => dataframes pd d rest
      end
  end.

(** What the function returns: [pd.DataFrame()], a frame without any
    column, or the concatenation of the files read. *)
Inductive Cargado : Type :=
| SinColumnas
| ConColumnas (df : RawFrame).

Definition cargar_ficheros_en_dataframe (pd : Pandas) (d : Directorio) : Cargado :=
  match listdir d with
  | Some archivos =>
      match dataframes pd d archivos with
      | [] => SinColumnas
      | dfs => ConColumnas (frame_of (List.concat dfs))
      end
  | None => SinColumnas
  end.

(* ================================================================== *)
(** ** The script, lines 184-224 of [main.py] *)
(* ================================================================== *)

(** What stops the script before anything is written. *)
Inductive Fallo : Type :=
| KeyError (columna : string)
| Propagado (e : exn)
| FalloBdd (nombre_tabla : string)
| FalloCsv (ruta_csv : string).

(** The three tables handed, formatted, to [cargar_en_bdd] and to
    [exportar_a_csv]. *)
Record Tablas : Type := mkTablas {
  Ventas_Validas_M       : list (nat * FilaFormateada float);
  Ventas_Invalidas_M     : list (nat * InvalidaFormateada);
  Ventas_Resumen_Mensual : list MonthlySummaryRow
}.

Inductive Salida : Type :=
| Aborta (f : Fallo)
| Termina (t : Tablas).

(** Lines 184-186, 192-196 and the formatting of lines 216 and 223, on what
    [cargar_ficheros_en_dataframe] returns for files of sales.  On the
    frame without columns line 59, [df['Sale_ID']], raises [KeyError]
    inside [limpiar_ventas_validas], which has no handler. *)
Definition tablas_finales (pd : Pandas) (df_principal : Cargado) : Salida :=
  match df_principal with
  | SinColumnas => Aborta (KeyError "Sale_ID")
  | ConColumnas df =>
      match limpiar_ventas_validas pd df with
      | Raise e => Aborta (Propagado e)
      | Ok df_validas =>
          let df_invalidas := limpiar_ventas_invalidas pd df in
          let df_resumen := generar_ventas_resumen_mensual df_validas in
          Termina (mkTablas (formatear_fechas pd df_validas)
                            (formatear_fechas_invalidas pd df_invalidas)
                            (formatear_fechas_resumen df_resumen))
      end
  end.

(** *** The two loops, lines 215-224 of [main.py] *)

(** A frame of [dataframes_finales] (lines 192-196). *)
Inductive Frame : Type :=
| FValidas (df : ValidFrame)
| FInvalidas (df : list (nat * InvalidSale))
| FResumen (df : list MonthlySummaryRow).

(** A frame once [formatear_fechas] went over it. *)
Inductive Tabla : Type :=
| TValidas (df : list (nat * FilaFormateada float))
| TInvalidas (df : list (nat * InvalidaFormateada))
| TResumen (df : list MonthlySummaryRow).

Definition formatear_fechas_de (pd : Pandas) (df : Frame) : Tabla :=
  match df with
  | FValidas d => TValidas (formatear_fechas pd d)
  | FInvalidas d => TInvalidas (formatear_fechas_invalidas pd d)
  | FResumen d => TResumen (formatear_fechas_resumen d)
  end.

(** A call that leaves the program: [df.to_sql(name=..., if_exists=...,
    index=False)] and [df.to_csv(ruta, index=False)]. *)
Inductive Llamada : Type :=
| ToSql (nombre_tabla : string) (df : Tabla) (if_exists : string)
| ToCsv (ruta_csv : string) (df : Tabla).

(** The outside as one run of the script meets it: whether [to_sql]
    returns for a table name and [to_csv] for a route, instead of
    raising. *)
Record Exterior : Type := mkExterior {
  to_sql_vuelve : string -> bool;
  to_csv_vuelve : string -> bool
}.

(** A piece of the script: the calls it makes, in order, and the failure
    that stops it, if any. *)
Definition Proc : Type := (list Llamada * option Fallo)%type.

(** [p] and then [q], unless [p] is stopped. *)
Definition seguido (p q : Proc) : Proc :=
  match p with
  | (llamadas, None) => (llamadas ++ fst q, snd q)
  | (llamadas, Some f) => (llamadas, Some f)
  end.

(** A [for] loop. *)
Fixpoint para_cada {A : Type} (cuerpo : A -> Proc) (l : list A) : Proc :=
  match l with
  | [] => ([], None)
  | x :: resto => seguido (cuerpo x) (para_cada cuerpo resto)
  end.

(** [cargar_en_bdd(df, nombre_tabla, engine)], lines 134-160 of
    [etl_utils.py], with [modo] left to ['replace']: whatever [to_sql]
    raises is raised again. *)
Definition cargar_en_bdd (ext : Exterior) (df : Tabla) (nombre_tabla : string) : Proc :=
  ([ToSql nombre_tabla df "replace"],
   if to_sql_vuelve ext nombre_tabla then None else Some (FalloBdd nombre_tabla)).

(** [exportar_a_csv(df, ruta_csv)], lines 108-129 of [etl_utils.py]. *)
Definition exportar_a_csv (ext : Exterior) (df : Tabla) (ruta_csv : string) : Proc :=
  ([ToCsv ruta_csv df],
   if to_csv_vuelve ext ruta_csv then None else Some (FalloCsv ruta_csv)).

(** Lines 192-196. *)
Definition dataframes_finales (df_validas : ValidFrame)
    (df_invalidas : list (nat * InvalidSale)) (df_resumen : list MonthlySummaryRow)
  : list (string * Frame) :=
  [ ("Ventas_Validas_M", FValidas df_validas);
    ("Ventas_Invalidas_M", FInvalidas df_invalidas);
    ("Ventas_Resumen_Mensual", FResumen df_resumen) ].

(** Lines 215-224: the loop of the loads, then the loop of the exports. *)
Definition carga_y_exporta (pd : Pandas) (ext : Exterior)
    (finales : list (string * Frame)) : Proc :=
  seguido
    (para_cada (fun par =>
                  let '(nombre_tabla, df) := par in
                  let df_formateado := formatear_fechas_de pd df in
                  cargar_en_bdd ext df_formateado nombre_tabla) finales)
    (para_cada (fun par =>
                  let '(nombre_archivo, df) := par in
                  let df_formateado := formatear_fechas_de pd df in
                  exportar_a_csv ext df_formateado
                    ("Resultados/" ++ nombre_archivo ++ ".csv")) finales).

(** Lines 184-224 from the loaded frame on. *)
Definition script (pd : Pandas) (ext : Exterior) (df_principal : Cargado) : Proc :=
  match df_principal with
  | SinColumnas => ([], Some (KeyError "Sale_ID"))
  | ConColumnas df =>
      match limpiar_ventas_validas pd df with
      | Raise e => ([], Some (Propagado e))
      | Ok df_validas =>
          let df_invalidas := limpiar_ventas_invalidas pd df in
          let df_resumen := generar_ventas_resumen_mensual df_validas in
          carga_y_exporta pd ext (dataframes_finales df_validas df_invalidas df_resumen)
      end
  end.

(* ================================================================== *)
(** ** Notions used in the further statements *)
(* ================================================================== *)

(** The record labelled [i] reaches the conversion of line 79: it has a
    [Sale_ID], is the first of the frame with it, and has a [Product]. *)
Definition llega_a_float (df : RawFrame) (i : nat) (r : RawRecord) : Prop :=
  Sale_ID r <> None /\ primera_aparicion df i r /\ Product r <> None.

(** The remainder of the amount text of a record, when [float] refuses
    it. *)
Definition importe_rechazado (r : RawRecord) : option string :=
  match Amount r with
  | Some s => match F64.float_of_string (quitar_divisa s) with
              | Some _ => None
              | None => Some (quitar_divisa s)
              end
  | None => None
  end.

(** A text without the character [c]. *)
Definition sin_caracter (c : ascii) (s : string) : bool :=
  forallb (fun x => negb (Ascii.eqb x c)) (list_ascii_of_string s).

(** A row of the monthly aggregator that belongs to some group. *)
Definition tiene_clave (r : ValidSale) : bool :=
  notna (Date r) && notna (Product r).

(** The folder cannot be listed, or none of its entries is a readable file
    whose name ends in [.csv]. *)
Definition sin_csv_legible (d : Directorio) : Prop :=
  listdir d = None
  \/ exists archivos,
       listdir d = Some archivos
       /\ forall a, In a archivos ->
                    Py.endswith a ".csv" = false \/ read_csv d a = None.

(** The six calls of a run that nothing stops. *)
Definition llamadas_de (t : Tablas) : list Llamada :=
  [ ToSql "Ventas_Validas_M" (TValidas (Ventas_Validas_M t)) "replace";
    ToSql "Ventas_Invalidas_M" (TInvalidas (Ventas_Invalidas_M t)) "replace";
    ToSql "Ventas_Resumen_Mensual" (TResumen (Ventas_Resumen_Mensual t)) "replace";
    ToCsv "Resultados/Ventas_Validas_M.csv" (TValidas (Ventas_Validas_M t));
    ToCsv "Resultados/Ventas_Invalidas_M.csv" (TInvalidas (Ventas_Invalidas_M t));
    ToCsv "Resultados/Ventas_Resumen_Mensual.csv" (TResumen (Ventas_Resumen_Mensual t)) ].

(** An outside where every call returns. *)
Definition exterior_sano : Exterior := mkExterior (fun _ => true) (fun _ => true).

(** An outside where the table of the invalid sales cannot be loaded. *)
Definition exterior_sin_invalidas : Exterior :=
  mkExterior (fun nombre => negb (String.eqb nombre "Ventas_Invalidas_M")) (fun _ => true).

(** The sum of a column of integers. *)
Definition suma (l : list Z) : Z := fold_right Z.add 0%Z l.

(** A folder of three entries: a file of two sales named after a day, a
    note that is no CSV, and a CSV that cannot be read. *)
Definition carpeta_ejemplo : Directorio :=
  mkDirectorio
    (Some ["2024-04-01.csv"; "notas.txt"; "roto.csv"])
    (fun archivo =>
       if String.eqb archivo "2024-04-01.csv"
       then Some [ mkCsv (Some "s1") (Some "P-A") (Some "10USD") (Some "2024-03-05");
                   mkCsv (Some "s2") (Some "P-B") (Some "20EUR") (Some "2024-03-06") ]
       else None).

(** A folder whose only CSV is not named after a day. *)
Definition carpeta_sin_fecha : Directorio :=
  mkDirectorio
    (Some ["ventas.csv"])
    (fun _ => Some [ mkCsv (Some "s1") (Some "P-A") (Some "10USD") (Some "2024-03-05") ]).

(** A folder without any CSV. *)
Definition carpeta_vacia : Directorio :=
  mkDirectorio (Some ["notas.txt"]) (fun _ => None).
Example upper_ex : Py.upper "s-01a" = "S-01A".
Proof. reflexivity. Qed.

Example strip_ex : Py.strip "  a b  " = "a b".
Proof. reflexivity. Qed.

Example split_ex : Py.split "-" "ab-c-" = ["ab"; "c"; ""].
Proof. reflexivity. Qed.

Example remove_ex : Py.remove "USD" "1USD0USD" = "10".
Proof. reflexivity. Qed.

Example remove_ex2 : Py.remove "EUR" (Py.remove "USD" "EUSDUR5") = "5".
Proof. reflexivity. Qed.

Example endswith_ex :
  Py.endswith "100EUR" "EUR" = true /\ Py.endswith "100EUR " "EUR" = false
  /\ Py.endswith "UR" "EUR" = false.
Proof. repeat split; reflexivity. Qed.

Example contains_ex :
  Py.contains "12USD" "USD" = true /\ Py.contains "12US" "USD" = false.
Proof. split; reflexivity. Qed.

Example float_of_string_ex1 :
  F64.float_of_string "100" = Some 100%float
  /\ F64.float_of_string " 25.50 " = Some 25.5%float
  /\ F64.float_of_string "0.1" = Some 0.1%float
  /\ F64.float_of_string "-1_000.25e-2" = Some (-10.0025)%float
  /\ F64.float_of_string ".5" = Some 0.5%float
  /\ F64.float_of_string "5." = Some 5%float
  /\ F64.float_of_string "1e309" = Some infinity
  /\ F64.float_of_string "1e400000000" = Some infinity
  /\ F64.float_of_string "1e-400000000" = Some 0%float
  /\ F64.float_of_string "4.9e-324" = Some 0x1p-1074%float
  /\ F64.float_of_string "1.7976931348623157e308" = Some 0x1.fffffffffffffp1023%float
  /\ F64.float_of_string "-Infinity" = Some neg_infinity.
Proof. vm_compute. repeat split; reflexivity. Qed.

Example float_of_string_ex2 :
  F64.float_of_string "" = None
  /\ F64.float_of_string "abc" = None
  /\ F64.float_of_string "1__0" = None
  /\ F64.float_of_string "1e" = None
  /\ F64.float_of_string "." = None
  /\ F64.float_of_string "+-1" = None
  /\ F64.float_of_string "12 3" = None.
Proof. vm_compute. repeat split; reflexivity. Qed.

Example round2_ex :
  F64.round2 85%float = 85%float
  /\ F64.round2 8.4915%float = 8.49%float
  /\ F64.round2 0.125%float = 0.12%float
  /\ F64.round2 (-0.375)%float = (-0.38)%float
  /\ F64.round2 infinity = infinity.
Proof. vm_compute. repeat split; reflexivity. Qed.

Example group_reductions_ex :
  F64.group_sum [10%float; 25.5%float] = 35.5%float
  /\ F64.group_count [10%float; 25.5%float] = 2%Z
  /\ F64.group_min [10%float; 25.5%float] = 10%float.
Proof. vm_compute. repeat split; reflexivity. Qed.

Example strftime_ex :
  Dates.strftime_m_Y (mkTimestamp 2024 3 9) = "03/2024"
  /\ Dates.strftime_m_Y (mkTimestamp 1999 12 31) = "12/1999".
Proof. split; reflexivity. Qed.

Example parse_iso_ex :
  Dates.parse_iso "2024-02-29" = Some (mkTimestamp 2024 2 29)
  /\ Dates.parse_iso "2023-02-29" = None
  /\ Dates.parse_iso "29/02/2024" = None
  /\ Dates.parse_iso "2024-13-01" = None
  /\ Dates.parse_iso "not a date" = None.
Proof. repeat split; reflexivity. Qed.

Example lote_sin_destino_ex :
  match limpiar_ventas_validas pandas2 (frame_of lote_sin_destino) with
  | Ok out => index out = [2]
  | Raise _ => False
  end
  /\ map (fun ir => Reason (snd ir))
         (limpiar_ventas_invalidas pandas2 (frame_of lote_sin_destino)) = ["A"]
  /\ index (df_monto_invalido pandas2 (frame_of lote_sin_destino)) = [2].
Proof. vm_compute. repeat split; reflexivity. Qed.

Example arreglar_amount_ex :
  arreglar_amount (Some "8.5EUR") = Ok 7.22%float
  /\ arreglar_amount (Some "EUR") = Raise (ValueError "")
  /\ arreglar_amount None = Ok nan.
Proof. vm_compute. repeat split; reflexivity. Qed.

(** [float] does not skip the separator FS, which [str.strip] removes. *)
Example float_of_string_ex3 :
  Py.strip (String (ascii_of_nat 28) "1") = "1"
  /\ F64.float_of_string (String (ascii_of_nat 28) "1") = None
  /\ F64.float_of_string (String (ascii_of_nat 9) "1 ") = Some 1%float.
Proof. vm_compute. repeat split; reflexivity. Qed.

Example rint_ex :
  F64.rint 2.5%float = 2%float
  /\ F64.rint 3.5%float = 4%float
  /\ F64.rint (-0.3)%float = (-0)%float
  /\ F64.rint 2833.305%float = 2833%float
  /\ F64.rint 4503599627370497%float = 4503599627370497%float
  /\ F64.of_integer true 12 = (-12)%float.
Proof. vm_compute. repeat split; reflexivity. Qed.

(* ================================================================== *)
(** ** Frames: labels, selections, duplicates *)
(* ================================================================== *)

Unset Implicit Arguments.

Section FrameFacts.

Context {R : Type}.

Lemma In_combine_seq (l : list R) :
  forall s i r, In (i, r) (combine (seq s (List.length l)) l)
                <-> s <= i /\ nth_error l (i - s) = Some r.
Proof.
  induction l as [|x l IH]; intros s i r; simpl.
  - split; [tauto|]. intros [_ H]. destruct (i - s); discriminate.
  - rewrite IH. split.
    + intros [H | [Hle H]].
      * inversion H; subst. rewrite Nat.sub_diag. split; [lia | reflexivity].
      * split; [lia|]. replace (i - s) with (S (i - S s)) by lia. exact H.
    + intros [Hle H]. destruct (Nat.eq_dec i s) as [-> | Hne].
      * left. rewrite Nat.sub_diag in H. simpl in H. congruence.
      * right. split; [lia|].
        replace (i - s) with (S (i - S s)) in H by lia. exact H.
Qed.

Lemma index_combine_seq (l : list R) :
  forall s, index (combine (seq s (List.length l)) l) = seq s (List.length l).
Proof.
  induction l as [|x l IH]; intros s; simpl; [reflexivity|].
  f_equal. apply IH.
Qed.

Lemma seq_sorted : forall n s, StronglySorted lt (seq s n).
Proof.
  induction n as [|n IH]; intros s; simpl; constructor.
  - apply IH.
  - apply Forall_forall. intros x Hx. apply in_seq in Hx. lia.
Qed.

Lemma In_select (m : R -> bool) (df : list (nat * R)) i r :
  In (i, r) (select m df) <-> In (i, r) df /\ m r = true.
Proof. unfold select. rewrite filter_In. reflexivity. Qed.

Lemma In_assign {R' : Type} (f : R -> R') (df : list (nat * R)) i r' :
  In (i, r') (assign f df) <-> exists r, In (i, r) df /\ r' = f r.
Proof.
  unfold assign. rewrite in_map_iff. split.
  - intros [[j r] [H Hin]]. simpl in H. inversion H; subst. eauto.
  - intros [r [Hin ->]]. exists (i, r). auto.
Qed.

Lemma index_assign {R' : Type} (f : R -> R') (df : list (nat * R)) :
  index (assign f df) = index df.
Proof.
  unfold index, assign. rewrite map_map. reflexivity.
Qed.

Lemma en_iff (df : list (nat * R)) i : en i df <-> exists r, In (i, r) df.
Proof.
  unfold en, index. rewrite in_map_iff. split.
  - intros [[j r] [H Hin]]. simpl in H. subst. eauto.
  - intros [r Hin]. exists (i, r). auto.
Qed.

Lemma Forall_index_select (P : nat -> Prop) (m : R -> bool) (df : list (nat * R)) :
  Forall P (index df) -> Forall P (index (select m df)).
Proof.
  unfold index, select. rewrite !Forall_forall. intros H x Hx.
  apply in_map_iff in Hx. destruct Hx as [ir [<- Hin]].
  apply filter_In in Hin. apply H. apply in_map. tauto.
Qed.

Lemma ordenado_select (m : R -> bool) (df : list (nat * R)) :
  ordenado df -> ordenado (select m df).
Proof.
  unfold ordenado. induction df as [|[i r] df IH]; simpl; intros H; [constructor|].
  inversion H as [|? ? Hs Hf]; subst.
  destruct (m r); simpl.
  - constructor; [apply IH; assumption|].
    apply Forall_index_select. exact Hf.
  - apply IH; assumption.
Qed.

Lemma ordenado_assign {R' : Type} (f : R -> R') (df : list (nat * R)) :
  ordenado df -> ordenado (assign f df).
Proof. unfold ordenado. rewrite index_assign. trivial. Qed.

Lemma ordenado_NoDup (df : list (nat * R)) : ordenado df -> NoDup (index df).
Proof.
  unfold ordenado. induction 1 as [|i l Hs IH Hf]; constructor; [|assumption].
  intros Hin. rewrite Forall_forall in Hf. specialize (Hf _ Hin). lia.
Qed.

Lemma ordenado_functional (df : list (nat * R)) i r r' :
  ordenado df -> In (i, r) df -> In (i, r') df -> r = r'.
Proof.
  unfold ordenado. induction df as [|[j q] df IH]; simpl; intros H H1 H2; [tauto|].
  inversion H as [|? ? Hs Hf]; subst. rewrite Forall_forall in Hf.
  assert (Hlt : forall x, In (i, x) df -> j < i).
  { intros x Hx. apply Hf. change i with (fst (i, x)). apply in_map. exact Hx. }
  destruct H1 as [H1 | H1], H2 as [H2 | H2].
  - congruence.
  - inversion H1; subst. specialize (Hlt _ H2). lia.
  - inversion H2; subst. specialize (Hlt _ H1). lia.
  - eapply IH; eassumption.
Qed.

End FrameFacts.

Lemma In_frame_of (batch : list RawRecord) i r :
  In (i, r) (frame_of batch) <-> nth_error batch i = Some r.
Proof.
  unfold frame_of. rewrite In_combine_seq, Nat.sub_0_r.
  split; [tauto | intros H; split; [lia | exact H]].
Qed.

Lemma ordenado_frame_of (batch : list RawRecord) : ordenado (frame_of batch).
Proof.
  unfold ordenado, frame_of. rewrite index_combine_seq. apply seq_sorted.
Qed.

(* ================================================================== *)
(** ** Duplicate detection *)
(* ================================================================== *)

Lemma key_eqb_eq (a b : option string) : key_eqb a b = true <-> a = b.
Proof.
  destruct a as [x|], b as [y|]; simpl; try (split; congruence).
  rewrite String.eqb_eq. split; congruence.
Qed.

Lemma key_eqb_refl (a : option string) : key_eqb a a = true.
Proof. apply key_eqb_eq. reflexivity. Qed.

Lemma key_eqb_neq (a b : option string) : key_eqb a b = false <-> a <> b.
Proof.
  rewrite <- key_eqb_eq. destruct (key_eqb a b); split; congruence.
Qed.

Lemma key_eqb_sym (a b : option string) : key_eqb a b = key_eqb b a.
Proof.
  destruct (key_eqb b a) eqn:E.
  - apply key_eqb_eq in E. subst. apply key_eqb_refl.
  - apply key_eqb_neq. apply key_eqb_neq in E. congruence.
Qed.

Section Duplicates.

Context {TA TD : Type}.

Lemma index_drop_duplicates_from (P : nat -> Prop) (df : DataFrame TA TD) :
  forall seen, Forall P (index df) -> Forall P (index (drop_duplicates_from seen df)).
Proof.
  induction df as [|[i r] df IH]; intros seen H; simpl; [constructor|].
  inversion H; subst. destruct (key_mem (Sale_ID r) seen); simpl.
  - apply IH; assumption.
  - constructor; [assumption | apply IH; assumption].
Qed.

Lemma ordenado_drop_duplicates_from (df : DataFrame TA TD) :
  forall seen, ordenado df -> ordenado (drop_duplicates_from seen df).
Proof.
  unfold ordenado. induction df as [|[i r] df IH]; intros seen H; simpl; [constructor|].
  inversion H as [|? ? Hs Hf]; subst. destruct (key_mem (Sale_ID r) seen); simpl.
  - apply IH; assumption.
  - constructor; [apply IH; assumption|].
    apply index_drop_duplicates_from. exact Hf.
Qed.

(** A row survives [drop_duplicates] exactly when no row above it carries
    its key. *)
Lemma In_drop_duplicates_from (df : DataFrame TA TD) :
  forall seen i r,
    ordenado df ->
    (In (i, r) (drop_duplicates_from seen df)
     <-> In (i, r) df
         /\ key_mem (Sale_ID r) seen = false
         /\ forall j q, In (j, q) df -> j < i ->
                        key_eqb (Sale_ID r) (Sale_ID q) = false).
Proof.
  unfold ordenado.
  induction df as [|[j0 q0] df IH]; intros seen i r Hord; simpl; [tauto|].
  inversion Hord as [|? ? Hs Hf]; subst. rewrite Forall_forall in Hf.
  assert (Hlt : forall j q, In (j, q) df -> j0 < j).
  { intros j q Hq. apply Hf. change j with (fst (j, q)). apply in_map. exact Hq. }
  destruct (key_mem (Sale_ID q0) seen) eqn:Hmem; simpl.
  - rewrite (IH seen i r Hs). split.
    + intros (Hin & Hseen & Hbefore). split; [tauto|]. split; [exact Hseen|].
      intros j q [Hq | Hq] Hji; [|eauto].
      inversion Hq; subst. apply key_eqb_neq. intros Heq.
      rewrite Heq, Hmem in Hseen. discriminate.
    + intros ([Hin | Hin] & Hseen & Hbefore).
      * inversion Hin; subst. congruence.
      * split; [exact Hin|]. split; [exact Hseen|]. intros j q Hq. apply Hbefore. tauto.
  - rewrite (IH (Sale_ID q0 :: seen) i r Hs). simpl. split.
    + intros [Hin | (Hin & Hseen & Hbefore)].
      * inversion Hin; subst. split; [tauto|]. split; [exact Hmem|].
        intros j q [Hq | Hq] Hji.
        -- inversion Hq; subst. lia.
        -- specialize (Hlt _ _ Hq). lia.
      * apply orb_false_iff in Hseen. destruct Hseen as [Hk Hseen].
        split; [tauto|]. split; [exact Hseen|].
        intros j q [Hq | Hq] Hji; [|eauto].
        inversion Hq; subst. exact Hk.
    + intros ([Hin | Hin] & Hseen & Hbefore); [left; exact Hin|].
      right. split; [exact Hin|]. split.
      * apply orb_false_iff. split; [|exact Hseen].
        apply (Hbefore j0 q0); [tauto | eapply Hlt; eassumption].
      * intros j q Hq. apply Hbefore. tauto.
Qed.

Lemma In_drop_duplicates (df : DataFrame TA TD) i r :
  ordenado df ->
  (In (i, r) (drop_duplicates df)
   <-> In (i, r) df
       /\ forall j q, In (j, q) df -> j < i ->
                      key_eqb (Sale_ID r) (Sale_ID q) = false).
Proof.
  intros Hord. unfold drop_duplicates.
  rewrite (In_drop_duplicates_from df [] i r Hord). simpl. tauto.
Qed.

Lemma length_gt_1_other {T : Type} (l : list (nat * T)) (i : nat) :
  NoDup (index l) -> 1 < List.length l -> exists j q, In (j, q) l /\ j <> i.
Proof.
  destruct l as [|[j1 q1] [|[j2 q2] l]]; simpl; intros Hnd Hlen; try lia.
  inversion Hnd as [|? ? Hnotin _]; subst.
  assert (Hne : j1 <> j2) by (intros ->; apply Hnotin; left; reflexivity).
  destruct (Nat.eq_dec i j1) as [-> | H].
  - exists j2, q2. split; [tauto | congruence].
  - exists j1, q1. split; [tauto | congruence].
Qed.

Lemma length_gt_1_two {T : Type} (l : list T) (a b : T) :
  In a l -> In b l -> a <> b -> 1 < List.length l.
Proof.
  destruct l as [|x [|y l]]; simpl; intros Ha Hb Hne; try tauto; try lia.
  destruct Ha as [<- | []], Hb as [<- | []]. congruence.
Qed.

(** [duplicated(keep=False)] marks a row exactly when another row of the
    frame carries its key. *)
Lemma duplicated_iff (df : DataFrame TA TD) i r :
  ordenado df -> In (i, r) df ->
  (duplicated df r = true
   <-> exists j q, j <> i /\ In (j, q) df
                   /\ key_eqb (Sale_ID r) (Sale_ID q) = true).
Proof.
  intros Hord Hin. unfold duplicated, count_key. rewrite Nat.ltb_lt.
  set (p := fun ir : nat * Row TA TD => key_eqb (Sale_ID r) (Sale_ID (snd ir))).
  split.
  - intros Hlen.
    assert (Hnd : NoDup (index (filter p df))).
    { apply ordenado_NoDup.
      apply (ordenado_select (fun q => key_eqb (Sale_ID r) (Sale_ID q)) df Hord). }
    destruct (length_gt_1_other (filter p df) i Hnd Hlen) as (j & q & Hq & Hne).
    apply filter_In in Hq. destruct Hq as [Hq Hp]. exists j, q. auto.
  - intros (j & q & Hne & Hq & Hk).
    apply (length_gt_1_two (filter p df) (i, r) (j, q)).
    + apply filter_In. split; [exact Hin | apply key_eqb_refl].
    + apply filter_In. split; [exact Hq | exact Hk].
    + congruence.
Qed.

End Duplicates.

(* ================================================================== *)
(** ** Whole-column conversions *)
(* ================================================================== *)

Lemma Forall2_In_l {T U : Type} (P : T -> U -> Prop) (l : list T) (l' : list U) x :
  Forall2 P l l' -> In x l -> exists y, In y l' /\ P x y.
Proof.
  induction 1 as [|a b l l' Hab _ IH]; simpl; [tauto|].
  intros [<- | Hin]; [eauto|]. destruct (IH Hin) as [y [Hy HP]]. eauto.
Qed.

Lemma Forall2_In_r {T U : Type} (P : T -> U -> Prop) (l : list T) (l' : list U) y :
  Forall2 P l l' -> In y l' -> exists x, In x l /\ P x y.
Proof.
  induction 1 as [|a b l l' Hab _ IH]; simpl; [tauto|].
  intros [<- | Hin]; [eauto|]. destruct (IH Hin) as [x [Hx HP]]. eauto.
Qed.

Section Traverse.

Context {T U : Type}.
Variable f : T -> result U.

Lemma traverse_Ok (l : list T) :
  forall l', traverse f l = Ok l' -> Forall2 (fun x y => f x = Ok y) l l'.
Proof.
  induction l as [|x l IH]; simpl; intros l' H.
  - inversion H. constructor.
  - destruct (f x) as [y|e] eqn:Hx; simpl in H; [|discriminate].
    destruct (traverse f l) as [ys|e] eqn:Hl; simpl in H; [|discriminate].
    inversion H; subst. constructor; [exact Hx | apply IH; reflexivity].
Qed.

Lemma traverse_Raise (l : list T) :
  forall e, traverse f l = Raise e -> exists x, In x l /\ f x = Raise e.
Proof.
  induction l as [|x l IH]; simpl; intros e H; [discriminate|].
  destruct (f x) as [y|e'] eqn:Hx; simpl in H.
  - destruct (traverse f l) as [ys|e''] eqn:Hl; simpl in H; [discriminate|].
    inversion H; subst. destruct (IH e eq_refl) as [x' [Hin Hx']]. eauto.
  - inversion H; subst. eauto.
Qed.

Lemma traverse_total (l : list T) :
  (forall x, In x l -> exists y, f x = Ok y) -> exists l', traverse f l = Ok l'.
Proof.
  induction l as [|x l IH]; simpl; intros H; [eauto|].
  destruct (H x (or_introl eq_refl)) as [y Hy]. rewrite Hy. simpl.
  destruct IH as [ys Hys]; [intros; apply H; tauto|].
  rewrite Hys. simpl. eauto.
Qed.

End Traverse.

(* ================================================================== *)
(** ** The validity classifier, block by block *)
(* ================================================================== *)

Lemma notna_str_method (f : string -> string) (c : option string) :
  notna (str_method f c) = notna c.
Proof. destruct c; reflexivity. Qed.

Lemma notna_true {T : Type} (c : option T) : notna c = true <-> c <> None.
Proof. destruct c; simpl; split; congruence. Qed.

Lemma notna_false {T : Type} (c : option T) : notna c = false <-> c = None.
Proof. destruct c; simpl; split; congruence. Qed.

Lemma ordenado_arreglos_sale_id (df : RawFrame) :
  ordenado df -> ordenado (arreglos_sale_id df).
Proof.
  intros H. unfold arreglos_sale_id, drop_duplicates.
  apply ordenado_drop_duplicates_from, ordenado_select, ordenado_assign, H.
Qed.

Lemma In_arreglos_sale_id (df : RawFrame) i r :
  ordenado df ->
  (In (i, r) (arreglos_sale_id df)
   <-> exists raw, In (i, raw) df
                   /\ r = set_Sale_ID (str_method Py.upper) raw
                   /\ notna (Sale_ID raw) = true
                   /\ primera_aparicion df i raw).
Proof.
  intros Hord. unfold arreglos_sale_id.
  rewrite In_drop_duplicates by (apply ordenado_select, ordenado_assign, Hord).
  rewrite In_select, In_assign. split.
  - intros [[[raw [Hin ->]] Hna] Hfirst]. simpl in Hna.
    rewrite notna_str_method in Hna.
    exists raw. repeat split; try assumption.
    intros j q Hq Hji. unfold clave.
    destruct (Sale_ID q) as [s|] eqn:Hs.
    + specialize (Hfirst j (set_Sale_ID (str_method Py.upper) q)).
      simpl in Hfirst. rewrite Hs in Hfirst. apply Hfirst; [|exact Hji].
      apply In_select. split.
      * apply In_assign. eauto.
      * simpl. rewrite Hs. reflexivity.
    + destruct (Sale_ID raw); [reflexivity | discriminate].
  - intros [raw (Hin & -> & Hna & Hfirst)]. split.
    + split; [eauto|]. simpl. rewrite notna_str_method. exact Hna.
    + intros j q' Hq' Hji. apply In_select in Hq'. destruct Hq' as [Hq' _].
      apply In_assign in Hq'. destruct Hq' as [q [Hq ->]]. simpl.
      apply (Hfirst j q Hq Hji).
Qed.

Lemma In_arreglos_product (df : RawFrame) i r :
  In (i, r) (arreglos_product df)
  <-> exists r1, In (i, r1) df
                 /\ r = set_Product (str_method arreglar_product) r1
                 /\ notna (Product r1) = true.
Proof.
  unfold arreglos_product. rewrite In_select, In_assign. split.
  - intros [[r1 [Hin ->]] Hna]. simpl in Hna. rewrite notna_str_method in Hna. eauto.
  - intros [r1 (Hin & -> & Hna)]. split; [eauto|].
    simpl. rewrite notna_str_method. exact Hna.
Qed.

Lemma ordenado_arreglos_product (df : RawFrame) :
  ordenado df -> ordenado (arreglos_product df).
Proof.
  intros H. unfold arreglos_product. apply ordenado_select, ordenado_assign, H.
Qed.

Lemma Forall2_index {R R' : Type} (l : list (nat * R)) (l' : list (nat * R')) :
  Forall2 (fun a b => fst a = fst b) l l' -> index l = index l'.
Proof. induction 1; simpl; congruence. Qed.

(** The amount block, when it returns. *)
Lemma arreglos_amount_Ok (df : RawFrame) (df1 : DataFrame float (option string)) :
  arreglos_amount df = Ok df1 ->
  (forall i r, In (i, r) df1
               <-> exists r2 x, In (i, r2) df
                                /\ arreglar_amount (Amount r2) = Ok x
                                /\ r = set_Amount x r2
                                /\ F64.notna x = true)
  /\ (forall i r2, In (i, r2) df -> exists x, arreglar_amount (Amount r2) = Ok x)
  /\ (ordenado df -> ordenado df1).
Proof.
  unfold arreglos_amount. intros H.
  destruct (traverse _ df) as [conv|e] eqn:Htr; simpl in H; [|discriminate].
  inversion H; subst df1; clear H.
  apply traverse_Ok in Htr.
  assert (Hstep : forall (a : nat * RawRecord) (b : nat * Row float (option string)),
             (x <- arreglar_amount (Amount (snd a)) ;; Ok (fst a, set_Amount x (snd a))) = Ok b
             <-> exists x, arreglar_amount (Amount (snd a)) = Ok x
                           /\ b = (fst a, set_Amount x (snd a))).
  { intros a b. destruct (arreglar_amount (Amount (snd a))) as [x|e]; simpl.
    - split; [intros E; inversion E; eauto | intros [y [E ->]]; congruence].
    - split; [discriminate | intros [y [E _]]; discriminate]. }
  split; [|split].
  - intros i r. rewrite In_select. split.
    + intros [Hin Hna].
      destruct (Forall2_In_r _ _ _ _ Htr Hin) as [[j r2] [Hin2 Hconv]].
      apply Hstep in Hconv. destruct Hconv as [x [Hx Heq]]. simpl in *.
      inversion Heq; subst. simpl in Hna. exists r2, x. auto.
    + intros (r2 & x & Hin2 & Hx & -> & Hna).
      destruct (Forall2_In_l _ _ _ _ Htr Hin2) as [b [Hb Hconv]].
      apply Hstep in Hconv. destruct Hconv as [y [Hy ->]]. simpl in *.
      assert (y = x) by congruence. subst y. split; [exact Hb | exact Hna].
  - intros i r2 Hin2.
    destruct (Forall2_In_l _ _ _ _ Htr Hin2) as [b [_ Hconv]].
    apply Hstep in Hconv. destruct Hconv as [x [Hx _]]. eauto.
  - intros Hord. apply ordenado_select. unfold ordenado.
    rewrite <- (Forall2_index df conv); [exact Hord|].
    eapply Forall2_impl; [|exact Htr].
    intros a b Hab. apply Hstep in Hab. destruct Hab as [x [_ ->]]. reflexivity.
Qed.

Lemma In_arreglos_date (pd : Pandas) (df1 : DataFrame float (option string)) i v :
  In (i, v) (arreglos_date pd df1)
  <-> exists r3, In (i, r3) df1
                 /\ v = set_Date (to_datetime pd (column (fun r => Date r) df1) (Date r3)) r3
                 /\ notna (Date v) = true /\ notna (Audit_Date v) = true.
Proof.
  unfold arreglos_date. rewrite !In_select, In_assign. split.
  - intros [[[r3 [Hin ->]] Hd] Ha]. eauto.
  - intros [r3 (Hin & -> & Hd & Ha)]. eauto.
Qed.

Lemma ordenado_arreglos_date (pd : Pandas) (df1 : DataFrame float (option string)) :
  ordenado df1 -> ordenado (arreglos_date pd df1).
Proof.
  intros H. unfold arreglos_date.
  apply ordenado_select, ordenado_select, ordenado_assign, H.
Qed.

(** When the classifier returns, the amount block returned the frame the
    dates are parsed in. *)
Lemma limpiar_ventas_validas_Ok (pd : Pandas) (df : RawFrame) (out : ValidFrame) :
  limpiar_ventas_validas pd df = Ok out ->
  arreglos_amount (arreglos_product (arreglos_sale_id df)) = Ok (antes_de_fechas df)
  /\ out = arreglos_date pd (antes_de_fechas df).
Proof.
  unfold limpiar_ventas_validas, antes_de_fechas.
  destruct (arreglos_amount _) as [df1|e]; simpl; intros H; [|discriminate].
  inversion H; auto.
Qed.

(** The records of the output: the first carriers of their [Sale_ID] whose
    normalization is complete. *)
Lemma validas_spec (pd : Pandas) (df : RawFrame) (out : ValidFrame) :
  ordenado df ->
  limpiar_ventas_validas pd df = Ok out ->
  forall i v,
    In (i, v) out
    <-> exists raw, In (i, raw) df
                    /\ notna (Sale_ID raw) = true
                    /\ primera_aparicion df i raw
                    /\ v = normalizar pd (fechas_validas df) raw
                    /\ completo v = true.
Proof.
  intros Hord Hok i v.
  destruct (limpiar_ventas_validas_Ok pd df out Hok) as [Ham ->].
  destruct (arreglos_amount_Ok _ _ Ham) as (Hin1 & Hall & _).
  rewrite In_arreglos_date. unfold fechas_validas. split.
  - intros [r3 (H3 & -> & Hd & Ha)].
    apply Hin1 in H3. destruct H3 as (r2 & x & H2 & Hx & -> & Hna).
    apply In_arreglos_product in H2. destruct H2 as (r1 & H1 & -> & Hp).
    apply In_arreglos_sale_id in H1; [|exact Hord].
    destruct H1 as (raw & Hraw & -> & Hs & Hfirst).
    simpl in *. exists raw. repeat split; try assumption.
    + unfold normalizar, set_Date, set_Amount. simpl. rewrite Hx. reflexivity.
    + unfold completo. simpl. rewrite !notna_str_method, Hs, Hp, Hna, Hd, Ha.
      reflexivity.
  - intros [raw (Hraw & Hs & Hfirst & -> & Hc)].
    assert (H2 : In (i, set_Product (str_method arreglar_product)
                          (set_Sale_ID (str_method Py.upper) raw))
                    (arreglos_product (arreglos_sale_id df))).
    { unfold completo in Hc. simpl in Hc. rewrite !notna_str_method in Hc.
      apply In_arreglos_product. eexists. split; [|split; [reflexivity|]].
      - apply In_arreglos_sale_id; [exact Hord|]. exists raw. auto.
      - simpl. destruct (notna (Product raw)); [reflexivity|].
        rewrite andb_false_r in Hc. discriminate. }
    destruct (Hall _ _ H2) as [x Hx]. simpl in Hx.
    unfold completo in Hc. simpl in Hc. rewrite Hx in Hc.
    repeat (apply andb_true_iff in Hc; destruct Hc as [Hc ?]).
    eexists. split; [|split; [|split]].
    + apply Hin1. eexists _, x. split; [exact H2|]. simpl. auto.
    + unfold normalizar, set_Date, set_Amount. simpl. rewrite Hx. reflexivity.
    + simpl. assumption.
    + simpl. assumption.
Qed.

Lemma ordenado_validas (pd : Pandas) (df : RawFrame) (out : ValidFrame) :
  ordenado df -> limpiar_ventas_validas pd df = Ok out -> ordenado out.
Proof.
  intros Hord Hok.
  destruct (limpiar_ventas_validas_Ok pd df out Hok) as [Ham ->].
  apply ordenado_arreglos_date.
  destruct (arreglos_amount_Ok _ _ Ham) as (_ & _ & H). apply H.
  apply ordenado_arreglos_product, ordenado_arreglos_sale_id, Hord.
Qed.

(** On a frame of text columns the classifier returns exactly when [float]
    accepts every amount text that reaches line 79. *)
Lemma validas_returns_iff (pd : Pandas) (df : RawFrame) :
  (exists out, limpiar_ventas_validas pd df = Ok out)
  <-> forall i r, In (i, r) (arreglos_product (arreglos_sale_id df)) ->
                  exists x, arreglar_amount (Amount r) = Ok x.
Proof.
  split.
  - intros [out Hok]. destruct (limpiar_ventas_validas_Ok pd df out Hok) as [Ham _].
    destruct (arreglos_amount_Ok _ _ Ham) as (_ & Hall & _). exact Hall.
  - intros Hall. unfold limpiar_ventas_validas, arreglos_amount.
    match goal with
    | |- context [traverse ?f ?l] => destruct (traverse_total f l) as [conv Hconv]
    end.
    + intros [i r] Hin. destruct (Hall i r Hin) as [x Hx]. simpl. rewrite Hx.
      simpl. eauto.
    + rewrite Hconv. simpl. eauto.
Qed.

(** The fault of the classifier on a frame of text columns: an amount text
    that [float] refuses once the currency codes are removed. *)
Lemma validas_raises (pd : Pandas) (df : RawFrame) (e : exn) :
  limpiar_ventas_validas pd df = Raise e ->
  exists i r s, In (i, r) (arreglos_product (arreglos_sale_id df))
                /\ Amount r = Some s
                /\ F64.float_of_string (quitar_divisa s) = None
                /\ e = ValueError (quitar_divisa s).
Proof.
  unfold limpiar_ventas_validas, arreglos_amount. intros H.
  match goal with
  | H : context [traverse ?f ?l] |- _ => destruct (traverse f l) as [conv|e'] eqn:Htr
  end; simpl in H; [discriminate|].
  inversion H; subst e'. apply traverse_Raise in Htr.
  destruct Htr as [[i r] [Hin Hr]]. simpl in Hr.
  exists i, r. unfold arreglar_amount, astype_float in Hr.
  destruct (Amount r) as [s|]; simpl in Hr; [|discriminate].
  exists s. destruct (F64.float_of_string (quitar_divisa s)); simpl in Hr;
    [discriminate|]. inversion Hr. auto.
Qed.

(* ================================================================== *)
(** ** The invalidity classifier, bucket by bucket *)
(* ================================================================== *)

Lemma map_snd_combine_seq {T : Type} (l : list T) :
  forall s, map snd (combine (seq s (List.length l)) l) = l.
Proof.
  induction l as [|x l IH]; intros s; simpl; [reflexivity|].
  f_equal. apply IH.
Qed.

Lemma map_snd_concat_ignore_index {T : Type} (frames : list (list (nat * T))) :
  map snd (concat_ignore_index frames) = map snd (List.concat frames).
Proof. unfold concat_ignore_index. apply map_snd_combine_seq. Qed.

Section Invalidas.

Variable pd : Pandas.

Lemma preparar_invalidas_assign (df : RawFrame) :
  preparar_invalidas pd df = assign (preparado pd) df.
Proof.
  unfold preparar_invalidas, assign. rewrite map_map. reflexivity.
Qed.

Lemma ordenado_preparar (df : RawFrame) :
  ordenado df -> ordenado (preparar_invalidas pd df).
Proof. rewrite preparar_invalidas_assign. apply ordenado_assign. Qed.

Lemma In_df_nulos (df : RawFrame) i r :
  In (i, r) (df_nulos pd df)
  <-> exists raw, In (i, raw) df /\ r = preparado pd raw /\ mask_nulos r = true.
Proof.
  unfold df_nulos. rewrite In_select, preparar_invalidas_assign, In_assign.
  split.
  - intros [[raw [H ->]] Hm]. eauto.
  - intros [raw (H & -> & Hm)]. eauto.
Qed.

Lemma In_df_no_nulos (df : RawFrame) i r :
  In (i, r) (df_no_nulos pd df)
  <-> exists raw, In (i, raw) df /\ r = preparado pd raw /\ mask_nulos r = false.
Proof.
  unfold df_no_nulos. rewrite In_select, preparar_invalidas_assign, In_assign.
  rewrite negb_true_iff. split.
  - intros [[raw [H ->]] Hm]. eauto.
  - intros [raw (H & -> & Hm)]. eauto.
Qed.

Lemma In_df_monto_invalido (df : RawFrame) i r :
  In (i, r) (df_monto_invalido pd df)
  <-> exists raw, In (i, raw) df /\ r = preparado pd raw
                  /\ mask_nulos r = false /\ mask_monto_invalido pd r = true.
Proof.
  unfold df_monto_invalido. rewrite In_select, In_df_no_nulos. split.
  - intros [[raw (H & -> & Hn)] Hm]. eauto.
  - intros [raw (H & -> & Hn & Hm)]. eauto.
Qed.

Lemma In_df_restantes (df : RawFrame) i r :
  In (i, r) (df_restantes pd df)
  <-> exists raw, In (i, raw) df /\ r = preparado pd raw
                  /\ mask_nulos r = false /\ mask_monto_invalido pd r = false.
Proof.
  unfold df_restantes. rewrite In_select, In_df_no_nulos, negb_true_iff. split.
  - intros [[raw (H & -> & Hn)] Hm]. eauto.
  - intros [raw (H & -> & Hn & Hm)]. eauto.
Qed.

Lemma ordenado_df_nulos (df : RawFrame) : ordenado df -> ordenado (df_nulos pd df).
Proof. intros H. apply ordenado_select, ordenado_preparar, H. Qed.

Lemma ordenado_df_monto_invalido (df : RawFrame) :
  ordenado df -> ordenado (df_monto_invalido pd df).
Proof. intros H. apply ordenado_select, ordenado_select, ordenado_preparar, H. Qed.

Lemma ordenado_df_restantes (df : RawFrame) :
  ordenado df -> ordenado (df_restantes pd df).
Proof. intros H. apply ordenado_select, ordenado_select, ordenado_preparar, H. Qed.

Lemma ordenado_df_duplicados (df : RawFrame) :
  ordenado df -> ordenado (df_duplicados pd df).
Proof. intros H. apply ordenado_select, ordenado_df_restantes, H. Qed.

Lemma In_df_duplicados (df : RawFrame) i r :
  ordenado df ->
  (In (i, r) (df_duplicados pd df)
   <-> In (i, r) (df_restantes pd df)
       /\ exists j q, j <> i /\ In (j, q) (df_restantes pd df)
                      /\ key_eqb (Sale_ID r) (Sale_ID q) = true).
Proof.
  intros Hord. unfold df_duplicados. rewrite In_select. split.
  - intros [Hin Hd]. split; [exact Hin|].
    apply (duplicated_iff _ i r (ordenado_df_restantes df Hord) Hin). exact Hd.
  - intros [Hin Hd]. split; [exact Hin|].
    apply (duplicated_iff _ i r (ordenado_df_restantes df Hord) Hin). exact Hd.
Qed.

(** Membership of the record labelled [i], read off the record itself. *)
Lemma en_df_nulos (df : RawFrame) i raw :
  ordenado df -> In (i, raw) df ->
  (en i (df_nulos pd df) <-> mask_nulos (preparado pd raw) = true).
Proof.
  intros Hord Hin. rewrite en_iff. split.
  - intros [r Hr]. apply In_df_nulos in Hr. destruct Hr as [raw' (H' & -> & Hm)].
    rewrite (ordenado_functional df i raw raw' Hord Hin H'). exact Hm.
  - intros Hm. exists (preparado pd raw). apply In_df_nulos. eauto.
Qed.

Lemma en_df_monto_invalido (df : RawFrame) i raw :
  ordenado df -> In (i, raw) df ->
  (en i (df_monto_invalido pd df)
   <-> mask_nulos (preparado pd raw) = false
       /\ mask_monto_invalido pd (preparado pd raw) = true).
Proof.
  intros Hord Hin. rewrite en_iff. split.
  - intros [r Hr]. apply In_df_monto_invalido in Hr.
    destruct Hr as [raw' (H' & -> & Hn & Hm)].
    rewrite (ordenado_functional df i raw raw' Hord Hin H'). auto.
  - intros [Hn Hm]. exists (preparado pd raw). apply In_df_monto_invalido.
    exists raw. auto.
Qed.

Lemma en_df_restantes (df : RawFrame) i raw :
  ordenado df -> In (i, raw) df ->
  (en i (df_restantes pd df)
   <-> mask_nulos (preparado pd raw) = false
       /\ mask_monto_invalido pd (preparado pd raw) = false).
Proof.
  intros Hord Hin. rewrite en_iff. split.
  - intros [r Hr]. apply In_df_restantes in Hr.
    destruct Hr as [raw' (H' & -> & Hn & Hm)].
    rewrite (ordenado_functional df i raw raw' Hord Hin H'). auto.
  - intros [Hn Hm]. exists (preparado pd raw). apply In_df_restantes.
    exists raw. auto.
Qed.

Lemma en_df_duplicados (df : RawFrame) i raw :
  ordenado df -> In (i, raw) df ->
  (en i (df_duplicados pd df)
   <-> en i (df_restantes pd df)
       /\ exists j q, j <> i /\ In (j, q) df /\ en j (df_restantes pd df)
                      /\ key_eqb (Sale_ID (preparado pd raw))
                                 (Sale_ID (preparado pd q)) = true).
Proof.
  intros Hord Hin. split.
  - intros Hen. apply en_iff in Hen. destruct Hen as [r Hr].
    apply In_df_duplicados in Hr; [|exact Hord].
    destruct Hr as [Hr (j & q' & Hne & Hq' & Hk)].
    assert (Hr' := Hr). apply In_df_restantes in Hr'.
    destruct Hr' as [raw' (H' & -> & _)].
    rewrite <- (ordenado_functional df i raw raw' Hord Hin H') in *.
    assert (Hq'' := Hq'). apply In_df_restantes in Hq''.
    destruct Hq'' as [q (Hq & -> & _)].
    split; [apply en_iff; eauto|].
    exists j, q. repeat split; try assumption. apply en_iff. eauto.
  - intros [Hen (j & q & Hne & Hq & Henj & Hk)].
    apply (en_df_restantes df i raw Hord Hin) in Hen.
    apply (en_df_restantes df j q Hord Hq) in Henj.
    apply en_iff. exists (preparado pd raw). apply In_df_duplicados; [exact Hord|].
    split.
    + apply In_df_restantes. exists raw. tauto.
    + exists j, (preparado pd q). repeat split; try assumption.
      apply In_df_restantes. exists q. tauto.
Qed.

Lemma en_duplicados_restantes (df : RawFrame) i :
  en i (df_duplicados pd df) -> en i (df_restantes pd df).
Proof.
  rewrite !en_iff. intros [r Hr]. unfold df_duplicados in Hr.
  apply In_select in Hr. exists r. tauto.
Qed.

(** The three buckets share no record. *)
Lemma buckets_disjoint (df : RawFrame) i :
  ordenado df ->
  ~ (en i (df_nulos pd df) /\ en i (df_monto_invalido pd df))
  /\ ~ (en i (df_nulos pd df) /\ en i (df_duplicados pd df))
  /\ ~ (en i (df_monto_invalido pd df) /\ en i (df_duplicados pd df)).
Proof.
  intros Hord.
  assert (Hraw : forall b : RawFrame -> RawFrame,
             (forall d j r, In (j, r) (b d) -> exists raw, In (j, raw) d) ->
             en i (b df) -> exists raw, In (i, raw) df).
  { intros b Hb Hen. apply en_iff in Hen. destruct Hen as [r Hr]. eauto. }
  assert (HN : en i (df_nulos pd df) -> exists raw, In (i, raw) df).
  { intros Hen. apply en_iff in Hen. destruct Hen as [r Hr].
    apply In_df_nulos in Hr. destruct Hr as [raw [H _]]. eauto. }
  assert (HA : en i (df_monto_invalido pd df) -> exists raw, In (i, raw) df).
  { intros Hen. apply en_iff in Hen. destruct Hen as [r Hr].
    apply In_df_monto_invalido in Hr. destruct Hr as [raw [H _]]. eauto. }
  repeat split.
  - intros [H1 H2]. destruct (HN H1) as [raw Hin].
    apply (en_df_nulos df i raw Hord Hin) in H1.
    apply (en_df_monto_invalido df i raw Hord Hin) in H2.
    destruct H2 as [H2 _]. congruence.
  - intros [H1 H2]. destruct (HN H1) as [raw Hin].
    apply (en_df_nulos df i raw Hord Hin) in H1.
    apply en_duplicados_restantes in H2.
    apply (en_df_restantes df i raw Hord Hin) in H2.
    destruct H2 as [H2 _]. congruence.
  - intros [H1 H2]. destruct (HA H1) as [raw Hin].
    apply (en_df_monto_invalido df i raw Hord Hin) in H1.
    apply en_duplicados_restantes in H2.
    apply (en_df_restantes df i raw Hord Hin) in H2.
    destruct H1 as [_ H1], H2 as [_ H2]. congruence.
Qed.

(** The output: the three buckets one after the other, relabelled. *)
Lemma invalidas_concat (df : RawFrame) :
  map snd (limpiar_ventas_invalidas pd df)
  = map (fun ir => mkInvalid (snd ir) "N") (df_nulos pd df)
    ++ map (fun ir => mkInvalid (snd ir) "A") (df_monto_invalido pd df)
    ++ map (fun ir => mkInvalid (snd ir) "D") (df_duplicados pd df).
Proof.
  unfold limpiar_ventas_invalidas, try_except.
  rewrite map_snd_concat_ignore_index. simpl. rewrite app_nil_r.
  unfold with_reason, assign. rewrite !map_app, !map_map. reflexivity.
Qed.

Lemma invalidas_index (df : RawFrame) :
  index (limpiar_ventas_invalidas pd df)
  = seq 0 (List.length (limpiar_ventas_invalidas pd df)).
Proof.
  unfold limpiar_ventas_invalidas, try_except, concat_ignore_index.
  set (rows := map snd _).
  rewrite index_combine_seq. f_equal.
  rewrite length_combine, length_seq, Nat.min_id. reflexivity.
Qed.

End Invalidas.

(* ================================================================== *)
(** ** Buckets of the invalidity classifier *)
(* ================================================================== *)

Lemma mask_nulos_preparado_resto (pd : Pandas) (raw : RawRecord) :
  Amount raw = None \/ Date raw = None \/ Audit_Date raw = None ->
  mask_nulos (preparado pd raw) = true.
Proof.
  unfold mask_nulos. simpl. intros [H | [H | H]]; rewrite H; simpl;
    rewrite ?orb_true_r; reflexivity.
Qed.

Lemma mask_nulos_preparado_presentes (pd : Pandas) (raw : RawRecord) :
  Sale_ID raw <> None -> Product raw <> None ->
  mask_nulos (preparado pd raw)
  = negb (notna (Amount raw)) || negb (notna (Date raw)) || negb (notna (Audit_Date raw)).
Proof.
  unfold mask_nulos. simpl.
  destruct (Sale_ID raw); [|congruence]. destruct (Product raw); [|congruence].
  reflexivity.
Qed.

Lemma mask_nulos_preparado_texto (pd : Pandas) (raw : RawRecord) :
  nan_as_text pd = false ->
  Sale_ID raw = None \/ Product raw = None ->
  mask_nulos (preparado pd raw) = true.
Proof.
  destruct pd as [flag parse]. simpl. intros -> [H | H];
    unfold mask_nulos, preparado, astype_str; simpl; rewrite H; simpl;
    rewrite ?orb_true_r; reflexivity.
Qed.

Lemma mask_nulos_preparado_iff (pd : Pandas) (raw : RawRecord) :
  mask_nulos (preparado pd raw) = true
  <-> Amount raw = None \/ Date raw = None \/ Audit_Date raw = None
      \/ (nan_as_text pd = false /\ (Sale_ID raw = None \/ Product raw = None)).
Proof.
  destruct pd as [flag parse]. destruct raw as [s p a d u].
  unfold mask_nulos, preparado, astype_str. simpl.
  destruct flag, s, p, a, d, u; simpl; split; intros H; try reflexivity;
    try discriminate; try tauto;
    repeat (destruct H as [H | H]; try discriminate);
    try (destruct H as [H1 H2]; try discriminate;
         destruct H2 as [H2 | H2]; discriminate).
Qed.

Lemma en_df_nulos_iff (pd : Pandas) (batch : list RawRecord) (i : nat) (raw : RawRecord) :
  nth_error batch i = Some raw ->
  (en i (df_nulos pd (frame_of batch))
   <-> Amount raw = None \/ Date raw = None \/ Audit_Date raw = None
       \/ (nan_as_text pd = false /\ (Sale_ID raw = None \/ Product raw = None))).
Proof.
  intros Hnth. apply In_frame_of in Hnth.
  rewrite (en_df_nulos pd _ i raw (ordenado_frame_of batch) Hnth).
  apply mask_nulos_preparado_iff.
Qed.

Lemma mask_nulos_Amount (pd : Pandas) (raw : RawRecord) :
  mask_nulos (preparado pd raw) = false -> Amount raw <> None.
Proof.
  intros H Hnone.
  rewrite (mask_nulos_preparado_resto pd raw (or_introl Hnone)) in H. discriminate.
Qed.

Lemma mask_monto_divisa (pd : Pandas) (raw : RawRecord) :
  mask_nulos (preparado pd raw) = false ->
  mask_monto_invalido pd (preparado pd raw) = negb (divisa_valida raw).
Proof.
  intros H. assert (Ha := mask_nulos_Amount pd raw H).
  unfold mask_monto_invalido, divisa_valida. simpl.
  destruct (Amount raw); [reflexivity | congruence].
Qed.

Lemma en_df_restantes_iff (pd : Pandas) (batch : list RawRecord) (i : nat) (raw : RawRecord) :
  nth_error batch i = Some raw ->
  (en i (df_restantes pd (frame_of batch))
   <-> ~ en i (df_nulos pd (frame_of batch)) /\ divisa_valida raw = true).
Proof.
  intros Hnth. apply In_frame_of in Hnth.
  assert (Hord := ordenado_frame_of batch).
  rewrite (en_df_restantes pd _ i raw Hord Hnth), (en_df_nulos pd _ i raw Hord Hnth).
  split.
  - intros [Hn Hm]. rewrite (mask_monto_divisa pd raw Hn) in Hm.
    apply negb_false_iff in Hm. split; [congruence | exact Hm].
  - intros [Hn Hd]. destruct (mask_nulos (preparado pd raw)) eqn:E; [tauto|].
    split; [reflexivity|]. rewrite (mask_monto_divisa pd raw E), Hd. reflexivity.
Qed.

(** X18. For every batch, what the invalidity classifier returns is bucket
    N, then bucket A, then bucket D, relabelled [0 .. m-1], each bucket in
    input order and made of prepared rows of the batch; and the buckets are
    these: N holds the records without [Amount], [Date] or [Audit_Date],
    and those without [Sale_ID] or [Product] when [astype(str)] keeps a
    missing cell missing; A holds the records outside N whose amount text
    has neither USD nor EUR; D holds the records outside N with a valid
    currency tag whose prepared [Sale_ID] is carried by another record
    outside N with a valid currency tag. *)
Theorem invalid_buckets_characterised
    (pd : Pandas) (batch : list RawRecord) :
  let df := frame_of batch in
  let bN := df_nulos pd df in
  let bA := df_monto_invalido pd df in
  let bD := df_duplicados pd df in
  map snd (limpiar_ventas_invalidas pd df)
  = map (fun ir => mkInvalid (snd ir) "N") bN
    ++ map (fun ir => mkInvalid (snd ir) "A") bA
    ++ map (fun ir => mkInvalid (snd ir) "D") bD
  /\ index (limpiar_ventas_invalidas pd df)
     = seq 0 (List.length bN + List.length bA + List.length bD)
  /\ (ordenado bN /\ ordenado bA /\ ordenado bD)
  /\ (forall i r, In (i, r) bN \/ In (i, r) bA \/ In (i, r) bD ->
                  exists raw, nth_error batch i = Some raw /\ r = preparado pd raw)
  /\ (forall i raw,
         nth_error batch i = Some raw ->
         (en i bN
          <-> Amount raw = None \/ Date raw = None \/ Audit_Date raw = None
              \/ (nan_as_text pd = false /\ (Sale_ID raw = None \/ Product raw = None)))
         /\ (en i bA <-> ~ en i bN /\ divisa_valida raw = false)
         /\ (en i bD
             <-> ~ en i bN /\ divisa_valida raw = true
                 /\ exists j q,
                      j <> i /\ nth_error batch j = Some q
                      /\ ~ en j bN /\ divisa_valida q = true
                      /\ Sale_ID (preparado pd q) = Sale_ID (preparado pd raw))).
Proof.
  intros df bN bA bD.
  assert (Hord : ordenado df) by apply ordenado_frame_of.
  split; [apply invalidas_concat|].
  split.
  { rewrite invalidas_index. f_equal.
    rewrite <- (length_map snd (limpiar_ventas_invalidas pd df)), invalidas_concat.
    rewrite !length_app, !length_map. apply Nat.add_assoc. }
  split.
  { repeat split;
      [ apply ordenado_df_nulos | apply ordenado_df_monto_invalido
      | apply ordenado_df_duplicados ]; exact Hord. }
  split.
  { intros i r [H | [H | H]].
    - apply In_df_nulos in H. destruct H as [raw (H & -> & _)].
      exists raw. split; [apply In_frame_of; exact H | reflexivity].
    - apply In_df_monto_invalido in H. destruct H as [raw (H & -> & _)].
      exists raw. split; [apply In_frame_of; exact H | reflexivity].
    - apply In_df_duplicados in H; [|exact Hord]. destruct H as [H _].
      apply In_df_restantes in H. destruct H as [raw (H & -> & _)].
      exists raw. split; [apply In_frame_of; exact H | reflexivity]. }
  intros i raw Hnth.
  assert (Hin : In (i, raw) df) by (apply In_frame_of; exact Hnth).
  subst bN bA bD df.
  split; [apply (en_df_nulos_iff pd batch i raw Hnth)|]. split.
  - rewrite (en_df_monto_invalido pd _ i raw Hord Hin).
    rewrite (en_df_nulos pd _ i raw Hord Hin). split.
    + intros [Hn Hm]. rewrite (mask_monto_divisa pd raw Hn) in Hm.
      apply negb_true_iff in Hm. split; [congruence | exact Hm].
    + intros [Hn Hd]. destruct (mask_nulos (preparado pd raw)) eqn:E; [tauto|].
      split; [reflexivity|]. rewrite (mask_monto_divisa pd raw E), Hd. reflexivity.
  - rewrite (en_df_duplicados pd _ i raw Hord Hin).
    rewrite (en_df_restantes_iff pd batch i raw Hnth). split.
    + intros [[Hn Hd] (j & q & Hne & Hq & HRj & Hk)].
      split; [exact Hn|]. split; [exact Hd|]. exists j, q.
      assert (Hqn : nth_error batch j = Some q) by (apply In_frame_of; exact Hq).
      apply (en_df_restantes_iff pd batch j q Hqn) in HRj. destruct HRj as [Hjn Hjd].
      split; [exact Hne|]. split; [exact Hqn|]. split; [exact Hjn|].
      split; [exact Hjd|]. apply key_eqb_eq in Hk. congruence.
    + intros (Hn & Hd & j & q & Hne & Hq & Hjn & Hjd & Hk).
      split; [split; assumption|]. exists j, q.
      split; [exact Hne|]. split; [apply In_frame_of; exact Hq|]. split.
      * apply (en_df_restantes_iff pd batch j q Hq). split; assumption.
      * apply key_eqb_eq. congruence.
Qed.

(** A sale without [Date] and without currency tag is in bucket N. *)
Lemma invalid_buckets_witness :
  en 0 (df_nulos pandas2 (frame_of [venta_sin_fecha])).
Proof.
  refine (proj2 (proj1 (proj2 (proj2 (proj2 (proj2
            (invalid_buckets_characterised pandas2 [venta_sin_fecha]))))
            0 venta_sin_fecha eq_refl)) _).
  right. left. reflexivity.
Defined.

(** C7. The record claimed by rule A that rule N should have claimed: when
    [astype(str)] writes the text "nan" for a missing cell (pandas up to
    version 2), lines 112-113 fill a missing [Sale_ID] or [Product] before
    the null test of line 119, so that a record without [Sale_ID] or
    [Product], with its other cells and a bad currency tag, is not in
    bucket N: it is in bucket A and comes out tagged A, and is not tagged
    N. *)
Theorem missing_key_with_bad_tag_is_reported_A
    (pd : Pandas) (batch : list RawRecord) (i : nat) (raw : RawRecord) :
  nan_as_text pd = true ->
  nth_error batch i = Some raw ->
  Sale_ID raw = None \/ Product raw = None ->
  Amount raw <> None ->
  Date raw <> None ->
  Audit_Date raw <> None ->
  divisa_valida raw = false ->
  let df := frame_of batch in
  ~ en i (df_nulos pd df)
  /\ en i (df_monto_invalido pd df)
  /\ ~ en i (df_duplicados pd df)
  /\ In (mkInvalid (preparado pd raw) "A") (map snd (limpiar_ventas_invalidas pd df))
  /\ ~ In (mkInvalid (preparado pd raw) "N") (map snd (limpiar_ventas_invalidas pd df)).
Proof.
  intros Hflag Hnth Hkey Ha Hd Hu Hbad df.
  assert (Hord : ordenado df) by apply ordenado_frame_of.
  assert (Hin : In (i, raw) df) by (apply In_frame_of; exact Hnth).
  assert (Hmask : mask_nulos (preparado pd raw) = false).
  { destruct (mask_nulos (preparado pd raw)) eqn:E; [|reflexivity].
    apply mask_nulos_preparado_iff in E.
    destruct E as [E | [E | [E | [E _]]]]; congruence. }
  assert (HnotN : ~ en i (df_nulos pd df)).
  { intros H. apply (en_df_nulos pd df i raw Hord Hin) in H. congruence. }
  assert (HA : mask_monto_invalido pd (preparado pd raw) = true).
  { rewrite (mask_monto_divisa pd raw Hmask), Hbad. reflexivity. }
  assert (HenA : en i (df_monto_invalido pd df)).
  { apply (en_df_monto_invalido pd df i raw Hord Hin). auto. }
  split; [exact HnotN|]. split; [exact HenA|]. split; [|split].
  - intros HD. apply (proj2 (proj2 (buckets_disjoint pd df i Hord))). auto.
  - rewrite invalidas_concat. apply in_or_app. right. apply in_or_app. left.
    apply en_iff in HenA. destruct HenA as [r Hr].
    assert (Hr' := Hr). apply In_df_monto_invalido in Hr'.
    destruct Hr' as [raw' (Hraw' & -> & _)].
    rewrite (ordenado_functional df i raw raw' Hord Hin Hraw').
    apply (in_map (fun ir => mkInvalid (snd ir) "A") _ _ Hr).
  - rewrite invalidas_concat, !in_app_iff, !in_map_iff.
    intros [[[k r] [Heq Hr]] | [[x [Heq _]] | [x [Heq _]]]]; try discriminate.
    simpl in Heq. injection Heq as Heq. subst r.
    apply In_df_nulos in Hr. destruct Hr as [raw' (_ & Hp & Hm)]. congruence.
Qed.

(** The sale without [Sale_ID] and without currency tag, under pandas 2. *)
Lemma missing_key_witness :
  ~ en 0 (df_nulos pandas2 (frame_of lote_sin_clave))
  /\ en 0 (df_monto_invalido pandas2 (frame_of lote_sin_clave))
  /\ In (mkInvalid (preparado pandas2 venta_sin_clave) "A")
        (map snd (limpiar_ventas_invalidas pandas2 (frame_of lote_sin_clave))).
Proof.
  assert (H := missing_key_with_bad_tag_is_reported_A pandas2 lote_sin_clave 0
                 venta_sin_clave eq_refl eq_refl (or_introl eq_refl)).
  cbv zeta in H.
  destruct H as (H1 & H2 & _ & H4 & _); try discriminate; try reflexivity.
  split; [exact H1|]. split; [exact H2 | exact H4].
Defined.

(* ================================================================== *)
(** ** Rule N *)
(* ================================================================== *)

(** The claim of C4 fails: an amount text and a date text that cannot be
    converted leave their records with an absent field after normalization,
    and bucket N stays empty. *)
Lemma rule_N_misses_unparseable_text :
  let df := frame_of lote_no_convertible in
  let fechas := column (fun r => Date r) df in
  completo (normalizar pandas2 fechas (venta "S1" "P-A" "abcUSD" "2024-03-05")) = false
  /\ completo (normalizar pandas2 fechas (venta "S2" "P-A" "10USD" "05/03/2024")) = false
  /\ df_nulos pandas2 df = []
  /\ df_nulos pandas3 df = [].
Proof. vm_compute. repeat split; reflexivity. Qed.

Lemma filter_app_reason (reason tag : string) (l : list (nat * RawRecord)) :
  filter (fun s => String.eqb (Reason s) tag)
         (map (fun ir => mkInvalid (snd ir) reason) l)
  = if String.eqb reason tag then map (fun ir => mkInvalid (snd ir) reason) l else [].
Proof.
  induction l as [|x l IH]; simpl.
  - destruct (String.eqb reason tag); reflexivity.
  - rewrite IH. destruct (String.eqb reason tag); reflexivity.
Qed.

(** C4, amended. For every batch and every record with a [Sale_ID] and a
    [Product], the invalidity classifier puts the record in bucket N
    exactly when its [Amount], [Date] or [Audit_Date] cell is missing (a
    text that is present is never looked into); the rows tagged N in the
    output are the rows of that bucket; no record of bucket N is in bucket
    A or D. *)
Theorem rule_N_claims_missing_cells
    (pd : Pandas) (batch : list RawRecord) (i : nat) (raw : RawRecord) :
  nth_error batch i = Some raw ->
  Sale_ID raw <> None ->
  Product raw <> None ->
  let df := frame_of batch in
  (en i (df_nulos pd df)
   <-> Amount raw = None \/ Date raw = None \/ Audit_Date raw = None)
  /\ filter (fun s => String.eqb (Reason s) "N") (map snd (limpiar_ventas_invalidas pd df))
     = map (fun ir => mkInvalid (snd ir) "N") (df_nulos pd df)
  /\ (en i (df_nulos pd df) ->
      ~ en i (df_monto_invalido pd df) /\ ~ en i (df_duplicados pd df)).
Proof.
  intros Hnth Hs Hp df.
  assert (Hord : ordenado df) by apply ordenado_frame_of.
  assert (Hin : In (i, raw) df) by (apply In_frame_of; exact Hnth).
  split; [|split].
  - rewrite (en_df_nulos pd df i raw Hord Hin).
    rewrite (mask_nulos_preparado_presentes pd raw Hs Hp).
    rewrite !orb_true_iff, !negb_true_iff, !notna_false. tauto.
  - rewrite invalidas_concat, !filter_app, !filter_app_reason. simpl.
    rewrite app_nil_r. reflexivity.
  - intros HN. destruct (buckets_disjoint pd df i Hord) as (H1 & H2 & _).
    split; intros H; [apply H1 | apply H2]; auto.
Qed.

(** A sale without [Date] is in bucket N. *)
Lemma rule_N_witness : en 0 (df_nulos pandas2 (frame_of [venta_sin_fecha])).
Proof.
  refine (proj2 (proj1 (rule_N_claims_missing_cells pandas2 [venta_sin_fecha] 0
                          venta_sin_fecha _ _ _)) _).
  - reflexivity.
  - discriminate.
  - discriminate.
  - right. left. reflexivity.
Defined.

(* ================================================================== *)
(** ** Where every record goes *)
(* ================================================================== *)

Lemma primera_aparicion_dec (df : RawFrame) (i : nat) (raw : RawRecord) :
  primera_aparicion df i raw
  \/ exists j q, In (j, q) df /\ j < i /\ clave q = clave raw.
Proof.
  set (f := fun jq : nat * RawRecord =>
              (fst jq <? i)%nat && key_eqb (clave raw) (clave (snd jq))).
  destruct (existsb f df) eqn:E.
  - right. apply existsb_exists in E. destruct E as [[j q] [Hin Hf]].
    unfold f in Hf. simpl in Hf. apply andb_true_iff in Hf. destruct Hf as [Hlt Hk].
    apply Nat.ltb_lt in Hlt. apply key_eqb_eq in Hk. exists j, q. auto.
  - left. intros j q Hin Hlt.
    destruct (key_eqb (clave raw) (clave q)) eqn:Hk; [|reflexivity].
    assert (Hex : existsb f df = true).
    { apply existsb_exists. exists (j, q). split; [exact Hin|].
      unfold f. simpl. rewrite Hk. apply Nat.ltb_lt in Hlt. rewrite Hlt. reflexivity. }
    congruence.
Qed.

Lemma Sale_ID_preparado (pd : Pandas) (raw : RawRecord) :
  Sale_ID raw <> None -> Sale_ID (preparado pd raw) = clave raw.
Proof.
  unfold clave. simpl. destruct (Sale_ID raw); [reflexivity | congruence].
Qed.

Lemma mask_monto_invalido_preparado (pd : Pandas) (raw : RawRecord) :
  Amount raw <> None ->
  mask_monto_invalido pd (preparado pd raw) = negb (divisa_valida raw).
Proof.
  unfold mask_monto_invalido, divisa_valida. simpl.
  destruct (Amount raw); [reflexivity | congruence].
Qed.

(** Every amount that reaches line 79 was converted when the classifier
    returns. *)
Lemma validas_amount_converts (pd : Pandas) (df : RawFrame) (out : ValidFrame) i raw :
  ordenado df ->
  limpiar_ventas_validas pd df = Ok out ->
  In (i, raw) df ->
  notna (Sale_ID raw) = true ->
  primera_aparicion df i raw ->
  notna (Product raw) = true ->
  exists x, arreglar_amount (Amount raw) = Ok x.
Proof.
  intros Hord Hok Hin Hs Hfirst Hp.
  destruct (limpiar_ventas_validas_Ok pd df out Hok) as [Ham _].
  destruct (arreglos_amount_Ok _ _ Ham) as (_ & Hall & _).
  apply (Hall i (set_Product (str_method arreglar_product)
                   (set_Sale_ID (str_method Py.upper) raw))).
  apply In_arreglos_product. eexists. split; [|split; [reflexivity|]].
  - apply In_arreglos_sale_id; [exact Hord|]. exists raw. auto.
  - simpl. exact Hp.
Qed.

(** The claim of C1 fails: the second sale is complete, carries a valid
    currency tag, and is reported nowhere, its [Sale_ID] having been taken
    by a sale that bucket N claims. *)
Lemma repeated_sale_is_dropped_silently :
  let df := frame_of lote_repetida_tras_incompleta in
  (limpiar_ventas_validas pandas2 df = Ok []
   /\ index (df_nulos pandas2 df) = [0]
   /\ df_monto_invalido pandas2 df = []
   /\ df_duplicados pandas2 df = [])
  /\ (limpiar_ventas_validas pandas3 df = Ok []
      /\ index (df_nulos pandas3 df) = [0]
      /\ df_monto_invalido pandas3 df = []
      /\ df_duplicados pandas3 df = []).
Proof. vm_compute. repeat split; reflexivity. Qed.

(** A record is claimed by rule N, by rule A, or is left to rule D. *)
Lemma bucket_cases (pd : Pandas) (batch : list RawRecord) (i : nat) (raw : RawRecord) :
  nth_error batch i = Some raw ->
  en i (df_nulos pd (frame_of batch))
  \/ en i (df_monto_invalido pd (frame_of batch))
  \/ (en i (df_restantes pd (frame_of batch))
      /\ mask_nulos (preparado pd raw) = false
      /\ divisa_valida raw = true).
Proof.
  intros Hnth.
  assert (Hord := ordenado_frame_of batch).
  assert (Hin : In (i, raw) (frame_of batch)) by (apply In_frame_of; exact Hnth).
  destruct (mask_nulos (preparado pd raw)) eqn:HmN.
  { left. apply (en_df_nulos pd _ i raw Hord Hin). exact HmN. }
  destruct (mask_monto_invalido pd (preparado pd raw)) eqn:HmA.
  { right. left. apply (en_df_monto_invalido pd _ i raw Hord Hin). auto. }
  right. right. split; [|split; [reflexivity|]].
  - apply (en_df_restantes pd _ i raw Hord Hin). auto.
  - rewrite (mask_monto_invalido_preparado pd raw (mask_nulos_Amount pd raw HmN)) in HmA.
    apply negb_false_iff in HmA. exact HmA.
Qed.

(** C1, amended. For every batch and every record of it: the record lies
    in at most one bucket of the invalidity classifier; without [Amount],
    [Date] or [Audit_Date] it lies in bucket N, and so it does without
    [Sale_ID] or [Product] when [astype(str)] keeps a missing cell missing;
    with a bad currency tag it lies in bucket N or A; when another record
    shares its [Sale_ID], it lies in a bucket unless that other record is
    claimed by N or A.  And whenever the validity classifier returns, a
    record with a [Sale_ID] and a [Product] (any record, when
    [astype(str)] keeps a missing cell missing) appears in the valid
    output or in exactly one bucket, unless its date text does not parse,
    its amount text converts to NaN, or an earlier record with the same
    [Sale_ID] was claimed by bucket N or A. *)
Theorem records_are_attributed
    (pd : Pandas) (batch : list RawRecord) (i : nat) (raw : RawRecord) :
  nth_error batch i = Some raw ->
  let df := frame_of batch in
  let bN := df_nulos pd df in
  let bA := df_monto_invalido pd df in
  let bD := df_duplicados pd df in
  (~ (en i bN /\ en i bA) /\ ~ (en i bN /\ en i bD) /\ ~ (en i bA /\ en i bD))
  /\ (Amount raw = None \/ Date raw = None \/ Audit_Date raw = None -> en i bN)
  /\ (nan_as_text pd = false -> Sale_ID raw = None \/ Product raw = None -> en i bN)
  /\ (divisa_valida raw = false -> en i bN \/ en i bA)
  /\ (forall j q,
         j <> i -> nth_error batch j = Some q ->
         Sale_ID raw <> None -> clave q = clave raw ->
         en i bN \/ en i bA \/ en i bD \/ en j bN \/ en j bA)
  /\ (forall out,
         limpiar_ventas_validas pd df = Ok out ->
         (Sale_ID raw <> None /\ Product raw <> None) \/ nan_as_text pd = false ->
         en i out
         \/ en_exactamente_uno i bN bA bD
         \/ (exists d, Date raw = Some d /\ strptime pd (fechas_validas df) d = None)
         \/ (exists x, arreglar_amount (Amount raw) = Ok x /\ F64.notna x = false)
         \/ (exists j q, j < i /\ nth_error batch j = Some q /\ clave q = clave raw
                         /\ (en j bN \/ en j bA))).
Proof.
  intros Hnth df bN bA bD.
  assert (Hord : ordenado df) by apply ordenado_frame_of.
  assert (Hin : In (i, raw) df) by (apply In_frame_of; exact Hnth).
  destruct (buckets_disjoint pd df i Hord) as (HNA & HND & HAD).
  split; [auto|]. split.
  { intros Hnull. apply (en_df_nulos pd df i raw Hord Hin).
    apply mask_nulos_preparado_resto. exact Hnull. }
  split.
  { intros Hflag Hnull. apply (en_df_nulos pd df i raw Hord Hin).
    apply mask_nulos_preparado_texto; assumption. }
  split.
  { intros Hbad. destruct (bucket_cases pd batch i raw Hnth) as [H | [H | (_ & _ & H)]];
      [left; exact H | right; exact H | congruence]. }
  split.
  { intros j q Hne Hq Hs Hk.
    destruct (bucket_cases pd batch i raw Hnth) as [H | [H | (HRi & _ & _)]];
      [left; exact H | right; left; exact H |].
    destruct (bucket_cases pd batch j q Hq) as [H | [H | (HRj & _ & _)]];
      [right; right; right; left; exact H | right; right; right; right; exact H |].
    right. right. left.
    apply (en_df_duplicados pd df i raw Hord Hin). split; [exact HRi|].
    exists j, q. split; [exact Hne|]. split; [apply In_frame_of; exact Hq|].
    split; [exact HRj|].
    apply key_eqb_eq. rewrite (Sale_ID_preparado pd raw Hs).
    rewrite Sale_ID_preparado; [exact (eq_sym Hk)|].
    intros Hnone. unfold clave in Hk. rewrite Hnone in Hk. simpl in Hk.
    destruct (Sale_ID raw); [discriminate | congruence]. }
  intros out Hok Hclave.
  destruct (mask_nulos (preparado pd raw)) eqn:HmN.
  { right. left. left.
    assert (HN : en i bN) by (apply (en_df_nulos pd df i raw Hord Hin); exact HmN).
    repeat split; [exact HN | intros H; apply HNA; auto | intros H; apply HND; auto]. }
  assert (Hs : Sale_ID raw <> None).
  { destruct Hclave as [[H _] | Hflag]; [exact H|]. intros Hnone.
    rewrite (mask_nulos_preparado_texto pd raw Hflag (or_introl Hnone)) in HmN.
    discriminate. }
  assert (Hp : Product raw <> None).
  { destruct Hclave as [[_ H] | Hflag]; [exact H|]. intros Hnone.
    rewrite (mask_nulos_preparado_texto pd raw Hflag (or_intror Hnone)) in HmN.
    discriminate. }
  assert (HnotN : ~ en i bN).
  { intros H. apply (en_df_nulos pd df i raw Hord Hin) in H. congruence. }
  destruct (mask_monto_invalido pd (preparado pd raw)) eqn:HmA.
  { right. left. right. left.
    assert (HA : en i bA).
    { apply (en_df_monto_invalido pd df i raw Hord Hin). auto. }
    repeat split; [exact HnotN | exact HA | intros H; apply HAD; auto]. }
  assert (HnotA : ~ en i bA).
  { intros H. apply (en_df_monto_invalido pd df i raw Hord Hin) in H.
    destruct H as [_ H]. congruence. }
  assert (HR : In (i, preparado pd raw) (df_restantes pd df)).
  { apply In_df_restantes. exists raw. auto. }
  destruct (duplicated (df_restantes pd df) (preparado pd raw)) eqn:Hdup.
  { right. left. right. right.
    repeat split; [exact HnotN | exact HnotA|].
    apply en_iff. exists (preparado pd raw). unfold bD, df_duplicados.
    apply In_select. auto. }
  (* the record is claimed by no rule *)
  rewrite (mask_nulos_preparado_presentes pd raw Hs Hp) in HmN.
  apply orb_false_iff in HmN. destruct HmN as [HmN Hau].
  apply orb_false_iff in HmN. destruct HmN as [Ham Hda].
  apply negb_false_iff in Ham, Hda, Hau.
  destruct (primera_aparicion_dec df i raw) as [Hfirst | (j & q & Hq & Hlt & Hk)].
  - assert (HsT : notna (Sale_ID raw) = true) by (apply notna_true; exact Hs).
    assert (HpT : notna (Product raw) = true) by (apply notna_true; exact Hp).
    destruct (validas_amount_converts pd df out i raw Hord Hok Hin HsT Hfirst HpT)
      as [x Hx].
    destruct (F64.notna x) eqn:Hna; [|right; right; right; left; eauto].
    destruct (Date raw) as [d|] eqn:Hd; [|discriminate].
    destruct (strptime pd (fechas_validas df) d) as [t|] eqn:Ht;
      [|right; right; left; eauto].
    left. apply en_iff. exists (normalizar pd (fechas_validas df) raw).
    apply (validas_spec pd df out Hord Hok). exists raw.
    repeat split; try assumption.
    unfold completo, normalizar. simpl.
    rewrite !notna_str_method, HsT, HpT, Hx, Hna, Hd, Hau. simpl.
    rewrite Ht. reflexivity.
  - right. right. right. right. exists j, q.
    split; [exact Hlt|]. split; [apply In_frame_of; exact Hq|]. split; [exact Hk|].
    destruct (mask_nulos (preparado pd q)) eqn:HqN.
    { left. apply (en_df_nulos pd df j q Hord Hq). exact HqN. }
    right. apply (en_df_monto_invalido pd df j q Hord Hq). split; [exact HqN|].
    destruct (mask_monto_invalido pd (preparado pd q)) eqn:HqA; [reflexivity|].
    exfalso.
    assert (Hd : duplicated (df_restantes pd df) (preparado pd raw) = true).
    { apply (duplicated_iff _ i _ (ordenado_df_restantes pd df Hord) HR).
      exists j, (preparado pd q). split; [lia|]. split.
      - apply In_df_restantes. exists q. auto.
      - apply key_eqb_eq. rewrite (Sale_ID_preparado pd raw Hs).
        rewrite Sale_ID_preparado; [congruence|].
        intros Hnone. unfold clave in Hk. rewrite Hnone in Hk. simpl in Hk.
        destruct (Sale_ID raw); [discriminate | congruence]. }
    congruence.
Qed.

(** The sale of the amount ["100"], without currency tag, is reported. *)
Lemma records_are_attributed_witness :
  en 2 (df_nulos pandas2 (frame_of lote_importes))
  \/ en 2 (df_monto_invalido pandas2 (frame_of lote_importes)).
Proof.
  refine (proj1 (proj2 (proj2 (proj2
            (records_are_attributed pandas2 lote_importes 2
               (venta "S3" "P-A" "100" "2024-03-05") _)))) _).
  - reflexivity.
  - reflexivity.
Defined.

(* ================================================================== *)
(** ** Two sales sharing a [Sale_ID] *)
(* ================================================================== *)

Lemma round2_nan_isna : F64.notna (F64.round2 nan) = false.
Proof. vm_compute. reflexivity. Qed.

Lemma completo_normalizar (pd : Pandas) (fechas : list (option string)) (r : RawRecord) :
  completo (normalizar pd fechas r) = true ->
  Sale_ID r <> None /\ Product r <> None /\ Amount r <> None
  /\ Date r <> None /\ Audit_Date r <> None.
Proof.
  unfold completo, normalizar. simpl. rewrite !notna_str_method. intros H.
  repeat (apply andb_true_iff in H; destruct H as [H ?]).
  repeat split; try (apply notna_true; assumption).
  - intros Hnone. rewrite Hnone in *. simpl in *.
    change (F64.notna (F64.round2 nan) = true) in H2.
    rewrite round2_nan_isna in H2. discriminate.
  - intros Hnone. rewrite Hnone in *. discriminate.
Qed.

(** The claim of C5 fails: the second and the third sale share ["X1"] and
    are both complete with a valid currency tag, and the valid output holds
    neither of them, their [Sale_ID] having been taken by the sale without
    [Date] that line 63 kept and line 96 dropped. *)
Lemma duplicate_pair_after_incomplete_sale :
  let batch := lote_duplicadas_tras_incompleta in
  let df := frame_of batch in
  let r1 := venta "X1" "P-A" "10USD" "2024-03-05" in
  let r2 := venta "x1" "P-B" "20EUR" "2024-03-06" in
  nth_error batch 1 = Some r1
  /\ nth_error batch 2 = Some r2
  /\ clave r1 = clave r2
  /\ divisa_valida r1 = true
  /\ divisa_valida r2 = true
  /\ (completo (normalizar pandas2 (fechas_validas df) r1) = true
      /\ completo (normalizar pandas2 (fechas_validas df) r2) = true
      /\ limpiar_ventas_validas pandas2 df = Ok [])
  /\ (completo (normalizar pandas3 (fechas_validas df) r1) = true
      /\ completo (normalizar pandas3 (fechas_validas df) r2) = true
      /\ limpiar_ventas_validas pandas3 df = Ok []).
Proof. vm_compute. repeat split; reflexivity. Qed.

(** C5, amended. For every batch and any two records [i < j] sharing a
    [Sale_ID], both complete after normalization and both with a valid
    currency tag: the invalid output holds both records, each in bucket D
    only and tagged D; and whenever the validity classifier returns, its
    output holds the normalized record [i] exactly when no earlier record
    of the batch carries that [Sale_ID], never holds record [j], and holds
    at most one row with that [Sale_ID], labelled [i] or before. *)
Theorem duplicate_pair_first_valid_both_D
    (pd : Pandas) (batch : list RawRecord)
    (i j : nat) (ri rj : RawRecord) :
  nth_error batch i = Some ri ->
  nth_error batch j = Some rj ->
  i < j ->
  clave ri = clave rj ->
  completo (normalizar pd (fechas_validas (frame_of batch)) ri) = true ->
  completo (normalizar pd (fechas_validas (frame_of batch)) rj) = true ->
  divisa_valida ri = true ->
  divisa_valida rj = true ->
  let df := frame_of batch in
  (In (i, preparado pd ri) (df_duplicados pd df)
   /\ In (j, preparado pd rj) (df_duplicados pd df))
  /\ (In (mkInvalid (preparado pd ri) "D") (map snd (limpiar_ventas_invalidas pd df))
      /\ In (mkInvalid (preparado pd rj) "D") (map snd (limpiar_ventas_invalidas pd df)))
  /\ (~ en i (df_nulos pd df) /\ ~ en i (df_monto_invalido pd df)
      /\ ~ en j (df_nulos pd df) /\ ~ en j (df_monto_invalido pd df))
  /\ (forall out,
         limpiar_ventas_validas pd df = Ok out ->
         (In (i, normalizar pd (fechas_validas df) ri) out <-> primera_aparicion df i ri)
         /\ (en i out <-> primera_aparicion df i ri)
         /\ ~ en j out
         /\ (forall k v, In (k, v) out -> Sale_ID v = clave ri -> k <= i)
         /\ (forall k v k' v', In (k, v) out -> In (k', v') out ->
                               Sale_ID v = clave ri -> Sale_ID v' = clave ri -> k = k')).
Proof.
  intros Hi Hj Hlt Hk Hci Hcj Hdi Hdj df.
  assert (Hord : ordenado df) by apply ordenado_frame_of.
  assert (Hini : In (i, ri) df) by (apply In_frame_of; exact Hi).
  assert (Hinj : In (j, rj) df) by (apply In_frame_of; exact Hj).
  destruct (completo_normalizar _ _ _ Hci) as (Hsi & Hpi & Hai & Hfi & Hui).
  destruct (completo_normalizar _ _ _ Hcj) as (Hsj & Hpj & Haj & Hfj & Huj).
  assert (HD : In (i, preparado pd ri) (df_duplicados pd df)
               /\ In (j, preparado pd rj) (df_duplicados pd df)).
  { assert (Hrest : forall k r, In (k, r) df -> Sale_ID r <> None -> Product r <> None ->
                      Amount r <> None -> Date r <> None -> Audit_Date r <> None ->
                      divisa_valida r = true ->
                      In (k, preparado pd r) (df_restantes pd df)).
    { intros k r Hin Hs Hp Ha Hf Hu Hd. apply In_df_restantes. exists r.
      split; [exact Hin|]. split; [reflexivity|]. split.
      - rewrite (mask_nulos_preparado_presentes pd r Hs Hp).
        apply notna_true in Ha, Hf, Hu. rewrite Ha, Hf, Hu. reflexivity.
      - rewrite (mask_monto_invalido_preparado pd r Ha), Hd. reflexivity. }
    assert (HRi := Hrest i ri Hini Hsi Hpi Hai Hfi Hui Hdi).
    assert (HRj := Hrest j rj Hinj Hsj Hpj Haj Hfj Huj Hdj).
    assert (Hkey : key_eqb (Sale_ID (preparado pd ri)) (Sale_ID (preparado pd rj)) = true).
    { apply key_eqb_eq. rewrite !Sale_ID_preparado by assumption. exact Hk. }
    split; (apply In_df_duplicados; [exact Hord|]).
    - split; [exact HRi|]. exists j, (preparado pd rj).
      split; [lia|]. split; [exact HRj | exact Hkey].
    - split; [exact HRj|]. exists i, (preparado pd ri).
      split; [lia|]. split; [exact HRi|]. rewrite key_eqb_sym. exact Hkey. }
  destruct HD as [HDi HDj].
  split; [auto|]. split; [|split].
  - rewrite invalidas_concat. split; apply in_or_app; right; apply in_or_app; right.
    + apply (in_map (fun ir => mkInvalid (snd ir) "D") _ _ HDi).
    + apply (in_map (fun ir => mkInvalid (snd ir) "D") _ _ HDj).
  - assert (Heni : en i (df_duplicados pd df)) by (apply en_iff; eauto).
    assert (Henj : en j (df_duplicados pd df)) by (apply en_iff; eauto).
    destruct (buckets_disjoint pd df i Hord) as (_ & Hi1 & Hi2).
    destruct (buckets_disjoint pd df j Hord) as (_ & Hj1 & Hj2).
    repeat split; intros H; [apply Hi1 | apply Hi2 | apply Hj1 | apply Hj2]; auto.
  - intros out Hok.
    assert (Hspec := validas_spec pd df out Hord Hok).
    assert (Hin_iff : In (i, normalizar pd (fechas_validas df) ri) out
                      <-> primera_aparicion df i ri).
    { split.
      - intros Hv. apply Hspec in Hv. destruct Hv as [raw (Hraw & _ & Hf & _)].
        rewrite (ordenado_functional df i ri raw Hord Hini Hraw). exact Hf.
      - intros Hfirst. apply Hspec. exists ri.
        repeat split; try assumption. apply notna_true. exact Hsi. }
    assert (Hbefore : forall k v, In (k, v) out -> Sale_ID v = clave ri -> k <= i).
    { intros k v Hv Hsv. apply Hspec in Hv.
      destruct Hv as [raw (Hraw & _ & Hf & -> & _)].
      simpl in Hsv. fold (clave raw) in Hsv.
      destruct (Nat.le_gt_cases k i) as [Hle | Hgt]; [exact Hle|].
      specialize (Hf i ri Hini Hgt). rewrite Hsv, key_eqb_refl in Hf. discriminate. }
    split; [exact Hin_iff|]. split; [|split; [|split; [exact Hbefore|]]].
    + rewrite <- Hin_iff. split.
      * intros Hen. apply en_iff in Hen. destruct Hen as [v Hv].
        assert (Hv' := Hv). apply Hspec in Hv'.
        destruct Hv' as [raw (Hraw & _ & _ & Heq & _)].
        rewrite (ordenado_functional df i ri raw Hord Hini Hraw). rewrite <- Heq. exact Hv.
      * intros Hv. apply en_iff. eauto.
    + intros Hen. apply en_iff in Hen. destruct Hen as [v Hv].
      apply Hspec in Hv. destruct Hv as [raw (Hraw & _ & Hf & _)].
      rewrite <- (ordenado_functional df j rj raw Hord Hinj Hraw) in Hf.
      specialize (Hf i ri Hini Hlt). rewrite <- Hk, key_eqb_refl in Hf. discriminate.
    + intros k v k' v' Hv Hv' Hsv Hsv'.
      apply Hspec in Hv. destruct Hv as [raw (Hraw & _ & Hf & -> & _)].
      apply Hspec in Hv'. destruct Hv' as [raw' (Hraw' & _ & Hf' & -> & _)].
      simpl in Hsv, Hsv'. fold (clave raw) in Hsv. fold (clave raw') in Hsv'.
      destruct (Nat.lt_trichotomy k k') as [Hkk | [Hkk | Hkk]]; [|exact Hkk|].
      * specialize (Hf' k raw Hraw Hkk).
        rewrite Hsv, Hsv', key_eqb_refl in Hf'. discriminate.
      * specialize (Hf k' raw' Hraw' Hkk).
        rewrite Hsv, Hsv', key_eqb_refl in Hf. discriminate.
Qed.

(** The two sales sharing ["X1"]. *)
Lemma duplicate_pair_witness :
  let df := frame_of lote_duplicadas in
  exists out,
    limpiar_ventas_validas pandas2 df = Ok out
    /\ en 0 out
    /\ ~ en 1 out
    /\ In (mkInvalid (preparado pandas2 (venta "X1" "P-A" "10USD" "2024-03-05")) "D")
          (map snd (limpiar_ventas_invalidas pandas2 df))
    /\ In (mkInvalid (preparado pandas2 (venta "x1" "P-B" "20EUR" "2024-03-06")) "D")
          (map snd (limpiar_ventas_invalidas pandas2 df)).
Proof.
  intros df.
  destruct (limpiar_ventas_validas pandas2 df) as [out|e] eqn:Hok;
    [|exfalso; vm_compute in Hok; discriminate].
  exists out. split; [reflexivity|].
  assert (H := duplicate_pair_first_valid_both_D pandas2 lote_duplicadas 0 1
                 (venta "X1" "P-A" "10USD" "2024-03-05")
                 (venta "x1" "P-B" "20EUR" "2024-03-06")
                 eq_refl eq_refl (le_n 1) eq_refl).
  cbv zeta in H.
  destruct H as (_ & HD & _ & Hval).
  - vm_compute. reflexivity.
  - vm_compute. reflexivity.
  - reflexivity.
  - reflexivity.
  - destruct (Hval out Hok) as (_ & H0 & H1 & _).
    split; [|split; [exact H1 | exact HD]].
    apply H0. intros j q _ Hlt. inversion Hlt.
Defined.

(* ================================================================== *)
(** ** Amounts *)
(* ================================================================== *)

Lemma arreglar_amount_Some (s : string) :
  arreglar_amount (Some s)
  = match F64.float_of_string (quitar_divisa s) with
    | Some x => Ok (F64.round2 (if Py.endswith s "EUR" then (x * 0.85)%float else x))
    | None => Raise (ValueError (quitar_divisa s))
    end.
Proof.
  unfold arreglar_amount, astype_float. simpl.
  destruct (F64.float_of_string (quitar_divisa s)); reflexivity.
Qed.

Lemma nearest_even_spec (m d : Z) :
  (0 < d)%Z -> (0 <= m)%Z ->
  (0 <= F64.nearest_even m d)%Z
  /\ (Z.abs (2 * (F64.nearest_even m d * d - m)) <= d)%Z
  /\ (Z.abs (2 * (F64.nearest_even m d * d - m)) = d ->
      Z.even (F64.nearest_even m d) = true).
Proof.
  intros Hd Hm. unfold F64.nearest_even.
  assert (Hdiv := Z.div_mod m d (Z.neq_sym _ _ (Z.lt_neq _ _ Hd))).
  assert (Hr := Z.mod_pos_bound m d Hd).
  assert (Hq : (0 <= m / d)%Z) by (apply Z.div_pos; assumption).
  set (q := (m / d)%Z) in *. set (r := (m mod d)%Z) in *.
  destruct (Z.ltb_spec (2 * r) d) as [H1 | H1].
  - replace (q * d - m)%Z with (- r)%Z by lia.
    split; [exact Hq|]. split; lia.
  - destruct (Z.ltb_spec d (2 * r)) as [H2 | H2].
    + replace ((q + 1) * d - m)%Z with (d - r)%Z by lia.
      split; [lia|]. split; lia.
    + destruct (Z.even q) eqn:Hev.
      * replace (q * d - m)%Z with (- r)%Z by lia.
        split; [exact Hq|]. split; [lia|]. intros _. exact Hev.
      * replace ((q + 1) * d - m)%Z with (d - r)%Z by lia.
        split; [lia|]. split; [lia|]. intros _.
        rewrite Z.add_1_r, Z.even_succ, <- Z.negb_even, Hev. reflexivity.
Qed.

(** At most one integer is nearest, ties going to the even one. *)
Lemma entero_mas_cercano_unico (m : positive) (e n n' : Z) :
  entero_mas_cercano m e n -> entero_mas_cercano m e n' -> n' = n.
Proof.
  unfold entero_mas_cercano. destruct (Z.leb_spec 0 e) as [He | He]; [congruence|].
  assert (Hd : (0 < 2 ^ (- e))%Z) by (apply Z.pow_pos_nonneg; lia).
  set (d := (2 ^ (- e))%Z) in *. cbv zeta.
  intros [H1 T1] [H2 T2].
  assert (Hle : (-1 <= n' - n <= 1)%Z) by nia.
  assert (Hcases : (n' = n \/ n' = n + 1 \/ n = n' + 1)%Z) by lia.
  destruct Hcases as [H | [H | H]]; [exact H | exfalso | exfalso].
  - subst n'.
    assert (E1 : Z.even n = true) by (apply T1; nia).
    assert (E2 : Z.even (n + 1) = true) by (apply T2; nia).
    rewrite Z.add_1_r, Z.even_succ, <- Z.negb_even, E1 in E2. discriminate.
  - subst n.
    assert (E1 : Z.even n' = true) by (apply T2; nia).
    assert (E2 : Z.even (n' + 1) = true) by (apply T1; nia).
    rewrite Z.add_1_r, Z.even_succ, <- Z.negb_even, E1 in E2. discriminate.
Qed.

Lemma rint_fraction (z : float) (s : bool) (m : positive) (e : Z) :
  Prim2SF z = S754_finite s m e -> (e < 0)%Z ->
  F64.rint z = F64.of_integer s (F64.nearest_even (Zpos m) (2 ^ (- e))).
Proof.
  intros H He. unfold F64.rint. rewrite H.
  destruct (Z.leb_spec 0 e); [lia | reflexivity].
Qed.

Lemma rint_integer (z : float) :
  match Prim2SF z with
  | S754_finite _ _ e => (0 <= e)%Z
  | _ => True
  end ->
  F64.rint z = z.
Proof.
  unfold F64.rint. destruct (Prim2SF z) as [| | |s m e]; try reflexivity.
  intros He. destruct (Z.leb_spec 0 e); [reflexivity | lia].
Qed.

(** The claim of C6 fails: the remainder of "1e307USD" is the float 1e307,
    an integer that its rounding to two decimals would leave as it is, and
    the normalized amount is infinite, the scaling by 100 of the rounding
    having overflowed. *)
Lemma huge_amount_is_not_rounded :
  F64.float_of_string (quitar_divisa "1e307USD") = Some 1e307%float
  /\ Py.endswith "1e307USD" "EUR" = false
  /\ F64.rint 1e307%float = 1e307%float
  /\ arreglar_amount (Some "1e307USD") = Ok infinity
  /\ PrimFloat.eqb infinity 1e307%float = false.
Proof. vm_compute. repeat split; reflexivity. Qed.

(** C6, amended. For every amount text whose remainder, once every "USD"
    and then every "EUR" is removed, is accepted by [float] as [x], the
    normalized amount is the rounding of [y], where [y] is the binary64
    product of [x] and 0.85 exactly when the text ends with "EUR", and [x]
    otherwise; every amount of the valid output arises this way from the
    amount text of its record.  The rounding of [y] is taken on the binary64
    product [y * 100]: when that product has a fractional part, it is the
    binary64 quotient by 100 of the one integer nearest to the product, the
    even one of two equally near; when the product is an integer, a zero,
    infinite or NaN, it is the quotient of the product itself, infinite as
    soon as the product overflows.  "100EUR" gives 85.0, "100USD" and "100"
    give 100.0; "10.456USD" gives 10.46, "33.333EUR" gives 28.33, and
    "0.125USD", half-way, gives 0.12. *)
Theorem amount_is_converted_and_rounded (pd : Pandas) :
  (forall s x,
      F64.float_of_string (quitar_divisa s) = Some x ->
      arreglar_amount (Some s)
      = Ok (F64.round2 (if Py.endswith s "EUR" then (x * 0.85)%float else x)))
  /\ (forall batch out i v,
         limpiar_ventas_validas pd (frame_of batch) = Ok out ->
         In (i, v) out ->
         exists raw s x,
           nth_error batch i = Some raw /\ Amount raw = Some s
           /\ F64.float_of_string (quitar_divisa s) = Some x
           /\ Amount v = F64.round2 (if Py.endswith s "EUR" then (x * 0.85)%float else x))
  /\ (forall y s m e,
         Prim2SF (y * 100) = S754_finite s m e -> (e < 0)%Z ->
         exists n,
           entero_mas_cercano m e n
           /\ (0 <= n)%Z
           /\ (forall n', entero_mas_cercano m e n' -> n' = n)
           /\ F64.round2 y = (F64.of_integer s n / 100)%float)
  /\ (forall y,
         match Prim2SF (y * 100) with
         | S754_finite _ _ e => (0 <= e)%Z
         | _ => True
         end ->
         F64.round2 y = (y * 100 / 100)%float)
  /\ arreglar_amount (Some "100EUR") = Ok 85%float
  /\ arreglar_amount (Some "100USD") = Ok 100%float
  /\ arreglar_amount (Some "100") = Ok 100%float
  /\ arreglar_amount (Some "10.456USD") = Ok 10.46%float
  /\ arreglar_amount (Some "33.333EUR") = Ok 28.33%float
  /\ arreglar_amount (Some "0.125USD") = Ok 0.12%float
  /\ match limpiar_ventas_validas pandas2 (frame_of lote_importes) with
     | Ok out => column (fun r => Amount r) out = [85%float; 100%float; 100%float]
     | Raise _ => False
     end.
Proof.
  split; [|split; [|split; [|split]]].
  - intros s x Hx. rewrite arreglar_amount_Some, Hx. reflexivity.
  - intros batch out i v Hok Hin.
    apply (validas_spec pd (frame_of batch) out (ordenado_frame_of batch) Hok) in Hin.
    destruct Hin as [raw (Hraw & _ & _ & -> & Hc)].
    destruct (completo_normalizar _ _ _ Hc) as (_ & _ & Ha & _).
    destruct (Amount raw) as [s|] eqn:Hs; [|congruence].
    unfold completo, normalizar in Hc. simpl in Hc. rewrite Hs in Hc.
    exists raw, s. unfold normalizar. simpl. rewrite Hs.
    rewrite arreglar_amount_Some in *.
    destruct (F64.float_of_string (quitar_divisa s)) as [x|].
    + exists x. repeat split; try reflexivity. apply In_frame_of. exact Hraw.
    + simpl in Hc. rewrite !andb_false_r in Hc. simpl in Hc.
      rewrite ?andb_false_r in Hc. discriminate.
  - intros y s m e Hy He.
    assert (Hd : (0 < 2 ^ (- e))%Z) by (apply Z.pow_pos_nonneg; lia).
    destruct (nearest_even_spec (Zpos m) (2 ^ (- e)) Hd (Pos2Z.is_nonneg m))
      as (Hn & Hnear & Htie).
    assert (Hcerca : entero_mas_cercano m e (F64.nearest_even (Zpos m) (2 ^ (- e)))).
    { unfold entero_mas_cercano. destruct (Z.leb_spec 0 e); [lia|].
      cbv zeta. split; assumption. }
    exists (F64.nearest_even (Zpos m) (2 ^ (- e))).
    split; [exact Hcerca|]. split; [exact Hn|]. split.
    + intros n' Hn'. apply (entero_mas_cercano_unico m e _ n' Hcerca Hn').
    + unfold F64.round2. rewrite (rint_fraction _ s m e Hy He). reflexivity.
  - intros y Hy. unfold F64.round2. rewrite (rint_integer _ Hy). reflexivity.
  - vm_compute. repeat split; reflexivity.
Qed.

(** The text "33.333EUR": the product by 100 is 2833.305, nearest to 2833. *)
Lemma amount_witness :
  arreglar_amount (Some "33.333EUR") = Ok 28.33%float
  /\ exists n, F64.round2 (33.333 * 0.85)%float = (F64.of_integer false n / 100)%float
               /\ n = 2833%Z.
Proof.
  split.
  - change 28.33%float with (F64.round2 (if Py.endswith "33.333EUR" "EUR"
                                         then (33.333 * 0.85)%float else 33.333%float)).
    apply (proj1 (amount_is_converted_and_rounded pandas2) "33.333EUR" 33.333%float).
    vm_compute. reflexivity.
  - destruct (Prim2SF (33.333 * 0.85 * 100)%float) as [| | |s m e] eqn:Hsf;
      try (exfalso; vm_compute in Hsf; discriminate).
    assert (He : (e < 0)%Z).
    { vm_compute in Hsf. injection Hsf as _ _ <-. reflexivity. }
    destruct (proj1 (proj2 (proj2 (amount_is_converted_and_rounded pandas2)))
                (33.333 * 0.85)%float s m e Hsf He) as [n (Hc & _ & _ & Hr)].
    exists n. vm_compute in Hsf. injection Hsf as <- <- <-.
    split; [exact Hr|].
    refine (entero_mas_cercano_unico _ _ 2833%Z n _ Hc).
    vm_compute. split; [discriminate|]. intros H. discriminate.
Defined.

(** C2. The conversion of the amounts raises on a text [float] refuses: the
    cell is not turned into an absent value, and the batch (here the batch
    of one unparseable amount and one unparseable date) is aborted. *)
Theorem unparseable_amount_raises :
  arreglar_amount (Some "abcUSD") = Raise (ValueError "abc")
  /\ forall pd, limpiar_ventas_validas pd (frame_of lote_no_convertible)
                = Raise (ValueError "abc").
Proof. split; [|intros pd]; vm_compute; reflexivity. Qed.

(** C8. A fault of the amount block is not caught inside
    [limpiar_ventas_validas]: it reaches the caller. *)
Theorem validas_fault_reaches_caller (pd : Pandas) (df : RawFrame) (e : exn) :
  arreglos_amount (arreglos_product (arreglos_sale_id df)) = Raise e ->
  limpiar_ventas_validas pd df = Raise e.
Proof.
  intros H. unfold limpiar_ventas_validas. rewrite H. reflexivity.
Qed.

Lemma validas_fault_witness :
  limpiar_ventas_validas pandas2 (frame_of lote_no_convertible)
  = Raise (ValueError "abc").
Proof.
  apply validas_fault_reaches_caller. vm_compute. reflexivity.
Defined.

(* ================================================================== *)
(** ** The order of the two steps of the validity classifier *)
(* ================================================================== *)

(** The claim of C3 fails: the algorithm of the specification keeps the
    second sale, the classifier returns nothing. *)
Lemma spec_classifier_keeps_more :
  let df := frame_of lote_repetida_tras_incompleta in
  limpiar_ventas_validas pandas2 df = Ok []
  /\ index (spec_validity_classifier pandas2 df) = [1]
  /\ limpiar_ventas_validas pandas2 df <> Ok (spec_validity_classifier pandas2 df).
Proof. vm_compute. repeat split; try reflexivity. discriminate. Qed.

(** C3, amended. For every batch on which the validity classifier returns,
    its output is, in input order: the records that have a [Sale_ID], that
    no earlier record of the batch shares it with, and whose normalization
    leaves no absent field.  The duplicates are dropped before the
    incomplete records: a record is not kept when an earlier record shares
    its [Sale_ID], be that earlier record dropped afterwards for an absent
    field. *)
Theorem validas_dedup_before_filter
    (pd : Pandas) (batch : list RawRecord) (out : ValidFrame) :
  limpiar_ventas_validas pd (frame_of batch) = Ok out ->
  (forall i v,
      In (i, v) out
      <-> exists raw,
            nth_error batch i = Some raw
            /\ Sale_ID raw <> None
            /\ (forall j q, j < i -> nth_error batch j = Some q -> clave q <> clave raw)
            /\ v = normalizar pd (fechas_validas (frame_of batch)) raw
            /\ completo v = true)
  /\ ordenado out
  /\ (forall i j ri rj,
         i < j -> nth_error batch i = Some ri -> nth_error batch j = Some rj ->
         clave ri = clave rj -> ~ en j out).
Proof.
  intros Hok.
  assert (Hord := ordenado_frame_of batch).
  assert (Hiff : forall i v,
      In (i, v) out
      <-> exists raw,
            nth_error batch i = Some raw
            /\ Sale_ID raw <> None
            /\ (forall j q, j < i -> nth_error batch j = Some q -> clave q <> clave raw)
            /\ v = normalizar pd (fechas_validas (frame_of batch)) raw
            /\ completo v = true).
  { intros i v. rewrite (validas_spec pd (frame_of batch) out Hord Hok i v). split.
    - intros [raw (Hraw & Hs & Hf & Hv & Hc)]. exists raw.
      split; [apply In_frame_of; exact Hraw|]. split; [apply notna_true; exact Hs|].
      split; [|auto]. intros j q Hlt Hq Heq.
      apply In_frame_of in Hq. specialize (Hf j q Hq Hlt).
      rewrite Heq, key_eqb_refl in Hf. discriminate.
    - intros [raw (Hraw & Hs & Hf & Hv & Hc)]. exists raw.
      split; [apply In_frame_of; exact Hraw|]. split; [apply notna_true; exact Hs|].
      split; [|auto]. intros j q Hq Hlt. apply key_eqb_neq.
      apply In_frame_of in Hq. intros Heq. apply (Hf j q Hlt Hq). congruence. }
  split; [exact Hiff|]. split; [apply (ordenado_validas pd _ out Hord Hok)|].
  intros i j ri rj Hlt Hi Hj Hk Hen.
  apply en_iff in Hen. destruct Hen as [v Hv]. apply Hiff in Hv.
  destruct Hv as [raw (Hraw & _ & Hf & _)].
  assert (raw = rj) by congruence. subst raw.
  apply (Hf i ri Hlt Hi Hk).
Qed.

(** The complete sale that follows an incomplete sale with its [Sale_ID]. *)
Lemma validas_dedup_witness :
  exists out,
    limpiar_ventas_validas pandas2 (frame_of lote_repetida_tras_incompleta) = Ok out
    /\ ~ en 1 out.
Proof.
  eexists. split; [vm_compute; reflexivity|].
  refine (proj2 (proj2 (validas_dedup_before_filter pandas2
                          lote_repetida_tras_incompleta _ _))
            0 1 (mkRow (Some "S1") (Some "P-A") (Some "10USD") None audit_abril)
            (venta "s1" "P-A" "10USD" "2024-03-05") _ _ _ _).
  - vm_compute. reflexivity.
  - lia.
  - reflexivity.
  - reflexivity.
  - reflexivity.
Defined.

(* ================================================================== *)
(** ** The order of the group keys *)
(* ================================================================== *)

Lemma ascii_compare_refl (c : ascii) : Ascii.compare c c = Eq.
Proof. unfold Ascii.compare. apply N.compare_refl. Qed.

Lemma string_compare_refl (s : string) : String.compare s s = Eq.
Proof.
  induction s as [|c s IH]; simpl; [reflexivity|].
  rewrite ascii_compare_refl. exact IH.
Qed.

Lemma string_compare_Gt (a b : string) :
  String.compare a b = Gt <-> String.compare b a = Lt.
Proof.
  rewrite (String.compare_antisym b a).
  destruct (String.compare a b); simpl; split; congruence.
Qed.

Lemma string_compare_trans (a b c : string) :
  String.compare a b = Lt -> String.compare b c = Lt -> String.compare a c = Lt.
Proof.
  revert b c. induction a as [|x a IH]; intros [|y b] [|z c]; simpl;
    try congruence.
  destruct (Ascii.compare x y) eqn:Hxy; try discriminate;
    destruct (Ascii.compare y z) eqn:Hyz; try discriminate; intros H1 H2.
  - apply Ascii.compare_eq_iff in Hxy, Hyz. subst.
    rewrite ascii_compare_refl. eapply IH; eassumption.
  - apply Ascii.compare_eq_iff in Hxy. subst. rewrite Hyz. reflexivity.
  - apply Ascii.compare_eq_iff in Hyz. subst. rewrite Hxy. reflexivity.
  - assert (Hxz : Ascii.compare x z = Lt).
    { unfold Ascii.compare in *. rewrite N.compare_lt_iff in *. lia. }
    rewrite Hxz. reflexivity.
Qed.

Lemma group_key_eqb_eq (a b : group_key) : group_key_eqb a b = true <-> a = b.
Proof.
  destruct a as [a1 a2], b as [b1 b2]. unfold group_key_eqb. simpl.
  rewrite andb_true_iff, !String.eqb_eq. split; [intros []|intros H; inversion H]; subst; auto.
Qed.

Lemma group_key_lt_irrefl (a : group_key) : ~ group_key_lt a a.
Proof.
  unfold group_key_lt, group_key_ltb, String.ltb.
  rewrite !string_compare_refl. discriminate.
Qed.

Lemma group_key_lt_trans (a b c : group_key) :
  group_key_lt a b -> group_key_lt b c -> group_key_lt a c.
Proof.
  destruct a as [a1 a2], b as [b1 b2], c as [c1 c2].
  unfold group_key_lt, group_key_ltb, String.ltb. simpl.
  destruct (String.compare a1 b1) eqn:H1; try discriminate;
    destruct (String.compare b1 c1) eqn:H2; try discriminate; intros Ha Hb.
  - apply String.compare_eq_iff in H1, H2. subst. rewrite string_compare_refl.
    destruct (String.compare a2 b2) eqn:H3; try discriminate.
    destruct (String.compare b2 c2) eqn:H4; try discriminate.
    rewrite (string_compare_trans _ _ _ H3 H4). reflexivity.
  - apply String.compare_eq_iff in H1. subst. rewrite H2. reflexivity.
  - apply String.compare_eq_iff in H2. subst. rewrite H1. reflexivity.
  - rewrite (string_compare_trans _ _ _ H1 H2). reflexivity.
Qed.

Lemma group_key_trichotomy (a b : group_key) :
  group_key_ltb a b = false -> group_key_eqb a b = false -> group_key_lt b a.
Proof.
  destruct a as [a1 a2], b as [b1 b2].
  unfold group_key_lt, group_key_ltb, group_key_eqb, String.ltb. simpl.
  intros Hlt Heq.
  destruct (String.compare a1 b1) eqn:H1; try discriminate.
  - apply String.compare_eq_iff in H1. subst. rewrite string_compare_refl.
    rewrite String.eqb_refl in Heq. simpl in Heq.
    destruct (String.compare a2 b2) eqn:H2; try discriminate.
    + apply String.compare_eq_iff in H2. subst. rewrite String.eqb_refl in Heq.
      discriminate.
    + apply string_compare_Gt in H2. rewrite H2. reflexivity.
  - apply string_compare_Gt in H1. rewrite H1. reflexivity.
Qed.

Lemma In_insert_key (k k0 : group_key) (l : list group_key) :
  In k (insert_key k0 l) <-> k = k0 \/ In k l.
Proof.
  induction l as [|h t IH]; simpl; [intuition congruence|].
  destruct (group_key_ltb k0 h); simpl; [intuition congruence|].
  destruct (group_key_eqb k0 h) eqn:E; simpl.
  - apply group_key_eqb_eq in E. subst. intuition congruence.
  - rewrite IH. intuition congruence.
Qed.

Lemma insert_key_sorted (k : group_key) (l : list group_key) :
  StronglySorted group_key_lt l -> StronglySorted group_key_lt (insert_key k l).
Proof.
  induction 1 as [|h t Hs IH Hf]; simpl; [repeat constructor|].
  destruct (group_key_ltb k h) eqn:Hlt.
  - constructor; [constructor; assumption|].
    constructor; [exact Hlt|].
    rewrite Forall_forall in *. intros x Hx.
    apply (group_key_lt_trans k h x Hlt (Hf x Hx)).
  - destruct (group_key_eqb k h) eqn:Heq; [constructor; assumption|].
    constructor; [exact IH|].
    rewrite Forall_forall in *. intros x Hx. apply In_insert_key in Hx.
    destruct Hx as [-> | Hx]; [|auto].
    apply group_key_trichotomy; assumption.
Qed.

Lemma sorted_keys_sorted (ks : list group_key) :
  StronglySorted group_key_lt (sorted_keys ks).
Proof.
  induction ks as [|k ks IH]; simpl; [constructor|].
  apply insert_key_sorted, IH.
Qed.

Lemma In_sorted_keys (k : group_key) (ks : list group_key) :
  In k (sorted_keys ks) <-> In k ks.
Proof.
  induction ks as [|k0 ks IH]; simpl; [tauto|].
  rewrite In_insert_key, IH. intuition congruence.
Qed.

Lemma sorted_NoDup (l : list group_key) :
  StronglySorted group_key_lt l -> NoDup l.
Proof.
  induction 1 as [|h t Hs IH Hf]; constructor; [|assumption].
  intros Hin. rewrite Forall_forall in Hf.
  apply (group_key_lt_irrefl h). auto.
Qed.

(** Two strictly sorted lists with the same elements are the same list. *)
Lemma sorted_unique (l1 l2 : list group_key) :
  StronglySorted group_key_lt l1 -> StronglySorted group_key_lt l2 ->
  (forall k, In k l1 <-> In k l2) -> l1 = l2.
Proof.
  intros H1. revert l2. induction H1 as [|h1 t1 Hs1 IH Hf1]; intros l2 H2 Hiff.
  - destruct l2 as [|h2 t2]; [reflexivity|].
    exfalso. apply (proj2 (Hiff h2)). left. reflexivity.
  - destruct H2 as [|h2 t2 Hs2 Hf2].
    { exfalso. apply (proj1 (Hiff h1)). left. reflexivity. }
    rewrite Forall_forall in Hf1, Hf2.
    assert (Hh : h1 = h2).
    { destruct (proj1 (Hiff h1) (or_introl eq_refl)) as [E | Hin1]; [auto|].
      destruct (proj2 (Hiff h2) (or_introl eq_refl)) as [E | Hin2]; [auto|].
      exfalso. apply (group_key_lt_irrefl h1).
      apply (group_key_lt_trans h1 h2 h1); auto. }
    subst h2. f_equal. apply IH; [exact Hs2|].
    intros k. split; intros Hk.
    + destruct (proj1 (Hiff k) (or_intror Hk)) as [E | Hin]; [|exact Hin].
      subst k. exfalso. apply (group_key_lt_irrefl h1). auto.
    + destruct (proj2 (Hiff k) (or_intror Hk)) as [E | Hin]; [|exact Hin].
      subst k. exfalso. apply (group_key_lt_irrefl h1). auto.
Qed.

(* ================================================================== *)
(** ** The order of binary64 floats *)
(* ================================================================== *)







(* ================================================================== *)
(** ** The reductions of a group *)
(* ================================================================== *)

Lemma filter_notna_all (vals : list float) :
  (forall a, In a vals -> F64.notna a = true) -> filter F64.notna vals = vals.
Proof.
  induction vals as [|a vals IH]; simpl; intros H; [reflexivity|].
  rewrite (H a (or_introl eq_refl)). f_equal. apply IH. intros; apply H; tauto.
Qed.

Lemma group_count_all (vals : list float) :
  (forall a, In a vals -> F64.notna a = true) ->
  F64.group_count vals = Z.of_nat (List.length vals).
Proof.
  intros H. unfold F64.group_count. rewrite (filter_notna_all vals H). reflexivity.
Qed.



(* ================================================================== *)
(** ** The monthly summary *)
(* ================================================================== *)

Lemma has_key_true (k : group_key) (r : ValidSale) :
  has_key k r = true <-> key_of r = Some k.
Proof.
  unfold has_key. destruct (key_of r) as [k'|].
  - rewrite group_key_eqb_eq. split; congruence.
  - split; discriminate.
Qed.

Lemma In_observed_keys (df : ValidFrame) (k : group_key) :
  In k (observed_keys df) <-> exists i r, In (i, r) df /\ key_of r = Some k.
Proof.
  induction df as [|[j q] df IH]; simpl.
  - split; [tauto | intros (i & r & [] & _)].
  - destruct (key_of q) as [k'|] eqn:Hq; simpl; rewrite ?IH; split.
    + intros [<- | (i & r & Hin & Hk)]; [exists j, q; auto | exists i, r; auto].
    + intros (i & r & [Heq | Hin] & Hk).
      * inversion Heq; subst. left. congruence.
      * right. eauto.
    + intros (i & r & Hin & Hk). exists i, r. auto.
    + intros (i & r & [Heq | Hin] & Hk).
      * inversion Heq; subst. congruence.
      * eauto.
Qed.

Lemma resumen_keys (df : ValidFrame) :
  map summary_key (generar_ventas_resumen_mensual df) = sorted_keys (observed_keys df).
Proof.
  unfold generar_ventas_resumen_mensual, try_except. rewrite map_map.
  rewrite <- (map_id (sorted_keys (observed_keys df))) at 2.
  apply map_ext. intros [m p]. reflexivity.
Qed.


Lemma key_of_completo (r : ValidSale) :
  completo r = true ->
  exists t p, Date r = Some t /\ Product r = Some p
              /\ key_of r = Some (Dates.strftime_m_Y t, p).
Proof.
  unfold completo, key_of, Mes_of. intros H.
  repeat (apply andb_true_iff in H; destruct H as [H ?]).
  destruct (Date r) as [t|]; [|discriminate].
  destruct (Product r) as [p|]; [|discriminate].
  exists t, p. auto.
Qed.

(** The valid output holds complete rows only. *)
Lemma validas_completo (pd : Pandas) (batch : list RawRecord) (out : ValidFrame) :
  limpiar_ventas_validas pd (frame_of batch) = Ok out ->
  forall i v, In (i, v) out -> completo v = true.
Proof.
  intros Hok i v Hin.
  apply (validas_spec pd _ out (ordenado_frame_of batch) Hok) in Hin.
  destruct Hin as [raw (_ & _ & _ & _ & Hc)]. exact Hc.
Qed.



Lemma Permutation_observed_keys (df df' : ValidFrame) (k : group_key) :
  Permutation df df' -> In k (observed_keys df) -> In k (observed_keys df').
Proof.
  intros Hp Hk. apply In_observed_keys in Hk. destruct Hk as (i & r & Hin & Hkr).
  apply In_observed_keys. exists i, r. split; [|exact Hkr].
  apply (Permutation_in _ Hp Hin).
Qed.

(** C10. For every input of the monthly aggregator the summary rows come
    in strictly ascending lexicographic order of their key, the month text
    "MM/YYYY" first and the product second, and the sequence of keys is
    the same for every reordering of the input rows. *)
Theorem monthly_summary_sorted_by_key (df : ValidFrame) :
  StronglySorted group_key_lt (map summary_key (generar_ventas_resumen_mensual df))
  /\ (forall a b, group_key_lt a b
                  <-> String.compare (fst a) (fst b) = Lt
                      \/ (fst a = fst b /\ String.compare (snd a) (snd b) = Lt))
  /\ (forall df', Permutation df df' ->
                  map summary_key (generar_ventas_resumen_mensual df')
                  = map summary_key (generar_ventas_resumen_mensual df)).
Proof.
  split; [|split].
  - rewrite resumen_keys. apply sorted_keys_sorted.
  - intros [a1 a2] [b1 b2]. unfold group_key_lt, group_key_ltb, String.ltb. simpl.
    destruct (String.compare a1 b1) eqn:H1.
    + apply String.compare_eq_iff in H1. subst.
      destruct (String.compare a2 b2); split; intros H;
        try discriminate; try tauto;
        destruct H as [H | [_ H]]; try discriminate;
        rewrite string_compare_refl in H; discriminate.
    + split; [auto | reflexivity].
    + split; [discriminate|]. intros [H | [H _]]; [discriminate|].
      subst. rewrite string_compare_refl in H1. discriminate.
  - intros df' Hp. rewrite !resumen_keys.
    apply sorted_unique; try apply sorted_keys_sorted.
    intros k. rewrite !In_sorted_keys. split.
    + apply Permutation_observed_keys. apply Permutation_sym. exact Hp.
    + apply Permutation_observed_keys. exact Hp.
Qed.

(** The two sales of March 2024, swapped. *)
Lemma monthly_summary_sorted_witness :
  map summary_key (generar_ventas_resumen_mensual (rev ventas_marzo))
  = map summary_key (generar_ventas_resumen_mensual ventas_marzo).
Proof.
  refine (proj2 (proj2 (monthly_summary_sorted_by_key ventas_marzo)) _ _).
  apply perm_swap.
Defined.

(* ================================================================== *)
(** ** What the valid output looks like *)
(* ================================================================== *)

Lemma upper_ascii_idem (c : ascii) : Py.upper_ascii (Py.upper_ascii c) = Py.upper_ascii c.
Proof. destruct c as [[] [] [] [] [] [] [] []]; reflexivity. Qed.

Lemma upper_idem (s : string) : Py.upper (Py.upper s) = Py.upper s.
Proof.
  induction s as [|c s IH]; simpl; [reflexivity|].
  rewrite upper_ascii_idem, IH. reflexivity.
Qed.

Lemma upper_lstrip (s : string) : Py.upper s = s -> Py.upper (Py.lstrip s) = Py.lstrip s.
Proof.
  induction s as [|c s IH]; simpl; intros H; [reflexivity|].
  injection H as Hc Hs. destruct (Py.is_space c).
  - apply IH. exact Hs.
  - simpl. rewrite Hc, Hs. reflexivity.
Qed.

Lemma upper_rstrip (s : string) : Py.upper s = s -> Py.upper (Py.rstrip s) = Py.rstrip s.
Proof.
  induction s as [|c s IH]; simpl; intros H; [reflexivity|].
  injection H as Hc Hs.
  destruct (Py.is_space c && Py.all_space s); simpl; [reflexivity|].
  rewrite Hc, (IH Hs). reflexivity.
Qed.

Lemma upper_split (sep : ascii) (s : string) :
  Py.upper s = s -> forall w, In w (Py.split sep s) -> Py.upper w = w.
Proof.
  induction s as [|c s IH]; simpl; intros H w Hw.
  - destruct Hw as [<- | []]. reflexivity.
  - injection H as Hc Hs.
    destruct (Ascii.eqb c sep).
    + destruct Hw as [<- | Hw]; [reflexivity | apply (IH Hs w Hw)].
    + destruct (Py.split sep s) as [|w0 ws] eqn:Hsp.
      * destruct Hw as [<- | []]. simpl. rewrite Hc. reflexivity.
      * destruct Hw as [<- | Hw].
        -- simpl. rewrite Hc, (IH Hs w0 (or_introl eq_refl)). reflexivity.
        -- apply (IH Hs w). right. exact Hw.
Qed.

Lemma split_sin_caracter (sep : ascii) (s : string) :
  forall w, In w (Py.split sep s) -> sin_caracter sep w = true.
Proof.
  induction s as [|c s IH]; simpl; intros w Hw.
  - destruct Hw as [<- | []]. reflexivity.
  - destruct (Ascii.eqb c sep) eqn:Hc.
    + destruct Hw as [<- | Hw]; [reflexivity | apply (IH w Hw)].
    + destruct (Py.split sep s) as [|w0 ws] eqn:Hsp.
      * destruct Hw as [<- | []]. unfold sin_caracter. simpl. rewrite Hc. reflexivity.
      * destruct Hw as [<- | Hw].
        -- unfold sin_caracter. simpl. rewrite Hc. simpl.
           apply (IH w0). left. reflexivity.
        -- apply (IH w). right. exact Hw.
Qed.

Lemma split_not_nil (sep : ascii) (s : string) : Py.split sep s <> [].
Proof.
  destruct s as [|c s]; simpl; [discriminate|].
  destruct (Ascii.eqb c sep); [discriminate|].
  destruct (Py.split sep s); discriminate.
Qed.

Lemma last_In {T : Type} (l : list T) (d : T) : l <> [] -> In (last l d) l.
Proof.
  induction l as [|x l IH]; intros H; [congruence|].
  destruct l as [|y l]; [left; reflexivity|].
  right. apply IH. discriminate.
Qed.

Lemma arreglar_product_shape (p : string) :
  sin_caracter "-" (arreglar_product p) = true
  /\ Py.upper (arreglar_product p) = arreglar_product p.
Proof.
  unfold arreglar_product, Py.last_item.
  set (s := Py.strip (Py.upper p)).
  assert (Hin : In (last (Py.split "-" s) EmptyString) (Py.split "-" s))
    by (apply last_In, split_not_nil).
  split.
  - apply (split_sin_caracter "-" s _ Hin).
  - apply (upper_split "-" s); [|exact Hin].
    unfold s, Py.strip. apply upper_rstrip, upper_lstrip, upper_idem.
Qed.

Lemma NoDup_map_on {T U : Type} (f : T -> U) (l : list T) :
  NoDup l -> (forall x y, In x l -> In y l -> f x = f y -> x = y) -> NoDup (map f l).
Proof.
  induction 1 as [|x l Hx Hnd IH]; simpl; intros Hinj; [constructor|].
  constructor.
  - intros Hin. apply in_map_iff in Hin. destruct Hin as [y [Hxy Hy]].
    assert (y = x) by (apply Hinj; [right; exact Hy | left; reflexivity | exact Hxy]).
    subst y. contradiction.
  - apply IH. intros a b Ha Hb. apply Hinj; right; assumption.
Qed.

Lemma ordenado_NoDup_rows {R : Type} (df : list (nat * R)) : ordenado df -> NoDup df.
Proof.
  intros H. apply (NoDup_map_inv fst). apply ordenado_NoDup. exact H.
Qed.

Lemma validas_Sale_ID_NoDup (pd : Pandas) (batch : list RawRecord) (out : ValidFrame) :
  limpiar_ventas_validas pd (frame_of batch) = Ok out ->
  NoDup (column (fun r => Sale_ID r) out).
Proof.
  intros Hok.
  assert (Hord := ordenado_frame_of batch).
  assert (Hspec := validas_spec pd (frame_of batch) out Hord Hok).
  unfold column. apply NoDup_map_on.
  - apply ordenado_NoDup_rows. apply (ordenado_validas pd _ out Hord Hok).
  - intros [i v] [k w] Hv Hw Heq. simpl in Heq.
    apply Hspec in Hv. apply Hspec in Hw.
    destruct Hv as [ri (Hri & Hsi & Hfi & -> & _)].
    destruct Hw as [rk (Hrk & Hsk & Hfk & -> & _)].
    simpl in Heq. fold (clave ri) in Heq. fold (clave rk) in Heq.
    destruct (Nat.lt_trichotomy i k) as [Hlt | [Heqik | Hlt]].
    + specialize (Hfk i ri Hri Hlt). rewrite Heq, key_eqb_refl in Hfk. discriminate.
    + subst k. rewrite (ordenado_functional _ i ri rk Hord Hri Hrk). reflexivity.
    + specialize (Hfi k rk Hrk Hlt). rewrite Heq, key_eqb_refl in Hfi. discriminate.
Qed.

(** X1. For every batch on which the validity classifier returns, no two
    rows of its output carry the same [Sale_ID], and every [Sale_ID] of the
    output is an upper-case text. *)
Theorem validas_sale_id_unique_upper
    (pd : Pandas) (batch : list RawRecord) (out : ValidFrame) :
  limpiar_ventas_validas pd (frame_of batch) = Ok out ->
  NoDup (column (fun r => Sale_ID r) out)
  /\ forall i v, In (i, v) out ->
                 exists s, Sale_ID v = Some s /\ Py.upper s = s.
Proof.
  intros Hok.
  assert (Hord := ordenado_frame_of batch).
  assert (Hspec := validas_spec pd (frame_of batch) out Hord Hok).
  split; [apply (validas_Sale_ID_NoDup pd batch out Hok)|].
  intros i v Hv. apply Hspec in Hv.
  destruct Hv as [raw (_ & Hs & _ & -> & _)]. simpl.
  destruct (Sale_ID raw) as [s|]; [|discriminate].
  exists (Py.upper s). split; [reflexivity | apply upper_idem].
Qed.

(** The two sales sharing ["X1"] and the sale ["X2"]. *)
Lemma validas_sale_id_unique_witness :
  exists out,
    limpiar_ventas_validas pandas2 (frame_of lote_duplicadas) = Ok out
    /\ NoDup (column (fun r => Sale_ID r) out).
Proof.
  eexists. split; [vm_compute; reflexivity|].
  refine (proj1 (validas_sale_id_unique_upper pandas2 lote_duplicadas _ _)).
  vm_compute. reflexivity.
Defined.

(** X2. For every batch on which the validity classifier returns, every
    row of its output has its five fields: a [Sale_ID], a [Product] that
    is an upper-case text without any dash, an amount that is no NaN, a
    [Date] and an [Audit_Date]. *)
Theorem validas_rows_complete
    (pd : Pandas) (batch : list RawRecord) (out : ValidFrame) :
  limpiar_ventas_validas pd (frame_of batch) = Ok out ->
  forall i v, In (i, v) out ->
    Sale_ID v <> None
    /\ (exists p, Product v = Some p /\ sin_caracter "-" p = true /\ Py.upper p = p)
    /\ F64.notna (Amount v) = true
    /\ Date v <> None
    /\ Audit_Date v <> None.
Proof.
  intros Hok i v Hv.
  apply (validas_spec pd (frame_of batch) out (ordenado_frame_of batch) Hok) in Hv.
  destruct Hv as [raw (_ & _ & _ & -> & Hc)].
  unfold completo in Hc.
  repeat (apply andb_true_iff in Hc; destruct Hc as [Hc ?]).
  repeat split; try (apply notna_true; assumption); try assumption.
  simpl in *. destruct (Product raw) as [p|]; [|discriminate].
  exists (arreglar_product p). split; [reflexivity|]. apply arreglar_product_shape.
Qed.

(** The sales of the three ways of writing an amount. *)
Lemma validas_rows_complete_witness :
  exists out v,
    limpiar_ventas_validas pandas2 (frame_of lote_importes) = Ok out
    /\ In (0, v) out /\ F64.notna (Amount v) = true.
Proof.
  eexists. eexists. split; [vm_compute; reflexivity|].
  split; [left; reflexivity|].
  refine (proj1 (proj2 (proj2
            (validas_rows_complete pandas2 lote_importes _ _ 0 _ _)))).
  - vm_compute. reflexivity.
  - left. reflexivity.
Defined.

(* ================================================================== *)
(** ** The two classifiers on the same record *)
(* ================================================================== *)

Lemma mask_nulos_incompleto (pd : Pandas) (fechas : list (option string)) (raw : RawRecord) :
  mask_nulos (preparado pd raw) = true -> completo (normalizar pd fechas raw) = false.
Proof.
  intros Hm. destruct (completo (normalizar pd fechas raw)) eqn:Hc; [|reflexivity].
  destruct (completo_normalizar _ _ _ Hc) as (Hs & Hp & Ha & Hf & Hu).
  rewrite (mask_nulos_preparado_presentes pd raw Hs Hp) in Hm.
  apply notna_true in Ha, Hf, Hu. rewrite Ha, Hf, Hu in Hm. discriminate.
Qed.

(** X3. For every batch on which the validity classifier returns, no
    record of bucket N is in the valid output. *)
Theorem validas_excludes_bucket_N
    (pd : Pandas) (batch : list RawRecord) (out : ValidFrame) (i : nat) :
  limpiar_ventas_validas pd (frame_of batch) = Ok out ->
  en i (df_nulos pd (frame_of batch)) ->
  ~ en i out.
Proof.
  intros Hok HN Hout.
  assert (Hord := ordenado_frame_of batch).
  apply en_iff in HN. destruct HN as [r Hr].
  apply In_df_nulos in Hr. destruct Hr as [raw (Hraw & -> & Hm)].
  apply en_iff in Hout. destruct Hout as [v Hv].
  apply (validas_spec pd _ out Hord Hok) in Hv.
  destruct Hv as [raw' (Hraw' & _ & _ & -> & Hc)].
  rewrite <- (ordenado_functional _ i raw raw' Hord Hraw Hraw') in Hc.
  rewrite (mask_nulos_incompleto pd _ raw Hm) in Hc. discriminate.
Qed.

(** The sale without [Date]. *)
Lemma validas_excludes_bucket_N_witness :
  exists out,
    limpiar_ventas_validas pandas2 (frame_of lote_repetida_tras_incompleta) = Ok out
    /\ ~ en 0 out.
Proof.
  eexists. split; [vm_compute; reflexivity|].
  refine (validas_excludes_bucket_N pandas2 lote_repetida_tras_incompleta _ 0 _ _).
  - vm_compute. reflexivity.
  - left. reflexivity.
Defined.

(** X4. For every batch on which the validity classifier returns, a record
    that is complete after normalization, has USD or EUR in its amount
    text, and shares its [Sale_ID], as the invalidity classifier reads it,
    with no other record of the batch, is in the valid output and in none
    of the buckets N, A and D. *)
Theorem clean_record_is_valid_only
    (pd : Pandas) (batch : list RawRecord) (out : ValidFrame)
    (i : nat) (raw : RawRecord) :
  limpiar_ventas_validas pd (frame_of batch) = Ok out ->
  nth_error batch i = Some raw ->
  completo (normalizar pd (fechas_validas (frame_of batch)) raw) = true ->
  divisa_valida raw = true ->
  (forall j q, j <> i -> nth_error batch j = Some q ->
               Sale_ID (preparado pd q) <> Sale_ID (preparado pd raw)) ->
  let df := frame_of batch in
  In (i, normalizar pd (fechas_validas df) raw) out
  /\ ~ en i (df_nulos pd df)
  /\ ~ en i (df_monto_invalido pd df)
  /\ ~ en i (df_duplicados pd df).
Proof.
  intros Hok Hnth Hc Hd Huniq df.
  assert (Hord : ordenado df) by apply ordenado_frame_of.
  assert (Hin : In (i, raw) df) by (apply In_frame_of; exact Hnth).
  destruct (completo_normalizar _ _ _ Hc) as (Hs & Hp & Ha & Hf & Hu).
  assert (HmN : mask_nulos (preparado pd raw) = false).
  { rewrite (mask_nulos_preparado_presentes pd raw Hs Hp).
    apply notna_true in Ha, Hf, Hu. rewrite Ha, Hf, Hu. reflexivity. }
  assert (HmA : mask_monto_invalido pd (preparado pd raw) = false).
  { rewrite (mask_monto_invalido_preparado pd raw Ha), Hd. reflexivity. }
  split; [|split; [|split]].
  - apply (validas_spec pd df out Hord Hok). exists raw.
    split; [exact Hin|]. split; [apply notna_true; exact Hs|]. split; [|auto].
    intros j q Hq Hlt. apply key_eqb_neq. intros Heq.
    apply In_frame_of in Hq.
    apply (Huniq j q); [lia | exact Hq|].
    rewrite (Sale_ID_preparado pd raw Hs). rewrite Sale_ID_preparado; [congruence|].
    intros Hnone. unfold clave in Heq. rewrite Hnone in Heq. simpl in Heq.
    destruct (Sale_ID raw); [discriminate | congruence].
  - intros H. apply (en_df_nulos pd df i raw Hord Hin) in H. congruence.
  - intros H. apply (en_df_monto_invalido pd df i raw Hord Hin) in H.
    destruct H as [_ H]. congruence.
  - intros H. apply (en_df_duplicados pd df i raw Hord Hin) in H.
    destruct H as [_ (j & q & Hne & Hq & _ & Hk)].
    apply key_eqb_eq in Hk. apply In_frame_of in Hq.
    apply (Huniq j q Hne Hq). congruence.
Qed.

(** The sale ["X2"] among the sales sharing ["X1"]. *)
Lemma clean_record_witness :
  exists out v,
    limpiar_ventas_validas pandas2 (frame_of lote_duplicadas) = Ok out
    /\ In (2, v) out
    /\ ~ en 2 (df_duplicados pandas2 (frame_of lote_duplicadas)).
Proof.
  destruct (limpiar_ventas_validas pandas2 (frame_of lote_duplicadas))
    as [out|e] eqn:Hok; [|exfalso; vm_compute in Hok; discriminate].
  exists out, (normalizar pandas2 (fechas_validas (frame_of lote_duplicadas))
                 (venta "X2" "P-A" "5USD" "2024-03-07")).
  split; [reflexivity|].
  refine ((fun H' => conj (proj1 H') (proj2 (proj2 (proj2 H'))))
            (clean_record_is_valid_only pandas2 lote_duplicadas out 2
               (venta "X2" "P-A" "5USD" "2024-03-07") Hok _ _ _ _)).
  - reflexivity.
  - vm_compute. reflexivity.
  - reflexivity.
  - intros j q Hne Hq.
    destruct j as [|[|[|j]]]; simpl in Hq.
    + injection Hq as <-. vm_compute. discriminate.
    + injection Hq as <-. vm_compute. discriminate.
    + congruence.
    + destruct j; discriminate.
Defined.

(** X5. The validity classifier does not look at the currency tag: for
    every batch on which it returns, a record that is complete after
    normalization and is the first with its [Sale_ID] is in the valid
    output even when its amount text holds neither USD nor EUR, and bucket
    A reports it as well. *)
Theorem untagged_record_is_valid_and_A
    (pd : Pandas) (batch : list RawRecord) (out : ValidFrame)
    (i : nat) (raw : RawRecord) :
  limpiar_ventas_validas pd (frame_of batch) = Ok out ->
  nth_error batch i = Some raw ->
  completo (normalizar pd (fechas_validas (frame_of batch)) raw) = true ->
  primera_aparicion (frame_of batch) i raw ->
  divisa_valida raw = false ->
  In (i, normalizar pd (fechas_validas (frame_of batch)) raw) out
  /\ en i (df_monto_invalido pd (frame_of batch)).
Proof.
  intros Hok Hnth Hc Hfirst Hd.
  assert (Hord := ordenado_frame_of batch).
  assert (Hin : In (i, raw) (frame_of batch)) by (apply In_frame_of; exact Hnth).
  destruct (completo_normalizar _ _ _ Hc) as (Hs & Hp & Ha & Hf & Hu).
  split.
  - apply (validas_spec pd _ out Hord Hok). exists raw.
    repeat split; try assumption. apply notna_true. exact Hs.
  - apply (en_df_monto_invalido pd _ i raw Hord Hin). split.
    + rewrite (mask_nulos_preparado_presentes pd raw Hs Hp).
      apply notna_true in Ha, Hf, Hu. rewrite Ha, Hf, Hu. reflexivity.
    + rewrite (mask_monto_invalido_preparado pd raw Ha), Hd. reflexivity.
Qed.

(** The sale whose amount is written ["100"]. *)
Lemma untagged_record_witness :
  exists out,
    limpiar_ventas_validas pandas2 (frame_of lote_importes) = Ok out
    /\ en 2 (df_monto_invalido pandas2 (frame_of lote_importes)).
Proof.
  eexists. split; [vm_compute; reflexivity|].
  refine (proj2 (untagged_record_is_valid_and_A pandas2 lote_importes _ 2
                   (venta "S3" "P-A" "100" "2024-03-05") _ _ _ _ _)).
  - vm_compute. reflexivity.
  - reflexivity.
  - vm_compute. reflexivity.
  - intros j q Hq Hlt. apply In_frame_of in Hq.
    destruct j as [|[|j]]; simpl in Hq; try lia; inversion Hq; reflexivity.
  - reflexivity.
Defined.

(* ================================================================== *)
(** ** When the validity classifier raises *)
(* ================================================================== *)

Lemma traverse_Raise_first {T U : Type} (f : T -> result U) (l : list T) :
  (exists x e, In x l /\ f x = Raise e) ->
  exists l1 x l2 e,
    l = l1 ++ x :: l2
    /\ f x = Raise e
    /\ (forall y, In y l1 -> exists v, f y = Ok v)
    /\ traverse f l = Raise e.
Proof.
  induction l as [|a l IH]; intros (x & e & Hin & Hx); [destruct Hin|].
  destruct (f a) as [v|e'] eqn:Ha.
  - destruct Hin as [<- | Hin]; [congruence|].
    destruct IH as (l1 & x' & l2 & e'' & -> & Hx' & Hl1 & Htr); [eauto|].
    exists (a :: l1), x', l2, e''. split; [reflexivity|]. split; [exact Hx'|]. split.
    + intros y [<- | Hy]; [eauto | apply Hl1, Hy].
    + simpl. rewrite Ha. simpl. rewrite Htr. reflexivity.
  - exists [], a, l, e'. split; [reflexivity|]. split; [exact Ha|]. split.
    + intros y [].
    + simpl. rewrite Ha. reflexivity.
Qed.

Lemma ordenado_app_cons {R : Type} (l1 : list (nat * R)) (x : nat * R) (l2 : list (nat * R)) :
  ordenado (l1 ++ x :: l2) ->
  (forall y, In y l1 -> fst y < fst x) /\ (forall y, In y l2 -> fst x < fst y).
Proof.
  unfold ordenado, index. induction l1 as [|a l1 IH]; simpl; intros H.
  - inversion H as [|? ? _ Hf]; subst. rewrite Forall_forall in Hf.
    split; [intros y [] | intros y Hy; apply Hf, in_map, Hy].
  - inversion H as [|? ? Hs Hf]; subst. rewrite Forall_forall in Hf.
    destruct (IH Hs) as [H1 H2]. split; [|exact H2].
    intros y [<- | Hy]; [|apply H1, Hy].
    apply Hf. apply in_map. apply in_or_app. right. left. reflexivity.
Qed.

Lemma arreglar_amount_rechazado (r : RawRecord) :
  (forall t, importe_rechazado r = Some t ->
             arreglar_amount (Amount r) = Raise (ValueError t))
  /\ (forall e, arreglar_amount (Amount r) = Raise e ->
                exists t, importe_rechazado r = Some t /\ e = ValueError t).
Proof.
  unfold importe_rechazado. destruct (Amount r) as [s|].
  - rewrite arreglar_amount_Some.
    destruct (F64.float_of_string (quitar_divisa s)); split.
    + intros t H. discriminate.
    + intros e H. discriminate.
    + intros t H. injection H as <-. reflexivity.
    + intros e H. injection H as <-. eauto.
  - split; [intros t H; discriminate | intros e H; discriminate].
Qed.

(** The rows that reach the conversion of line 79. *)
Lemma In_llega (batch : list RawRecord) (i : nat) (r : RawRecord) :
  In (i, r) (arreglos_product (arreglos_sale_id (frame_of batch)))
  <-> exists raw, nth_error batch i = Some raw
                  /\ llega_a_float (frame_of batch) i raw
                  /\ r = set_Product (str_method arreglar_product)
                           (set_Sale_ID (str_method Py.upper) raw).
Proof.
  assert (Hord := ordenado_frame_of batch).
  rewrite In_arreglos_product. split.
  - intros (r1 & Hin & -> & Hp).
    apply In_arreglos_sale_id in Hin; [|exact Hord].
    destruct Hin as (raw & Hraw & -> & Hs & Hfirst). simpl in Hp.
    exists raw. split; [apply In_frame_of; exact Hraw|]. split; [|reflexivity].
    repeat split; [apply notna_true; exact Hs | exact Hfirst | apply notna_true; exact Hp].
  - intros (raw & Hnth & (Hs & Hfirst & Hp) & ->).
    eexists. split; [|split; [reflexivity|]].
    + apply In_arreglos_sale_id; [exact Hord|]. exists raw.
      split; [apply In_frame_of; exact Hnth|]. split; [reflexivity|].
      split; [apply notna_true; exact Hs | exact Hfirst].
    + simpl. apply notna_true. exact Hp.
Qed.

(** X6. When some record that has a [Sale_ID], is the first of the batch
    with it and has a [Product] carries an amount text that [float] refuses
    once the currency codes are removed, the validity classifier raises:
    the exception is the [ValueError] of the first such record of the
    batch, with the refused remainder as its text. *)
Theorem validas_raises_on_first_refused_amount
    (pd : Pandas) (batch : list RawRecord) (i : nat) (raw : RawRecord) (t0 : string) :
  nth_error batch i = Some raw ->
  llega_a_float (frame_of batch) i raw ->
  importe_rechazado raw = Some t0 ->
  exists k q t,
    k <= i
    /\ nth_error batch k = Some q
    /\ llega_a_float (frame_of batch) k q
    /\ importe_rechazado q = Some t
    /\ (forall k' q', k' < k -> nth_error batch k' = Some q' ->
                      llega_a_float (frame_of batch) k' q' ->
                      importe_rechazado q' = None)
    /\ limpiar_ventas_validas pd (frame_of batch) = Raise (ValueError t).
Proof.
  intros Hnth Hllega Hrech.
  set (df := frame_of batch) in *.
  set (L := arreglos_product (arreglos_sale_id df)).
  set (f := fun ir : nat * RawRecord =>
              x <- arreglar_amount (Amount (snd ir)) ;;
              Ok (fst ir, set_Amount x (snd ir))).
  assert (Hord : ordenado L).
  { apply ordenado_arreglos_product, ordenado_arreglos_sale_id, ordenado_frame_of. }
  assert (Hf : forall j r e, f (j, r) = Raise e <-> arreglar_amount (Amount r) = Raise e).
  { intros j r e. unfold f. simpl. destruct (arreglar_amount (Amount r)); simpl;
      split; intros H; (discriminate || (injection H as <-; reflexivity)). }
  assert (HfOk : forall j r v, f (j, r) = Ok v -> exists x, arreglar_amount (Amount r) = Ok x).
  { intros j r v. unfold f. simpl. destruct (arreglar_amount (Amount r)); simpl;
      intros H; [eauto | discriminate]. }
  set (ri := set_Product (str_method arreglar_product)
               (set_Sale_ID (str_method Py.upper) raw)).
  assert (Hini : In (i, ri) L).
  { apply In_llega. exists raw. auto. }
  assert (Hfi : f (i, ri) = Raise (ValueError t0)).
  { apply Hf. change (Amount ri) with (Amount raw).
    apply (proj1 (arreglar_amount_rechazado raw)). exact Hrech. }
  destruct (traverse_Raise_first f L) as (l1 & [k rk] & l2 & e & HL & Hx & Hl1 & Htr);
    [eauto|].
  destruct (ordenado_app_cons l1 (k, rk) l2) as [Hbefore Hafter];
    [rewrite <- HL; exact Hord|].
  assert (Hink : In (k, rk) L).
  { rewrite HL. apply in_or_app. right. left. reflexivity. }
  apply In_llega in Hink. destruct Hink as (q & Hq & Hllq & Hrk).
  apply Hf in Hx. rewrite Hrk in Hx. change (Amount _) with (Amount q) in Hx.
  destruct (proj2 (arreglar_amount_rechazado q) e Hx) as [t [Ht ->]].
  exists k, q, t.
  split.
  { rewrite HL in Hini. apply in_app_or in Hini. destruct Hini as [Hini | [Hini | Hini]].
    - destruct (Hl1 _ Hini) as [v Hv]. congruence.
    - injection Hini as -> _. apply Nat.le_refl.
    - apply Hafter in Hini. simpl in Hini. lia. }
  split; [exact Hq|]. split; [exact Hllq|]. split; [exact Ht|]. split.
  - intros k' q' Hlt Hq' Hll'.
    set (r' := set_Product (str_method arreglar_product)
                 (set_Sale_ID (str_method Py.upper) q')).
    assert (Hin' : In (k', r') L) by (apply In_llega; exists q'; auto).
    rewrite HL in Hin'. apply in_app_or in Hin'.
    destruct Hin' as [Hin' | [Hin' | Hin']].
    + destruct (Hl1 _ Hin') as [v Hv]. apply HfOk in Hv. destruct Hv as [x Hx'].
      change (Amount r') with (Amount q') in Hx'.
      destruct (importe_rechazado q') as [t'|] eqn:E; [|reflexivity].
      rewrite (proj1 (arreglar_amount_rechazado q') t' E) in Hx'. discriminate.
    + injection Hin' as Hk _. lia.
    + apply Hafter in Hin'. simpl in Hin'. lia.
  - unfold limpiar_ventas_validas, arreglos_amount.
    match goal with
    | |- context [traverse ?g ?l] => change (traverse g l) with (traverse f L)
    end.
    rewrite Htr. reflexivity.
Qed.

(** The batch of the amount ["abcUSD"]. *)
Lemma validas_raises_witness :
  exists t, limpiar_ventas_validas pandas2 (frame_of lote_no_convertible)
            = Raise (ValueError t).
Proof.
  destruct (validas_raises_on_first_refused_amount pandas2 lote_no_convertible 0
              (venta "S1" "P-A" "abcUSD" "2024-03-05") "abc")
    as (k & q & t & _ & _ & _ & _ & _ & H).
  - reflexivity.
  - split; [discriminate|]. split; [|discriminate]. intros j q _ H. inversion H.
  - vm_compute. reflexivity.
  - exists t. exact H.
Defined.

(* ================================================================== *)
(** ** The size of the invalid output *)
(* ================================================================== *)

Lemma NoDup_append {T : Type} (l l' : list T) :
  NoDup l -> NoDup l' -> (forall a, In a l -> ~ In a l') -> NoDup (l ++ l').
Proof.
  induction 1 as [|x l Hx Hnd IH]; simpl; intros Hl' Hdis; [exact Hl'|].
  constructor.
  - rewrite in_app_iff. intros [H | H]; [contradiction|].
    apply (Hdis x); [left; reflexivity | exact H].
  - apply IH; [exact Hl'|]. intros a Ha. apply Hdis. right. exact Ha.
Qed.

Lemma en_bucket_en_frame (pd : Pandas) (df : RawFrame) (i : nat) :
  en i (df_nulos pd df) \/ en i (df_monto_invalido pd df) \/ en i (df_duplicados pd df) ->
  en i df.
Proof.
  intros [H | [H | H]].
  - apply en_iff in H. destruct H as [r H]. apply In_df_nulos in H.
    destruct H as [raw [H _]]. apply en_iff. eauto.
  - apply en_iff in H. destruct H as [r H]. apply In_df_monto_invalido in H.
    destruct H as [raw [H _]]. apply en_iff. eauto.
  - apply en_duplicados_restantes in H. apply en_iff in H. destruct H as [r H].
    apply In_df_restantes in H. destruct H as [raw [H _]]. apply en_iff. eauto.
Qed.

Lemma buckets_NoDup (pd : Pandas) (df : RawFrame) :
  ordenado df ->
  NoDup (index (df_nulos pd df) ++ index (df_monto_invalido pd df)
         ++ index (df_duplicados pd df)).
Proof.
  intros Hord. apply NoDup_append.
  - apply ordenado_NoDup, ordenado_df_nulos, Hord.
  - apply NoDup_append.
    + apply ordenado_NoDup, ordenado_df_monto_invalido, Hord.
    + apply ordenado_NoDup, ordenado_df_duplicados, Hord.
    + intros i HA HD. apply (proj2 (proj2 (buckets_disjoint pd df i Hord))).
      split; assumption.
  - intros i HN H. apply in_app_iff in H.
    destruct (buckets_disjoint pd df i Hord) as (H1 & H2 & _).
    destruct H as [H | H]; [apply H1 | apply H2]; split; assumption.
Qed.

Lemma invalidas_report_length (pd : Pandas) (batch : list RawRecord) :
  List.length (limpiar_ventas_invalidas pd (frame_of batch)) <= List.length batch.
Proof.
  set (df := frame_of batch).
  assert (Hord : ordenado df) by apply ordenado_frame_of.
  rewrite <- (length_map snd (limpiar_ventas_invalidas pd df)), invalidas_concat.
  rewrite !length_app, !length_map.
  replace (List.length batch) with (List.length (index df)).
  - rewrite <- !(length_map fst). rewrite <- !length_app.
    apply NoDup_incl_length; [apply (buckets_NoDup pd df Hord)|].
    intros i Hi. apply (en_bucket_en_frame pd df i).
    rewrite !in_app_iff in Hi. exact Hi.
  - unfold df, frame_of. rewrite index_combine_seq, length_seq. reflexivity.
Qed.

(** X7. For every batch the invalidity classifier reports a record at most
    once: the labels of bucket N, bucket A and bucket D, put together, hold
    no label twice; the output has no more rows than the batch, and every
    row carries one of the reasons N, A and D. *)
Theorem invalidas_report_once (pd : Pandas) (batch : list RawRecord) :
  let df := frame_of batch in
  NoDup (index (df_nulos pd df) ++ index (df_monto_invalido pd df)
         ++ index (df_duplicados pd df))
  /\ List.length (limpiar_ventas_invalidas pd df) <= List.length batch
  /\ forall k s, In (k, s) (limpiar_ventas_invalidas pd df) ->
                 Reason s = "N" \/ Reason s = "A" \/ Reason s = "D".
Proof.
  intros df.
  assert (Hord : ordenado df) by apply ordenado_frame_of.
  split; [apply (buckets_NoDup pd df Hord)|]. split.
  - apply (invalidas_report_length pd batch).
  - intros k s Hin. apply (in_map snd) in Hin. simpl in Hin.
    rewrite invalidas_concat in Hin. rewrite !in_app_iff, !in_map_iff in Hin.
    destruct Hin as [[x [<- _]] | [[x [<- _]] | [x [<- _]]]]; simpl; auto.
Qed.

(** The three sales of which two share ["X1"]. *)
Lemma invalidas_report_witness :
  List.length (limpiar_ventas_invalidas pandas2 (frame_of lote_duplicadas))
  <= List.length lote_duplicadas.
Proof.
  refine (proj1 (proj2 (invalidas_report_once pandas2 lote_duplicadas))).
Defined.

(** X8. Bucket D never holds a single carrier of a [Sale_ID]: for every
    record of bucket D there is another record of the batch in bucket D
    whose prepared [Sale_ID] is the same; the bucket never has exactly one
    row. *)
Theorem bucket_D_holds_whole_groups (pd : Pandas) (batch : list RawRecord) :
  let df := frame_of batch in
  (forall i, en i (df_duplicados pd df) ->
             exists j ri rj,
               j <> i /\ en j (df_duplicados pd df)
               /\ nth_error batch i = Some ri /\ nth_error batch j = Some rj
               /\ Sale_ID (preparado pd ri) = Sale_ID (preparado pd rj))
  /\ List.length (df_duplicados pd df) <> 1.
Proof.
  intros df.
  assert (Hord : ordenado df) by apply ordenado_frame_of.
  assert (Hpart : forall i, en i (df_duplicados pd df) ->
             exists j ri rj,
               j <> i /\ en j (df_duplicados pd df)
               /\ nth_error batch i = Some ri /\ nth_error batch j = Some rj
               /\ Sale_ID (preparado pd ri) = Sale_ID (preparado pd rj)).
  { intros i Hi.
    assert (Hraw : exists ri, In (i, ri) df).
    { apply en_iff. apply (en_bucket_en_frame pd df i). auto. }
    destruct Hraw as [ri Hri].
    assert (Hi' := Hi). apply (en_df_duplicados pd df i ri Hord Hri) in Hi'.
    destruct Hi' as [HRi (j & rj & Hne & Hrj & HRj & Hk)].
    exists j, ri, rj. split; [exact Hne|]. split.
    - apply (en_df_duplicados pd df j rj Hord Hrj). split; [exact HRj|].
      exists i, ri. split; [congruence|]. split; [exact Hri|]. split; [exact HRi|].
      rewrite key_eqb_sym. exact Hk.
    - split; [apply In_frame_of; exact Hri|]. split; [apply In_frame_of; exact Hrj|].
      apply key_eqb_eq. exact Hk. }
  split; [exact Hpart|].
  intros Hlen. destruct (df_duplicados pd df) as [|[i r] [|x l]] eqn:HD;
    simpl in Hlen; try discriminate.
  destruct (Hpart i) as (j & _ & _ & Hne & Hj & _).
  - unfold en. simpl. auto.
  - unfold en in Hj. simpl in Hj. destruct Hj as [Hj | []]. congruence.
Qed.

(** The first of the two sales sharing ["X1"]. *)
Lemma bucket_D_witness :
  exists j, j <> 0 /\ en j (df_duplicados pandas2 (frame_of lote_duplicadas)).
Proof.
  destruct (proj1 (bucket_D_holds_whole_groups pandas2 lote_duplicadas) 0)
    as (j & _ & _ & Hne & Hj & _).
  - left. reflexivity.
  - exists j. split; assumption.
Defined.

(* ================================================================== *)
(** ** The counts of the monthly summary *)
(* ================================================================== *)

Lemma suma_app (l l' : list Z) : suma (l ++ l') = (suma l + suma l')%Z.
Proof.
  induction l as [|x l IH]; simpl; [reflexivity|]. rewrite IH. apply Z.add_assoc.
Qed.

Lemma suma_map_add {T : Type} (f g : T -> Z) (l : list T) :
  suma (map (fun x => (f x + g x)%Z) l) = (suma (map f l) + suma (map g l))%Z.
Proof.
  induction l as [|x l IH]; simpl; [reflexivity|]. rewrite IH.
  rewrite <- !Z.add_assoc. f_equal. rewrite !Z.add_assoc. f_equal. apply Z.add_comm.
Qed.

Lemma suma_map_zero {T : Type} (f : T -> Z) (l : list T) :
  (forall x, In x l -> f x = 0%Z) -> suma (map f l) = 0%Z.
Proof.
  induction l as [|x l IH]; simpl; intros H; [reflexivity|].
  rewrite (H x (or_introl eq_refl)), IH; [reflexivity|]. intros; apply H; tauto.
Qed.

(** In a list of distinct keys exactly one is the key of a row. *)
Lemma suma_indicator (ks : list group_key) (k0 : group_key) :
  NoDup ks -> In k0 ks ->
  suma (map (fun k => if group_key_eqb k k0 then 1%Z else 0%Z) ks) = 1%Z.
Proof.
  induction 1 as [|k ks Hk Hnd IH]; simpl; intros Hin; [tauto|].
  destruct Hin as [-> | Hin].
  - rewrite (proj2 (group_key_eqb_eq k0 k0) eq_refl).
    rewrite suma_map_zero; [reflexivity|].
    intros x Hx. destruct (group_key_eqb x k0) eqn:E; [|reflexivity].
    apply group_key_eqb_eq in E. subst. contradiction.
  - rewrite (IH Hin). destruct (group_key_eqb k k0) eqn:E; [|reflexivity].
    apply group_key_eqb_eq in E. subst. contradiction.
Qed.

Lemma has_key_eqb (k : group_key) (r : ValidSale) (k0 : group_key) :
  key_of r = Some k0 -> has_key k r = group_key_eqb k k0.
Proof. unfold has_key. intros ->. reflexivity. Qed.

(** The groups of distinct keys share out the rows that have a key. *)
Lemma groups_share_out (ks : list group_key) (df : ValidFrame) :
  NoDup ks ->
  (forall i r, In (i, r) df -> exists k, In k ks /\ key_of r = Some k) ->
  suma (map (fun k => Z.of_nat (List.length (group_rows df k))) ks)
  = Z.of_nat (List.length df).
Proof.
  intros Hnd. induction df as [|[i r] df IH]; intros Hall.
  - simpl. apply suma_map_zero. reflexivity.
  - destruct (Hall i r (or_introl eq_refl)) as [k0 [Hk0 Hr]].
    assert (Heq : forall k, Z.of_nat (List.length (group_rows ((i, r) :: df) k))
                            = ((if group_key_eqb k k0 then 1 else 0)
                               + Z.of_nat (List.length (group_rows df k)))%Z).
    { intros k. unfold group_rows, select. simpl.
      rewrite (has_key_eqb k r k0 Hr).
      destruct (group_key_eqb k k0); simpl List.length; lia. }
    rewrite (map_ext _ _ Heq), suma_map_add, (suma_indicator ks k0 Hnd Hk0), IH.
    + simpl List.length. lia.
    + intros j q Hq. apply (Hall j q). right. exact Hq.
Qed.

Lemma suma_ge_length {T : Type} (f : T -> Z) (l : list T) :
  (forall x, In x l -> (1 <= f x)%Z) -> (Z.of_nat (List.length l) <= suma (map f l))%Z.
Proof.
  induction l as [|x l IH]; intros H; [simpl; lia|].
  assert (H1 := H x (or_introl eq_refl)).
  assert (H2 : (Z.of_nat (List.length l) <= suma (map f l))%Z)
    by (apply IH; intros; apply H; right; assumption).
  change (suma (map f (x :: l))) with (f x + suma (map f l))%Z.
  change (List.length (x :: l)) with (S (List.length l)). lia.
Qed.

Lemma Numero_Transacciones_group (df : ValidFrame) (k : group_key) :
  (forall i r, In (i, r) df -> completo r = true) ->
  Numero_Transacciones (resumen_row df k) = Z.of_nat (List.length (group_rows df k)).
Proof.
  intros Hall. simpl. rewrite group_count_all.
  - unfold group_amounts, column. rewrite length_map. reflexivity.
  - intros a Ha. unfold group_amounts, column in Ha. apply in_map_iff in Ha.
    destruct Ha as [[i r] [<- Hin]]. apply In_select in Hin. destruct Hin as [Hin _].
    specialize (Hall i r Hin). unfold completo in Hall.
    repeat (apply andb_true_iff in Hall; destruct Hall as [Hall ?]). assumption.
Qed.

Lemma counts_add_up (df : ValidFrame) :
  (forall i r, In (i, r) df -> completo r = true) ->
  suma (map (fun row => Numero_Transacciones row) (generar_ventas_resumen_mensual df))
  = Z.of_nat (List.length df).
Proof.
  intros Hall.
  assert (Hout : generar_ventas_resumen_mensual df
                 = map (resumen_row df) (sorted_keys (observed_keys df)))
    by reflexivity.
  rewrite Hout, map_map.
  rewrite (map_ext _ (fun k => Z.of_nat (List.length (group_rows df k)))).
  - apply groups_share_out.
    + apply sorted_NoDup, sorted_keys_sorted.
    + intros i r Hin.
      destruct (key_of_completo r (Hall i r Hin)) as (t & p & _ & _ & Hk).
      exists (Dates.strftime_m_Y t, p). split; [|exact Hk].
      apply In_sorted_keys, In_observed_keys. eauto.
  - intros k. apply Numero_Transacciones_group. exact Hall.
Qed.

(** X9. For every sequence of valid sales (rows with their five fields)
    the transaction counts of the monthly summary add up to the number of
    sales: every sale is counted in one row and one only; every row counts
    at least one sale, so the summary has no more rows than there are
    sales. *)
Theorem monthly_counts_add_up (df : ValidFrame) :
  (forall i r, In (i, r) df -> completo r = true) ->
  let out := generar_ventas_resumen_mensual df in
  suma (map (fun row => Numero_Transacciones row) out) = Z.of_nat (List.length df)
  /\ (forall row, In row out -> (1 <= Numero_Transacciones row)%Z)
  /\ List.length out <= List.length df.
Proof.
  intros Hall out.
  assert (Hout : out = map (resumen_row df) (sorted_keys (observed_keys df)))
    by reflexivity.
  assert (Hsum : suma (map (fun row => Numero_Transacciones row) out)
                 = Z.of_nat (List.length df))
    by (apply counts_add_up; exact Hall).
  assert (Hpos : forall row, In row out -> (1 <= Numero_Transacciones row)%Z).
  { intros row Hrow. rewrite Hout in Hrow. apply in_map_iff in Hrow.
    destruct Hrow as [k [<- Hk]]. rewrite (Numero_Transacciones_group df k Hall).
    apply (proj1 (In_sorted_keys _ _)) in Hk. apply In_observed_keys in Hk.
    destruct Hk as (i & r & Hin & Hkr).
    assert (Hg : In (i, r) (group_rows df k)).
    { unfold group_rows. apply In_select. split; [exact Hin|].
      apply has_key_true. exact Hkr. }
    destruct (group_rows df k); [destruct Hg | simpl List.length; lia]. }
  split; [exact Hsum|]. split; [exact Hpos|].
  assert (H := suma_ge_length (fun row => Numero_Transacciones row) out Hpos).
  rewrite Hsum in H. lia.
Qed.

(** The two sales of March 2024. *)
Lemma monthly_counts_witness :
  suma (map (fun row => Numero_Transacciones row)
            (generar_ventas_resumen_mensual ventas_marzo)) = 2%Z.
Proof.
  refine (proj1 (monthly_counts_add_up ventas_marzo _)).
  intros i r [H | [H | []]]; inversion H; reflexivity.
Defined.

Lemma key_of_tiene_clave (r : ValidSale) :
  tiene_clave r = true <-> exists k, key_of r = Some k.
Proof.
  unfold tiene_clave, key_of, Mes_of.
  destruct (Date r), (Product r); simpl; split; try discriminate; eauto;
    intros [k H]; discriminate.
Qed.

Lemma observed_keys_tiene_clave (df : ValidFrame) :
  observed_keys (select tiene_clave df) = observed_keys df.
Proof.
  induction df as [|[i r] df IH]; simpl; [reflexivity|].
  destruct (tiene_clave r) eqn:Ht; simpl.
  - rewrite IH. reflexivity.
  - destruct (key_of r) as [k|] eqn:Hk; [|exact IH].
    assert (H : tiene_clave r = true) by (apply key_of_tiene_clave; eauto).
    congruence.
Qed.

Lemma group_rows_tiene_clave (df : ValidFrame) (k : group_key) :
  select (has_key k) (select tiene_clave df) = select (has_key k) df.
Proof.
  induction df as [|[i r] df IH]; simpl; [reflexivity|].
  destruct (tiene_clave r) eqn:Ht; simpl.
  - rewrite IH. reflexivity.
  - destruct (has_key k r) eqn:Hk; [|exact IH].
    apply has_key_true in Hk.
    assert (H : tiene_clave r = true) by (apply key_of_tiene_clave; eauto).
    congruence.
Qed.

(** X10. A row without [Date] or without [Product] belongs to no group:
    for every frame the monthly summary is the summary of the rows that
    have both. *)
Theorem monthly_summary_skips_rows_without_key (df : ValidFrame) :
  generar_ventas_resumen_mensual df
  = generar_ventas_resumen_mensual (select tiene_clave df).
Proof.
  unfold generar_ventas_resumen_mensual, try_except.
  rewrite observed_keys_tiene_clave. apply map_ext. intros k.
  unfold resumen_row, group_amounts. rewrite group_rows_tiene_clave. reflexivity.
Qed.

(* ================================================================== *)
(** ** Dates written back as texts *)
(* ================================================================== *)

Lemma is_digit_cases (c : ascii) :
  F64.is_digit c = true ->
  In c ["0"; "1"; "2"; "3"; "4"; "5"; "6"; "7"; "8"; "9"]%char.
Proof.
  destruct c as [[] [] [] [] [] [] [] []]; intros H; vm_compute in H;
    try discriminate; simpl; tauto.
Qed.

Lemma nat_of_digits_In (ds : list ascii) (n : nat) :
  Dates.nat_of_digits ds = Some n ->
  forall c, In c ds -> In c ["0"; "1"; "2"; "3"; "4"; "5"; "6"; "7"; "8"; "9"]%char.
Proof.
  unfold Dates.nat_of_digits. destruct (forallb F64.is_digit ds) eqn:H; [|discriminate].
  intros _ c Hc. apply is_digit_cases.
  rewrite forallb_forall in H. apply H. exact Hc.
Qed.

(** Two digits read as a number and written back on two places. *)
Lemma zfill2_digits (a b : ascii) (n : nat) :
  Dates.nat_of_digits [a; b] = Some n ->
  Dates.zfill 2 (Dates.string_of_nat n) = String a (String b EmptyString).
Proof.
  intros H.
  assert (Ha := nat_of_digits_In _ _ H a (or_introl eq_refl)).
  assert (Hb := nat_of_digits_In _ _ H b (or_intror (or_introl eq_refl))).
  assert (Hall :
    forallb (fun x => forallb (fun y =>
      match Dates.nat_of_digits [x; y] with
      | Some m => String.eqb (Dates.zfill 2 (Dates.string_of_nat m))
                             (String x (String y EmptyString))
      | None => false
      end) ["0"; "1"; "2"; "3"; "4"; "5"; "6"; "7"; "8"; "9"]%char)
      ["0"; "1"; "2"; "3"; "4"; "5"; "6"; "7"; "8"; "9"]%char = true)
    by (vm_compute; reflexivity).
  rewrite forallb_forall in Hall. specialize (Hall a Ha).
  rewrite forallb_forall in Hall. specialize (Hall b Hb).
  rewrite H in Hall. apply String.eqb_eq. exact Hall.
Qed.

(** Four digits read as a number and written back on four places. *)
Lemma zfill4_digits (a b c d : ascii) (n : nat) :
  Dates.nat_of_digits [a; b; c; d] = Some n ->
  Dates.zfill 4 (Dates.string_of_nat n)
  = String a (String b (String c (String d EmptyString))).
Proof.
  intros H.
  assert (Ha := nat_of_digits_In _ _ H a (or_introl eq_refl)).
  assert (Hb := nat_of_digits_In _ _ H b (or_intror (or_introl eq_refl))).
  assert (Hc := nat_of_digits_In _ _ H c (or_intror (or_intror (or_introl eq_refl)))).
  assert (Hd := nat_of_digits_In _ _ H d
                  (or_intror (or_intror (or_intror (or_introl eq_refl))))).
  assert (Hall :
    forallb (fun x => forallb (fun y => forallb (fun z => forallb (fun w =>
      match Dates.nat_of_digits [x; y; z; w] with
      | Some m => String.eqb (Dates.zfill 4 (Dates.string_of_nat m))
                             (String x (String y (String z (String w EmptyString))))
      | None => false
      end) ["0"; "1"; "2"; "3"; "4"; "5"; "6"; "7"; "8"; "9"]%char)
      ["0"; "1"; "2"; "3"; "4"; "5"; "6"; "7"; "8"; "9"]%char)
      ["0"; "1"; "2"; "3"; "4"; "5"; "6"; "7"; "8"; "9"]%char)
      ["0"; "1"; "2"; "3"; "4"; "5"; "6"; "7"; "8"; "9"]%char = true)
    by (vm_compute; reflexivity).
  rewrite forallb_forall in Hall. specialize (Hall a Ha).
  rewrite forallb_forall in Hall. specialize (Hall b Hb).
  rewrite forallb_forall in Hall. specialize (Hall c Hc).
  rewrite forallb_forall in Hall. specialize (Hall d Hd).
  rewrite H in Hall. apply String.eqb_eq. exact Hall.
Qed.

(** A text read as a ["%Y-%m-%d"] date and written back is the same text. *)
Lemma strftime_parse_iso (s : string) (t : Timestamp) :
  Dates.parse_iso s = Some t -> strftime_Y_m_d t = s.
Proof.
  unfold Dates.parse_iso. intros H.
  rewrite <- (string_of_list_ascii_of_string s).
  destruct (list_ascii_of_string s)
    as [|y1 [|y2 [|y3 [|y4 [|s1 [|m1 [|m2 [|s2 [|d1 [|d2 [|x l]]]]]]]]]]];
    try discriminate.
  destruct (Ascii.eqb s1 "-") eqn:E1; [|discriminate].
  destruct (Ascii.eqb s2 "-") eqn:E2; [|discriminate]. simpl in H.
  apply Ascii.eqb_eq in E1, E2. subst s1 s2.
  destruct (Dates.nat_of_digits [y1; y2; y3; y4]) as [y|] eqn:Hy; [|discriminate].
  destruct (Dates.nat_of_digits [m1; m2]) as [m|] eqn:Hm; [|discriminate].
  destruct (Dates.nat_of_digits [d1; d2]) as [d|] eqn:Hd; [|discriminate].
  match type of H with (if ?b then _ else _) = _ => destruct b end; [|discriminate].
  inversion H; subst t. unfold strftime_Y_m_d. cbn [year month day].
  rewrite (zfill4_digits _ _ _ _ _ Hy), (zfill2_digits _ _ _ Hm), (zfill2_digits _ _ _ Hd).
  reflexivity.
Qed.

Lemma In_formatear_fechas {TA TD : Type} `{DateCell TD} (pd : Pandas)
    (df : DataFrame TA TD) (i : nat) (f : FilaFormateada TA) :
  In (i, f) (formatear_fechas pd df)
  <-> exists r, In (i, r) df
                /\ f = formatear_fila pd (column (fun r => Date r) df)
                                      (column (fun r => Audit_Date r) df) r.
Proof. unfold formatear_fechas. apply In_assign. Qed.

(** X11. For every batch on which the validity classifier returns, every
    row of its output formatted by [formatear_fechas] carries a [Date]
    text and an [Audit_Date] text, never a missing one; and when the date
    texts of the batch that pandas parses are written as ["%Y-%m-%d"], the
    [Date] written for a record is the very text the record came with. *)
Theorem validas_formatted_dates
    (pd : Pandas) (batch : list RawRecord) (out : ValidFrame) :
  limpiar_ventas_validas pd (frame_of batch) = Ok out ->
  (forall i f, In (i, f) (formatear_fechas pd out) ->
               f_Date f <> None /\ f_Audit_Date f <> None)
  /\ ((forall raw s t, In raw batch -> Date raw = Some s ->
                       strptime pd (fechas_validas (frame_of batch)) s = Some t ->
                       Dates.parse_iso s = Some t) ->
      forall i f, In (i, f) (formatear_fechas pd out) ->
                  exists raw, nth_error batch i = Some raw /\ f_Date f = Date raw).
Proof.
  intros Hok.
  assert (Hspec := validas_spec pd (frame_of batch) out (ordenado_frame_of batch) Hok).
  split.
  - intros i f Hf. apply In_formatear_fechas in Hf. destruct Hf as [v [Hv ->]].
    apply Hspec in Hv. destruct Hv as [raw (_ & _ & _ & -> & Hc)].
    unfold completo in Hc.
    repeat (apply andb_true_iff in Hc; destruct Hc as [Hc ?]).
    unfold formatear_fila, a_datetime, DateCell_timestamp. simpl in *.
    destruct (to_datetime pd (fechas_validas (frame_of batch)) (Date raw));
      [|discriminate].
    destruct (Audit_Date raw); [|discriminate].
    split; discriminate.
  - intros Hiso i f Hf. apply In_formatear_fechas in Hf. destruct Hf as [v [Hv ->]].
    apply Hspec in Hv. destruct Hv as [raw (Hraw & _ & _ & -> & Hc)].
    exists raw. split; [apply In_frame_of; exact Hraw|].
    unfold completo in Hc.
    repeat (apply andb_true_iff in Hc; destruct Hc as [Hc ?]).
    unfold formatear_fila, a_datetime, DateCell_timestamp. simpl in *.
    destruct (Date raw) as [s|] eqn:Hs; [|discriminate]. simpl in *.
    destruct (strptime pd (fechas_validas (frame_of batch)) s) as [t|] eqn:Ht;
      [|discriminate].
    simpl. f_equal. apply strftime_parse_iso.
    apply (Hiso raw s t); try assumption.
    apply In_frame_of in Hraw. apply (nth_error_In _ _ Hraw).
Qed.

(** The sales of the three ways of writing an amount. *)
Lemma validas_formatted_dates_witness :
  exists out f,
    limpiar_ventas_validas pandas2 (frame_of lote_importes) = Ok out
    /\ In (0, f) (formatear_fechas pandas2 out)
    /\ f_Date f = Some "2024-03-05".
Proof.
  destruct (limpiar_ventas_validas pandas2 (frame_of lote_importes))
    as [out|e] eqn:Hok; [|exfalso; vm_compute in Hok; discriminate].
  assert (H0 : exists f, In (0, f) (formatear_fechas pandas2 out)).
  { vm_compute in Hok. injection Hok as <-. eexists. left. reflexivity. }
  destruct H0 as [f Hf].
  exists out, f. split; [reflexivity|]. split; [exact Hf|].
  destruct (proj2 (validas_formatted_dates pandas2 lote_importes out Hok)
              (fun raw s t _ _ H => H) 0 f Hf) as [raw [Hraw ->]].
  simpl in Hraw. injection Hraw as <-. reflexivity.
Defined.

(* ================================================================== *)
(** ** The folder of CSV files *)
(* ================================================================== *)

Lemma leer_archivo_None (pd : Pandas) (d : Directorio) (archivo : string) :
  leer_archivo pd d archivo = None
  <-> Py.endswith archivo ".csv" = false \/ read_csv d archivo = None.
Proof.
  unfold leer_archivo.
  destruct (Py.endswith archivo ".csv"); destruct (read_csv d archivo); split;
    intros H; try reflexivity; try discriminate; auto;
    destruct H; discriminate.
Qed.

Lemma leer_archivo_Some (pd : Pandas) (d : Directorio) (archivo : string)
    (df : list RawRecord) :
  leer_archivo pd d archivo = Some df
  <-> exists filas, Py.endswith archivo ".csv" = true
                    /\ read_csv d archivo = Some filas
                    /\ df = map (sellar (audit_date_of pd archivo)) filas.
Proof.
  unfold leer_archivo.
  destruct (Py.endswith archivo ".csv"); destruct (read_csv d archivo) as [filas|]; split.
  all: try (intros H; discriminate).
  all: try (intros [filas' (H1 & H2 & H3)]; discriminate).
  - intros H. injection H as <-. exists filas. auto.
  - intros [filas' (_ & H2 & ->)]. injection H2 as ->. reflexivity.
Qed.

Lemma dataframes_app (pd : Pandas) (d : Directorio) (l1 l2 : list string) :
  dataframes pd d (l1 ++ l2) = dataframes pd d l1 ++ dataframes pd d l2.
Proof.
  induction l1 as [|a l1 IH]; simpl; [reflexivity|].
  destruct (leer_archivo pd d a); simpl; rewrite IH; reflexivity.
Qed.

Lemma dataframes_nil (pd : Pandas) (d : Directorio) (archivos : list string) :
  dataframes pd d archivos = []
  <-> forall a, In a archivos -> leer_archivo pd d a = None.
Proof.
  induction archivos as [|a l IH]; simpl.
  - split; [intros _ a [] | reflexivity].
  - destruct (leer_archivo pd d a) as [df|] eqn:E.
    + split; [discriminate|]. intros H.
      specialize (H a (or_introl eq_refl)). congruence.
    + rewrite IH. split.
      * intros H b [<-|Hb]; [exact E | apply H, Hb].
      * intros H b Hb. apply H. right. exact Hb.
Qed.

Lemma In_dataframes (pd : Pandas) (d : Directorio) (archivos : list string)
    (df : list RawRecord) :
  In df (dataframes pd d archivos)
  <-> exists a, In a archivos /\ leer_archivo pd d a = Some df.
Proof.
  induction archivos as [|a l IH]; simpl.
  - split; [intros [] | intros [a [[] _]]].
  - destruct (leer_archivo pd d a) as [df'|] eqn:E; simpl; rewrite IH; split.
    + intros [<-|[b [Hb Hl]]]; [exists a; auto | exists b; auto].
    + intros [b [[<-|Hb] Hl]]; [left; congruence | right; eauto].
    + intros [b [Hb Hl]]. exists b. auto.
    + intros [b [[<-|Hb] Hl]]; [congruence | eauto].
Qed.

Lemma cargar_ConColumnas (pd : Pandas) (d : Directorio) (df : RawFrame) :
  cargar_ficheros_en_dataframe pd d = ConColumnas df ->
  exists archivos, listdir d = Some archivos
                   /\ df = frame_of (List.concat (dataframes pd d archivos)).
Proof.
  unfold cargar_ficheros_en_dataframe.
  destruct (listdir d) as [archivos|]; [|discriminate].
  intros H. exists archivos. split; [reflexivity|].
  destruct (dataframes pd d archivos); [discriminate|].
  injection H as <-. reflexivity.
Qed.

Lemma In_cargado (pd : Pandas) (d : Directorio) (archivos : list string) (r : RawRecord) :
  In r (List.concat (dataframes pd d archivos))
  <-> exists archivo filas fila,
        In archivo archivos
        /\ Py.endswith archivo ".csv" = true
        /\ read_csv d archivo = Some filas
        /\ In fila filas
        /\ r = sellar (audit_date_of pd archivo) fila.
Proof.
  rewrite in_concat. split.
  - intros [df [Hdf Hr]]. apply In_dataframes in Hdf. destruct Hdf as [a [Ha Hl]].
    apply leer_archivo_Some in Hl. destruct Hl as [filas (He & Hrd & ->)].
    apply in_map_iff in Hr. destruct Hr as [fila [<- Hf]].
    exists a, filas, fila. auto.
  - intros [a [filas [fila (Ha & He & Hrd & Hf & ->)]]].
    exists (map (sellar (audit_date_of pd a)) filas). split.
    + apply In_dataframes. exists a. split; [exact Ha|].
      apply leer_archivo_Some. exists filas. auto.
    + apply in_map. exact Hf.
Qed.

Lemma map_snd_frame_of (batch : list RawRecord) : map snd (frame_of batch) = batch.
Proof.
  unfold frame_of. generalize 0. induction batch as [|x l IH]; intros s; simpl;
    [reflexivity|]. rewrite IH. reflexivity.
Qed.

(** X12. When [cargar_ficheros_en_dataframe] returns a frame with columns,
    its labels are 0, 1, 2, ... and its rows are exactly the rows of the
    readable files of the listing whose name ends in [.csv], each with the
    four cells read and with the date its file is named after as
    [Audit_Date]. *)
Theorem cargar_rows_are_stamped (pd : Pandas) (d : Directorio) (df : RawFrame) :
  cargar_ficheros_en_dataframe pd d = ConColumnas df ->
  index df = seq 0 (List.length df)
  /\ forall r,
       In r (map snd df)
       <-> exists archivos archivo filas fila,
             listdir d = Some archivos
             /\ In archivo archivos
             /\ Py.endswith archivo ".csv" = true
             /\ read_csv d archivo = Some filas
             /\ In fila filas
             /\ Sale_ID r = csv_Sale_ID fila
             /\ Product r = csv_Product fila
             /\ Amount r = csv_Amount fila
             /\ Date r = csv_Date fila
             /\ Audit_Date r = audit_date_of pd archivo.
Proof.
  intros H. destruct (cargar_ConColumnas pd d df H) as [archivos [Hl ->]].
  split.
  - unfold frame_of. rewrite index_combine_seq.
    rewrite length_combine, length_seq, Nat.min_id. reflexivity.
  - intros r. rewrite map_snd_frame_of, In_cargado. split.
    + intros [a [filas [fila (Ha & He & Hrd & Hf & ->)]]].
      exists archivos, a, filas, fila. simpl. repeat split; assumption.
    + intros [archivos' [a [filas [fila
               (Hl' & Ha & He & Hrd & Hf & H1 & H2 & H3 & H4 & H5)]]]].
      rewrite Hl in Hl'. injection Hl' as <-.
      exists a, filas, fila. repeat split; try assumption.
      destruct r; simpl in *. unfold sellar. congruence.
Qed.

(** The folder of three entries: its two sales carry the day of the file. *)
Lemma cargar_rows_witness :
  exists df,
    cargar_ficheros_en_dataframe pandas2 carpeta_ejemplo = ConColumnas df
    /\ index df = [0; 1].
Proof.
  destruct (cargar_ficheros_en_dataframe pandas2 carpeta_ejemplo) as [|df] eqn:H;
    [exfalso; vm_compute in H; discriminate|].
  exists df. split; [reflexivity|].
  rewrite (proj1 (cargar_rows_are_stamped pandas2 carpeta_ejemplo df H)).
  vm_compute in H. injection H as <-. reflexivity.
Defined.

(** X13. An entry of the listing whose name does not end in [.csv], or that
    [read_csv] cannot read, changes nothing of what
    [cargar_ficheros_en_dataframe] returns: the result is that of the
    listing without the entry. *)
Theorem cargar_skips_unusable_entries
    (pd : Pandas) (read : string -> option (list FilaCsv))
    (antes despues : list string) (archivo : string) :
  Py.endswith archivo ".csv" = false \/ read archivo = None ->
  cargar_ficheros_en_dataframe pd (mkDirectorio (Some (antes ++ archivo :: despues)) read)
  = cargar_ficheros_en_dataframe pd (mkDirectorio (Some (antes ++ despues)) read).
Proof.
  intros H. unfold cargar_ficheros_en_dataframe. cbn [listdir].
  set (d1 := mkDirectorio (Some (antes ++ archivo :: despues)) read).
  set (d2 := mkDirectorio (Some (antes ++ despues)) read).
  assert (Hsame : forall l, dataframes pd d1 l = dataframes pd d2 l).
  { induction l as [|a l IH]; simpl; [reflexivity|].
    rewrite IH. reflexivity. }
  rewrite Hsame, !dataframes_app. simpl.
  assert (Hn : leer_archivo pd d2 archivo = None)
    by (apply leer_archivo_None; exact H).
  rewrite Hn. reflexivity.
Qed.

(** The note between two CSV files is skipped. *)
Lemma cargar_skips_witness :
  cargar_ficheros_en_dataframe pandas2
    (mkDirectorio (Some (["2024-04-01.csv"] ++ "notas.txt" :: ["roto.csv"]))
                  (read_csv carpeta_ejemplo))
  = cargar_ficheros_en_dataframe pandas2
      (mkDirectorio (Some (["2024-04-01.csv"] ++ ["roto.csv"]))
                    (read_csv carpeta_ejemplo)).
Proof.
  apply (cargar_skips_unusable_entries pandas2 (read_csv carpeta_ejemplo)
           ["2024-04-01.csv"] ["roto.csv"] "notas.txt").
  left. reflexivity.
Defined.

(** X14. [cargar_ficheros_en_dataframe] returns the frame without columns
    exactly when the folder cannot be listed or none of its entries is a
    readable file whose name ends in [.csv]; on such a folder the script
    stops with [KeyError: 'Sale_ID'], raised by line 59, before any table
    is produced and before anything is handed to the database or written
    to the disk. *)
Theorem script_stops_without_readable_csv (pd : Pandas) (d : Directorio) :
  (cargar_ficheros_en_dataframe pd d = SinColumnas <-> sin_csv_legible d)
  /\ (sin_csv_legible d ->
      tablas_finales pd (cargar_ficheros_en_dataframe pd d) = Aborta (KeyError "Sale_ID")
      /\ forall ext, script pd ext (cargar_ficheros_en_dataframe pd d)
                     = ([], Some (KeyError "Sale_ID"))).
Proof.
  assert (H1 : cargar_ficheros_en_dataframe pd d = SinColumnas <-> sin_csv_legible d).
  { unfold sin_csv_legible, cargar_ficheros_en_dataframe.
    destruct (listdir d) as [archivos|]; [|split; auto].
    destruct (dataframes pd d archivos) as [|df dfs] eqn:E; split.
    - intros _. right. exists archivos. split; [reflexivity|].
      intros a Ha. apply (leer_archivo_None pd).
      apply (proj1 (dataframes_nil pd d archivos) E a Ha).
    - reflexivity.
    - discriminate.
    - intros [H|[archivos' [H Hall]]]; [discriminate|].
      injection H as <-.
      assert (Hn : dataframes pd d archivos = []).
      { apply dataframes_nil. intros a Ha. apply leer_archivo_None. apply Hall, Ha. }
      congruence. }
  split; [exact H1|].
  intros Hsin. apply H1 in Hsin. rewrite Hsin. split; [reflexivity|].
  intros ext. reflexivity.
Qed.

(** The folder that holds a note only. *)
Lemma script_stops_witness :
  sin_csv_legible carpeta_vacia
  /\ tablas_finales pandas2 (cargar_ficheros_en_dataframe pandas2 carpeta_vacia)
     = Aborta (KeyError "Sale_ID").
Proof.
  assert (H : sin_csv_legible carpeta_vacia).
  { right. exists ["notas.txt"]. split; [reflexivity|].
    intros a [<-|[]]. left. reflexivity. }
  split; [exact H|].
  refine (proj1 (proj2 (script_stops_without_readable_csv pandas2 carpeta_vacia) H)).
Defined.

Lemma Audit_Date_preparado (pd : Pandas) (raw : RawRecord) :
  Audit_Date (preparado pd raw) = Audit_Date raw.
Proof. destruct raw; reflexivity. Qed.

Lemma mask_nulos_sin_auditoria (pd : Pandas) (raw : RawRecord) :
  Audit_Date raw = None -> mask_nulos (preparado pd raw) = true.
Proof.
  intros H. unfold mask_nulos. rewrite Audit_Date_preparado, H. simpl.
  rewrite !orb_true_r. reflexivity.
Qed.

(** X15. Every record of the loaded frame comes from a file of the listing
    and carries the date of that file's name; when the name is no date, the
    record is reported in bucket N and is in no valid output, whatever its
    four cells are. *)
Theorem undated_file_goes_to_bucket_N
    (pd : Pandas) (d : Directorio) (df : RawFrame) (i : nat) (r : RawRecord) :
  cargar_ficheros_en_dataframe pd d = ConColumnas df ->
  In (i, r) df ->
  exists archivos archivo,
    listdir d = Some archivos
    /\ In archivo archivos
    /\ Audit_Date r = audit_date_of pd archivo
    /\ (audit_date_of pd archivo = None ->
        en i (df_nulos pd df)
        /\ forall out, limpiar_ventas_validas pd df = Ok out -> ~ en i out).
Proof.
  intros H Hin. destruct (cargar_ConColumnas pd d df H) as [archivos [Hl ->]].
  set (batch := List.concat (dataframes pd d archivos)) in *.
  assert (Hr : In r batch).
  { apply In_frame_of in Hin. apply (nth_error_In _ _ Hin). }
  apply In_cargado in Hr. destruct Hr as [a [filas [fila (Ha & _ & _ & _ & Hr)]]].
  exists archivos, a. split; [exact Hl|]. split; [exact Ha|].
  split; [rewrite Hr; reflexivity|].
  intros Hnone.
  assert (Haud : Audit_Date r = None) by (rewrite Hr; exact Hnone).
  assert (HN : en i (df_nulos pd (frame_of batch))).
  { apply (en_df_nulos pd (frame_of batch) i r (ordenado_frame_of batch) Hin).
    apply mask_nulos_sin_auditoria. exact Haud. }
  split; [exact HN|].
  intros out Hok Hout.
  apply en_iff in Hout. destruct Hout as [v Hv].
  apply (validas_spec pd _ out (ordenado_frame_of batch) Hok) in Hv.
  destruct Hv as [raw' (Hraw' & _ & _ & -> & Hc)].
  rewrite (ordenado_functional _ _ _ _ (ordenado_frame_of batch) Hraw' Hin) in Hc.
  rewrite (mask_nulos_incompleto pd _ r (mask_nulos_sin_auditoria pd r Haud)) in Hc.
  discriminate.
Qed.

(** The folder whose only file is [ventas.csv]. *)
Lemma undated_file_witness :
  exists df,
    cargar_ficheros_en_dataframe pandas2 carpeta_sin_fecha = ConColumnas df
    /\ en 0 (df_nulos pandas2 df).
Proof.
  destruct (cargar_ficheros_en_dataframe pandas2 carpeta_sin_fecha) as [|df] eqn:H;
    [exfalso; vm_compute in H; discriminate|].
  exists df. split; [reflexivity|].
  assert (Hin : exists r, In (0, r) df /\ Audit_Date r = None).
  { vm_compute in H. injection H as <-. eexists. split; [left; reflexivity|reflexivity]. }
  destruct Hin as [r [Hin Haud]].
  destruct (undated_file_goes_to_bucket_N pandas2 carpeta_sin_fecha df 0 r H Hin)
    as [archivos [a (_ & _ & Ha & Hb)]].
  apply Hb. rewrite <- Ha. exact Haud.
Defined.

(* ================================================================== *)
(** ** The tables the script hands over *)
(* ================================================================== *)

Lemma length_assign {R R' : Type} (f : R -> R') (df : list (nat * R)) :
  List.length (assign f df) = List.length df.
Proof. unfold assign. apply length_map. Qed.

Lemma column_formatear_Sale_ID (pd : Pandas) (out : ValidFrame) :
  column (fun f => f_Sale_ID f) (formatear_fechas pd out)
  = column (fun r => Sale_ID r) out.
Proof.
  unfold formatear_fechas, column, assign. rewrite map_map.
  apply map_ext. intros [i r]. reflexivity.
Qed.

Lemma length_frame_of (batch : list RawRecord) :
  List.length (frame_of batch) = List.length batch.
Proof.
  unfold frame_of. rewrite length_combine, length_seq. apply Nat.min_id.
Qed.

(** X16. Whenever the script gets from the folder to its three tables: no
    two rows of [Ventas_Validas_M] share a [Sale_ID]; the transaction
    counts of [Ventas_Resumen_Mensual] add up to the number of rows of
    [Ventas_Validas_M]; no record is both in [Ventas_Validas_M] and
    reported with reason N; and [Ventas_Invalidas_M] has at most as many
    rows as were loaded. *)
Theorem script_tables_are_consistent
    (pd : Pandas) (d : Directorio) (df : RawFrame) (t : Tablas) :
  cargar_ficheros_en_dataframe pd d = ConColumnas df ->
  tablas_finales pd (ConColumnas df) = Termina t ->
  NoDup (column (fun f => f_Sale_ID f) (Ventas_Validas_M t))
  /\ suma (map (fun row => Numero_Transacciones row) (Ventas_Resumen_Mensual t))
     = Z.of_nat (List.length (Ventas_Validas_M t))
  /\ (forall i, en i (Ventas_Validas_M t) -> ~ en i (df_nulos pd df))
  /\ List.length (Ventas_Invalidas_M t) <= List.length df.
Proof.
  intros Hcarga. destruct (cargar_ConColumnas pd d df Hcarga) as [archivos [_ ->]].
  set (batch := List.concat (dataframes pd d archivos)). clearbody batch. clear Hcarga.
  unfold tablas_finales.
  destruct (limpiar_ventas_validas pd (frame_of batch)) as [out|e] eqn:Hok;
    [|discriminate].
  intros H. injection H as <-. cbn [Ventas_Validas_M Ventas_Resumen_Mensual Ventas_Invalidas_M].
  assert (Hord := ordenado_frame_of batch).
  assert (Hspec := validas_spec pd (frame_of batch) out Hord Hok).
  split; [|split; [|split]].
  - rewrite column_formatear_Sale_ID. apply (validas_Sale_ID_NoDup pd batch out Hok).
  - unfold formatear_fechas_resumen, formatear_fechas. rewrite length_assign.
    apply counts_add_up. intros i r Hin. apply Hspec in Hin.
    destruct Hin as [raw (_ & _ & _ & _ & Hc)]. exact Hc.
  - intros i Hi HN. apply en_iff in Hi. destruct Hi as [f Hf].
    apply In_formatear_fechas in Hf. destruct Hf as [v [Hv _]].
    apply en_iff in HN. destruct HN as [r Hr].
    apply In_df_nulos in Hr. destruct Hr as [raw (Hraw & -> & Hm)].
    apply Hspec in Hv. destruct Hv as [raw' (Hraw' & _ & _ & -> & Hc)].
    rewrite (ordenado_functional _ _ _ _ Hord Hraw' Hraw) in Hc.
    rewrite (mask_nulos_incompleto pd _ raw Hm) in Hc. discriminate.
  - unfold formatear_fechas_invalidas. cbv zeta. rewrite length_assign, length_frame_of.
    apply (invalidas_report_length pd batch).
Qed.

(** The folder of three entries: two valid sales, two months-and-products. *)
Lemma script_tables_witness :
  exists df t,
    cargar_ficheros_en_dataframe pandas2 carpeta_ejemplo = ConColumnas df
    /\ tablas_finales pandas2 (ConColumnas df) = Termina t
    /\ suma (map (fun row => Numero_Transacciones row) (Ventas_Resumen_Mensual t))
       = Z.of_nat (List.length (Ventas_Validas_M t)).
Proof.
  destruct (cargar_ficheros_en_dataframe pandas2 carpeta_ejemplo) as [|df] eqn:Hc;
    [exfalso; vm_compute in Hc; discriminate|].
  destruct (tablas_finales pandas2 (ConColumnas df)) as [f|t] eqn:Ht;
    [exfalso; vm_compute in Hc; injection Hc as <-; vm_compute in Ht; discriminate|].
  exists df, t. split; [reflexivity|]. split; [exact Ht|].
  refine (proj1 (proj2 (script_tables_are_consistent pandas2 carpeta_ejemplo df t Hc Ht))).
Defined.

(* ================================================================== *)
(** ** What the script hands to the database and to the disk *)
(* ================================================================== *)

(** X17. For every loaded frame and every behaviour of the database and of
    the disk: when the cleaning stops the script, no call to [to_sql] or
    [to_csv] is made at all; otherwise the calls made are the first ones of
    the six calls on the three formatted tables (the three loads under the
    table names, then the three exports under [Resultados/<name>.csv]), in
    that order, all six when the run is not stopped; a call that raises is
    the last one; and an export is only ever made after the three
    loads returned. *)
Theorem script_calls_in_order (pd : Pandas) (ext : Exterior) (df_principal : Cargado) :
  (forall f, tablas_finales pd df_principal = Aborta f ->
             script pd ext df_principal = ([], Some f))
  /\ (forall t, tablas_finales pd df_principal = Termina t ->
        let llamadas := fst (script pd ext df_principal) in
        let fin := snd (script pd ext df_principal) in
        (exists resto, llamadas_de t = llamadas ++ resto
                       /\ (fin = None -> resto = []))
        /\ (forall nombre, fin = Some (FalloBdd nombre) ->
              to_sql_vuelve ext nombre = false
              /\ exists df antes, llamadas = antes ++ [ToSql nombre df "replace"])
        /\ (forall ruta, fin = Some (FalloCsv ruta) ->
              to_csv_vuelve ext ruta = false
              /\ exists df antes, llamadas = antes ++ [ToCsv ruta df])
        /\ (forall ruta df, In (ToCsv ruta df) llamadas ->
              to_sql_vuelve ext "Ventas_Validas_M" = true
              /\ to_sql_vuelve ext "Ventas_Invalidas_M" = true
              /\ to_sql_vuelve ext "Ventas_Resumen_Mensual" = true)).
Proof.
  split.
  - intros f. unfold tablas_finales, script.
    destruct df_principal as [|df]; [intros H; injection H as <-; reflexivity|].
    destruct (limpiar_ventas_validas pd df); [discriminate|].
    intros H. injection H as <-. reflexivity.
  - intros t. unfold tablas_finales, script.
    destruct df_principal as [|df]; [discriminate|].
    destruct (limpiar_ventas_validas pd df) as [out|e]; [|discriminate].
    intros H. injection H as <-.
    unfold llamadas_de, carga_y_exporta, dataframes_finales, para_cada, seguido,
      cargar_en_bdd, exportar_a_csv, formatear_fechas_de.
    cbn [Ventas_Validas_M Ventas_Invalidas_M Ventas_Resumen_Mensual].
    change ("Resultados/" ++ "Ventas_Validas_M" ++ ".csv")%string
      with "Resultados/Ventas_Validas_M.csv".
    change ("Resultados/" ++ "Ventas_Invalidas_M" ++ ".csv")%string
      with "Resultados/Ventas_Invalidas_M.csv".
    change ("Resultados/" ++ "Ventas_Resumen_Mensual" ++ ".csv")%string
      with "Resultados/Ventas_Resumen_Mensual.csv".
    destruct (to_sql_vuelve ext "Ventas_Validas_M") eqn:S1;
      destruct (to_sql_vuelve ext "Ventas_Invalidas_M") eqn:S2;
      destruct (to_sql_vuelve ext "Ventas_Resumen_Mensual") eqn:S3;
      destruct (to_csv_vuelve ext "Resultados/Ventas_Validas_M.csv") eqn:C1;
      destruct (to_csv_vuelve ext "Resultados/Ventas_Invalidas_M.csv") eqn:C2;
      destruct (to_csv_vuelve ext "Resultados/Ventas_Resumen_Mensual.csv") eqn:C3;
      cbn [fst snd app]; cbv zeta.
    all: split;
      [eexists; split; [reflexivity | intros H; (reflexivity || discriminate)]|].
    all: split;
      [intros nombre H;
       first [ discriminate
             | injection H as <-; split; [assumption|]; eexists;
               first [ eexists []; reflexivity
                     | eexists [_]; reflexivity
                     | eexists [_; _]; reflexivity ] ] |].
    all: split;
      [intros ruta H;
       first [ discriminate
             | injection H as <-; split; [assumption|]; eexists;
               first [ eexists [_; _; _]; reflexivity
                     | eexists [_; _; _; _]; reflexivity
                     | eexists [_; _; _; _; _]; reflexivity ] ] |].
    all: intros ruta df' Hin; simpl in Hin;
      repeat (destruct Hin as [Hin|Hin]; [try discriminate|]);
      try (destruct Hin); auto.
Qed.

(** The folder of three entries, when the table of the invalid sales cannot
    be loaded: two calls are made and nothing is exported. *)
Lemma script_calls_witness :
  exists t,
    tablas_finales pandas2 (cargar_ficheros_en_dataframe pandas2 carpeta_ejemplo)
    = Termina t
    /\ exists resto,
         llamadas_de t
         = fst (script pandas2 exterior_sin_invalidas
                  (cargar_ficheros_en_dataframe pandas2 carpeta_ejemplo)) ++ resto.
Proof.
  destruct (tablas_finales pandas2 (cargar_ficheros_en_dataframe pandas2 carpeta_ejemplo))
    as [f|t] eqn:Ht; [exfalso; vm_compute in Ht; discriminate|].
  exists t. split; [reflexivity|].
  destruct (proj1 (proj2 (script_calls_in_order pandas2 exterior_sin_invalidas
                            (cargar_ficheros_en_dataframe pandas2 carpeta_ejemplo)) t Ht))
    as [resto [H _]].
  exists resto. exact H.
Defined.
